(** * text-duplicate-finder: a shallow embedding of [duplicates.v2.2.py]

    The development follows the script top-down: Python's string and
    container primitives first, then the helpers ([normalize_line],
    [get_input_files], [write_duplicates]), the three engines, the deletion
    pipeline and the strategy selector.

    Conventions.
    - A Python [str] is a [string]; an [ascii] stands for the code point of
      the same number (U+0000 .. U+00FF).
    - A Python [int] taken from the command line is a [Z]; counters and
      file ids, which the script only ever builds from [0] upwards, are [nat].
    - A [dict] is an insertion-ordered association list: the script iterates
      over its dictionaries, so the order of the keys is part of the model.
    - The delimiter is a single character, as the command line documents it. *)

From Stdlib Require Import List String Ascii Bool Arith ZArith NArith Lia.
From Stdlib Require Import Permutation Sorted.
From Stdlib Require Import DecimalString DecimalNat.
From Stdlib Require Import SpecFloat.
Import ListNotations.

Local Open Scope string_scope.
Local Open Scope list_scope.

(** ** Python string primitives *)

Module PyStr.

(** [str.isspace] on the code points below 256: TAB..CR, FS..US, space,
    NEL and NBSP. *)
Definition is_space (c : ascii) : bool :=
  let n := N_of_ascii c in
  (((9 <=? n) && (n <=? 13)) || ((28 <=? n) && (n <=? 32))
   || (n =? 133) || (n =? 160))%N.

Fixpoint lstrip (s : string) : string :=
  match s with
  | EmptyString => EmptyString
  | String c s' => if is_space c then lstrip s' else s
  end.

Fixpoint rstrip (s : string) : string :=
  match s with
  | EmptyString => EmptyString
  | String c s' =>
      match rstrip s' with
      | EmptyString => if is_space c then EmptyString else String c EmptyString
      | r => String c r
      end
  end.

(** [s.strip()] *)
Definition strip (s : string) : string := rstrip (lstrip s).

(** [bool(s)]: a string is truthy when it is not empty. *)
Definition truthy (s : string) : bool :=
  match s with EmptyString => false | _ => true end.

(** [s.split(d, maxsplit)] for [maxsplit >= 0]: at most [maxsplit] cuts, the
    last segment keeps the rest of the string. *)
Fixpoint split_max (d : ascii) (maxsplit : nat) (s : string) : list string :=
  match s with
  | EmptyString => [EmptyString]
  | String c s' =>
      if Ascii.eqb c d then
        match maxsplit with
        | O => [s]
        | S m => EmptyString :: split_max d m s'
        end
      else
        match split_max d maxsplit s' with
        | [] => [String c EmptyString]
        | f :: fs => String c f :: fs
        end
  end.

(** [s.split(d)]: every delimiter cuts. *)
Definition fields (d : ascii) (s : string) : list string :=
  split_max d (String.length s) s.

(** [s.split(d, count)] for a [count] that fits a C [Py_ssize_t], that is
    [- 2 ^ 63 <= count < 2 ^ 63]: a negative [count] puts no limit.  For a
    [count] outside this range the call raises [OverflowError]; the
    statements on the keys of lines are made for counts inside it. *)
Definition split (d : ascii) (count : Z) (s : string) : list string :=
  if (count <? 0)%Z then fields d s else split_max d (Z.to_nat count) s.

(** [d.join(l)] *)
Definition join (d : ascii) (l : list string) : string :=
  String.concat (String d EmptyString) l.

(** [l[:n]] on a list, with Python's reading of a negative bound. *)
Definition slice_to {A : Type} (n : Z) (l : list A) : list A :=
  if (n <? 0)%Z then firstn (List.length l - Z.to_nat (- n)) l
  else firstn (Z.to_nat n) l.

Fixpoint take (n : nat) (s : string) : string :=
  match n, s with
  | O, _ => EmptyString
  | S _, EmptyString => EmptyString
  | S m, String c s' => String c (take m s')
  end.

(** [s[:n]] on a string. *)
Definition prefix_to (n : Z) (s : string) : string :=
  if (n <? 0)%Z then take (String.length s - Z.to_nat (- n)) s
  else take (Z.to_nat n) s.

Fixpoint map_chars (f : ascii -> ascii) (s : string) : string :=
  match s with
  | EmptyString => EmptyString
  | String c s' => String (f c) (map_chars f s')
  end.

(** [s.replace(a, b)] for single characters. *)
Definition replace (a b : ascii) (s : string) : string :=
  map_chars (fun c => if Ascii.eqb c a then b else c) s.

Fixpoint mem_char (a : ascii) (s : string) : bool :=
  match s with
  | EmptyString => false
  | String c s' => Ascii.eqb c a || mem_char a s'
  end.

(** [str(n)] and [int(s)] on the decimal numerals the script writes. *)
Definition str_of_nat (n : nat) : string :=
  NilZero.string_of_uint (Nat.to_uint n).

Definition int_of_str (s : string) : option nat :=
  option_map Nat.of_uint (NilZero.uint_of_string s).

End PyStr.

(** ** Configuration: [config = vars(args)] *)

Record Config : Type := mkConfig {
  write_length : Z;
  hash_fields : Z;
  hash_delimiter : ascii;
  merge_batch_size : Z;
  deleteduplicates : bool
}.

(** ** [normalize_line] *)

(** [delimiter.join(line.strip().split(delimiter, count)[:count])], for a
    [count] that [str.split] accepts. *)
Definition normalize_line (line : string) (delimiter : ascii) (count : Z)
  : string :=
  PyStr.join delimiter
    (PyStr.slice_to count (PyStr.split delimiter count (PyStr.strip line))).

(** The key as the data model's sentence words it: [K] segments, the last of
    which keeps the residue of the line, so that only [K - 1] delimiters
    cut. *)
Definition normalize_line_residue (line : string) (delimiter : ascii)
  (count : Z) : string :=
  PyStr.join delimiter
    (PyStr.split_max delimiter (Z.to_nat count - 1) (PyStr.strip line)).

(** ** Python containers *)

(** A [dict]: an association list in insertion order.  Assigning to a key
    that is present replaces its value in place; a new key goes to the
    end. *)
Module PyDict.
Section Dict.
Context {K V : Type}.
Variable eqb : K -> K -> bool.

Definition dict : Type := list (K * V).

Fixpoint get (k : K) (d : dict) : option V :=
  match d with
  | [] => None
  | (k', v) :: d' => if eqb k k' then Some v else get k d'
  end.

Fixpoint set (k : K) (v : V) (d : dict) : dict :=
  match d with
  | [] => [(k, v)]
  | (k', v') :: d' =>
      if eqb k k' then (k', v) :: d' else (k', v') :: set k v d'
  end.

Definition mem (k : K) (d : dict) : bool :=
  match get k d with Some _ => true | None => false end.

Definition keys (d : dict) : list K := map fst d.
Definition values (d : dict) : list V := map snd d.

(** [d.update(other)] *)
Definition update (d other : dict) : dict :=
  fold_left (fun acc kv => set (fst kv) (snd kv) acc) other d.

End Dict.
End PyDict.

Abbreviation sdict V := (list (string * V)).
Abbreviation sget := (PyDict.get String.eqb).
Abbreviation sset := (PyDict.set String.eqb).
Abbreviation nget := (PyDict.get Nat.eqb).
Abbreviation nset := (PyDict.set Nat.eqb).

(** A [set] of strings, used for membership and size only. *)
Definition set_add (x : string) (s : list string) : list string :=
  if existsb (String.eqb x) s then s else s ++ [x].

Definition set_mem (x : string) (s : list string) : bool :=
  existsb (String.eqb x) s.

(** [list.sort] and [sorted]: a stable sort, here by insertion.  [le] is
    the comparison of the sort keys. *)
Section Sorting.
Context {A : Type}.
Variable le : A -> A -> bool.

Fixpoint insert_sorted (x : A) (l : list A) : list A :=
  match l with
  | [] => [x]
  | y :: l' => if le x y then x :: l else y :: insert_sorted x l'
  end.

Fixpoint py_sort (l : list A) : list A :=
  match l with
  | [] => []
  | x :: l' => insert_sorted x (py_sort l')
  end.

End Sorting.

Definition sorted_strings : list string -> list string :=
  py_sort String.leb.

Definition sorted_nats : list nat -> list nat :=
  py_sort Nat.leb.

(** ** Files *)

(** A file of the input directory: its basename, its size in bytes and the
    lines a text-mode iteration yields (each with its newline, the last one
    possibly without). *)
Record File : Type := mkFile {
  name : string;
  st_size : Z;
  content : list string
}.

(** What [input_dir.glob(file_pattern)] yields, in the order the directory
    enumerates it. *)
Record Entry : Type := mkEntry {
  entry_is_file : bool;
  entry_file : File
}.

(** [get_input_files]: [None] stands for a path that is no directory. *)
Definition get_input_files (input_dir : option (list Entry)) : list File :=
  match input_dir with
  | None => []
  | Some matches =>
      let files := map entry_file (filter entry_is_file matches) in
      py_sort (fun f g => (st_size f <=? st_size g)%Z) files
  end.

(** [{i: f.name for i, f in enumerate(files)}], read at a key that
    [enumerate] produced. *)
Definition id_to_file_map (files : list File) (i : nat) : string :=
  match nth_error files i with
  | Some f => name f
  | None => EmptyString
  end.

(** The order the data model's third invariant words: size first, basename
    second. *)
Definition size_then_name_le (f g : File) : bool :=
  (st_size f <? st_size g)%Z
  || ((st_size f =? st_size g)%Z && String.leb (name f) (name g)).

Definition files_by_size_then_name (input_dir : option (list Entry))
  : list File :=
  match input_dir with
  | None => []
  | Some matches =>
      py_sort size_then_name_le (map entry_file (filter entry_is_file matches))
  end.

(** ** [write_duplicates] *)

Definition NL : string := String "010" EmptyString.
Definition TAB : ascii := "009"%char.

Definition a_acute : string := String (ascii_of_nat 225) EmptyString.
Definition e_acute : string := String (ascii_of_nat 233) EmptyString.
Definition o_acute : string := String (ascii_of_nat 243) EmptyString.
Definition o_uml : string := String (ascii_of_nat 246) EmptyString.
Definition u_uml : string := String (ascii_of_nat 252) EmptyString.

(** "Nem található duplikátum." *)
Definition NO_DUPLICATES : string :=
  "Nem tal" ++ a_acute ++ "lhat" ++ o_acute ++ " duplik" ++ a_acute ++ "tum.".

(** "(Fájlon belüli duplikátumok) " *)
Definition INTRA_MARKER : string :=
  "(F" ++ a_acute ++ "jlon bel" ++ u_uml ++ "li duplik" ++ a_acute
  ++ "tumok) ".

(** The lines written under one prefix. *)
Definition write_entry (prefix : string) (file_list : list string)
  : list string :=
  (prefix ++ NL)%string ::
  match file_list with
  | [filename] => [("    - " ++ INTRA_MARKER ++ filename ++ NL)%string]
  | _ => map (fun filename => ("    - " ++ filename ++ NL)%string)
             (sorted_strings file_list)
  end.

(** The strings [write_duplicates] writes to the output file, in order. *)
Definition write_duplicates (duplicates_data : sdict (list string))
  : list string :=
  match duplicates_data with
  | [] => [(NO_DUPLICATES ++ NL)%string]
  | _ =>
      let sorted_prefixes := sorted_strings (PyDict.keys duplicates_data) in
      flat_map
        (fun prefix =>
           match sget prefix duplicates_data with
           | Some file_list => write_entry prefix file_list
           | None => []
           end)
        sorted_prefixes
  end.

(** ** Hashing *)

Definition hex_digit (n : N) : ascii :=
  match n with
  | 0 => "0" | 1 => "1" | 2 => "2" | 3 => "3" | 4 => "4" | 5 => "5"
  | 6 => "6" | 7 => "7" | 8 => "8" | 9 => "9" | 10 => "a" | 11 => "b"
  | 12 => "c" | 13 => "d" | 14 => "e" | _ => "f"
  end%N%char.

Fixpoint hex_digits (width : nat) (n : N) (acc : string) : string :=
  match width with
  | O => acc
  | S w => hex_digits w (n / 16)%N (String (hex_digit (n mod 16)%N) acc)
  end.

(** [xxh64(...).hexdigest()]: the sixteen lowercase hexadecimal digits of
    the 64-bit digest. *)
Definition hexdigest (n : N) : string := hex_digits 16 n EmptyString.

(** An outcome of code that may raise or loop. *)
Inductive outcome (A : Type) : Type :=
| Done (a : A)
| Raised
| OutOfFuel.
Arguments Done {A} a.
Arguments Raised {A}.
Arguments OutOfFuel {A}.

(** ** Workers and engines *)

Section Engines.

(** The digest of [xxhash.xxh64(s.encode('utf-8'), seed=2024)] as a number;
    the library is external to the script. *)
Variable xxh64 : string -> N.
Variable config : Config.

Definition hash_normalized_line (line_part : string) : string :=
  hexdigest (xxh64 line_part).

(** The hash the workers compute for a stripped, non-empty line. *)
Definition line_hash (stripped_line : string) : string :=
  hash_normalized_line
    (normalize_line stripped_line (hash_delimiter config) (hash_fields config)).

Definition line_prefix (stripped_line : string) : string :=
  PyStr.prefix_to (write_length config) stripped_line.

(** [next(f, None)] then [for line in f]: the lines after the header. *)
Definition body (f : File) : list string := tl (content f).

(** *** [process_file_fast] *)

Definition fast_step (local_hashes : sdict (string * nat)) (line : string)
  : sdict (string * nat) :=
  let stripped_line := PyStr.strip line in
  if negb (PyStr.truthy stripped_line) then local_hashes
  else
    let h := line_hash stripped_line in
    match sget h local_hashes with
    | None => sset h (line_prefix stripped_line, 1) local_hashes
    | Some (p, c) => sset h (p, S c) local_hashes
    end.

Definition process_file_fast (f : File) : sdict (string * nat) :=
  fold_left fast_step (body f) [].

(** *** [process_file_safe_pass1] *)

Definition safe1_step (local_hashes : sdict nat) (line : string)
  : sdict nat :=
  let stripped_line := PyStr.strip line in
  if PyStr.truthy stripped_line then
    let h := line_hash stripped_line in
    match sget h local_hashes with
    | None => sset h 1 local_hashes
    | Some c => sset h (S c) local_hashes
    end
  else local_hashes.

Definition process_file_safe_pass1 (f : File) : sdict nat :=
  fold_left safe1_step (body f) [].

(** *** [process_file_safe_pass2] *)

Definition safe2_step (duplicate_hashes : list string)
  (results : sdict string) (line : string) : sdict string :=
  let stripped_line := PyStr.strip line in
  if negb (PyStr.truthy stripped_line) then results
  else
    let h := line_hash stripped_line in
    if set_mem h duplicate_hashes && negb (PyDict.mem String.eqb h results)
    then sset h (line_prefix stripped_line) results
    else results.

Definition process_file_safe_pass2 (f : File)
  (duplicate_hashes : list string) : sdict string :=
  match duplicate_hashes with
  | [] => []
  | _ => fold_left (safe2_step duplicate_hashes) (body f) []
  end.

(** *** [process_and_sort_chunk_disk] *)

Definition DISK_CHUNK_SIZE_MB : N := 128.

(** The successive results of [f_in.readlines(hint)]: lines are taken until
    their lengths add up to more than [hint]. *)
Fixpoint readlines_chunks (hint : N) (acc : list string) (n : N)
  (lines : list string) : list (list string) :=
  match lines with
  | [] => match acc with [] => [] | _ => [rev acc] end
  | line :: rest =>
      let n' := (n + N.of_nat (String.length line))%N in
      if (hint <? n')%N
      then rev (line :: acc) :: readlines_chunks hint [] 0%N rest
      else readlines_chunks hint (line :: acc) n' rest
  end.

Definition disk_record (file_id : nat) (line : string)
  : option (string * nat * string) :=
  let stripped_line := PyStr.strip line in
  if negb (PyStr.truthy stripped_line) then None
  else
    let prefix := PyStr.replace TAB " "%char (line_prefix stripped_line) in
    let normalized :=
      normalize_line stripped_line (hash_delimiter config)
        (hash_fields config) in
    if negb (PyStr.truthy normalized) then None
    else Some (hash_normalized_line normalized, file_id, prefix).

Fixpoint filter_some {A : Type} (l : list (option A)) : list A :=
  match l with
  | [] => []
  | Some a :: l' => a :: filter_some l'
  | None :: l' => filter_some l'
  end.

Definition TABS : string := String TAB EmptyString.

Definition disk_line (r : string * nat * string) : string :=
  let '(h, fid, pref) := r in
  (h ++ TABS ++ PyStr.str_of_nat fid ++ TABS ++ pref ++ NL)%string.

(** One sorted run: the records of a chunk, stably sorted on the hash. *)
Definition disk_chunk (file_id : nat) (lines : list string) : list string :=
  let processed_lines := filter_some (map (disk_record file_id) lines) in
  map disk_line
    (py_sort (fun x y => String.leb (fst (fst x)) (fst (fst y)))
       processed_lines).

(** The contents of the chunk files of one input file, in order. *)
Definition process_and_sort_chunk_disk (f : File) (file_id : nat)
  : list (list string) :=
  map (disk_chunk file_id)
    (readlines_chunks (DISK_CHUNK_SIZE_MB * 1024 * 1024)%N [] 0%N (body f)).

End Engines.

(** ** The deletion pipeline *)

Section Deletion.

Variable xxh64 : string -> N.
Variable config : Config.

Let line_hash := line_hash xxh64 config.
Let line_prefix := line_prefix config.

(** *** [find_and_delete_intrafile_duplicates] *)

(** The loop over the lines after the header: the hashes seen, the lines
    kept (in reverse) and the number of lines dropped. *)
Definition intra_step (st : list string * list string * nat) (line : string)
  : list string * list string * nat :=
  let '(seen_hashes, kept, deleted_count) := st in
  let stripped_line := PyStr.strip line in
  if negb (PyStr.truthy stripped_line)
  then (seen_hashes, line :: kept, deleted_count)
  else
    let h := line_hash stripped_line in
    if negb (set_mem h seen_hashes)
    then (set_add h seen_hashes, line :: kept, deleted_count)
    else (seen_hashes, kept, S deleted_count).

(** The new content of the file and the number of deleted lines. *)
Definition find_and_delete_intrafile_duplicates (original : list string)
  : list string * nat :=
  let header_lines :=
    match original with
    | header :: _ => if PyStr.truthy header then [header] else []
    | [] => []
    end in
  let '(_, kept, deleted_count) :=
    fold_left intra_step (tl original) ([], [], 0) in
  if (0 <? deleted_count)%nat
  then ((header_lines ++ rev kept)%list, deleted_count)
  else (original, deleted_count).

(** *** [delete_rows_from_file] *)

(** The three paths the function touches: the file itself, the temporary
    file (fresh, so absent at the start) and the [.backup] copy. *)
Record Slots : Type := mkSlots {
  target : list string;
  temp : option (list string);
  backup : option (list string)
}.

(** Where an I/O operation of the [try] block raises, if one does.
    [FailCopy n]: reading the original or writing the temporary file raises
    after [n] lines were copied.  [FailBackup b]: [shutil.copy2] raises and
    leaves [b] at the backup path.  [FailMove t]: [shutil.move] raises; the
    target was left alone ([None]) or holds [t]. *)
Inductive Fault : Type :=
| NoFault
| FailTempCreate
| FailCopy (n : nat)
| FailBackup (b : option (list string))
| FailMove (t : option (list string))
| FailUnlink.

(** What the inner [with] block writes to the temporary file. *)
Definition filtered_rows (lines_to_remove : list string)
  (original : list string) : list string :=
  match original with
  | [] => []
  | header :: rest =>
      ((if PyStr.truthy header then [header] else [])
       ++ filter (fun line => negb (set_mem (PyStr.strip line) lines_to_remove))
            rest)%list
  end.

(** The I/O operations of the [try] block, in the order of the source. *)
Inductive Op : Type :=
| CreateTemp      (* tempfile.NamedTemporaryFile(..., delete=False) *)
| CopyLines       (* the header and the filtered lines, then both closed *)
| CopyBackup      (* shutil.copy2(file_path, backup_path) *)
| MoveTemp        (* shutil.move(str(temp_path), str(file_path)) *)
| UnlinkBackup.   (* backup_path.unlink() *)

(** One operation: the state it leaves and whether it raised. *)
Definition perform (fault : Fault) (lines_to_remove : list string)
  (op : Op) (st : Slots) : Slots * bool :=
  match op, fault with
  | CreateTemp, FailTempCreate => (st, true)
  | CreateTemp, _ => (mkSlots (target st) (Some []) (backup st), false)
  | CopyLines, FailCopy n =>
      (mkSlots (target st)
         (Some (firstn n (filtered_rows lines_to_remove (target st))))
         (backup st), true)
  | CopyLines, _ =>
      (mkSlots (target st)
         (Some (filtered_rows lines_to_remove (target st))) (backup st),
       false)
  | CopyBackup, FailBackup b => (mkSlots (target st) (temp st) b, true)
  | CopyBackup, _ =>
      (mkSlots (target st) (temp st) (Some (target st)), false)
  | MoveTemp, FailMove t =>
      (mkSlots (match t with Some c => c | None => target st end)
         (temp st) (backup st), true)
  | MoveTemp, _ =>
      match temp st with
      | Some c => (mkSlots c None (backup st), false)
      | None => (st, true)
      end
  | UnlinkBackup, FailUnlink => (st, true)
  | UnlinkBackup, _ => (mkSlots (target st) (temp st) None, false)
  end.

(** The [try] block: the operations run in order until one raises.  The
    result lists the states passed through. *)
Fixpoint try_block (fault : Fault) (lines_to_remove : list string)
  (ops : list Op) (st : Slots) : list Slots * bool :=
  match ops with
  | [] => ([], false)
  | op :: rest =>
      let '(st', raised) := perform fault lines_to_remove op st in
      if raised then ([st'], true)
      else
        let '(states, r) := try_block fault lines_to_remove rest st' in
        (st' :: states, r)
  end.

(** The [except] handler: the temporary file is removed if its path was
    bound and it exists. *)
Definition handler (fault : Fault) (st : Slots) : Slots :=
  match fault with
  | FailTempCreate => st
  | _ => mkSlots (target st) None (backup st)
  end.

(** The states the three paths pass through, and the value returned. *)
Definition delete_rows_trace (fault : Fault) (lines_to_remove : list string)
  (st : Slots) : list Slots * bool :=
  let '(states, raised) :=
    try_block fault lines_to_remove
      [CreateTemp; CopyLines; CopyBackup; MoveTemp; UnlinkBackup] st in
  if raised
  then ((states ++ [handler fault (last states st)])%list, false)
  else (states, true).

Definition delete_rows_from_file (fault : Fault)
  (lines_to_remove : list string) (st : Slots) : bool * Slots :=
  let '(states, ok) := delete_rows_trace fault lines_to_remove st in
  (ok, last states st).

(** The size of a written file: the UTF-8 length of its lines. *)
Definition encoded_size (lines : list string) : Z :=
  fold_right
    (fun line acc =>
       (Z.of_nat
          (List.length
             (List.flat_map
                (fun c => if (N_of_ascii c <? 128)%N then [c] else [c; c])
                (list_ascii_of_string line))) + acc)%Z)
    0%Z lines.

Definition with_content (f : File) (lines : list string) : File :=
  mkFile (name f) (encoded_size lines) lines.

(** A deletion when no I/O operation raises: the file as it is left. *)
Definition rewritten (lines_to_remove : list string) (f : File) : bool * File :=
  let '(ok, st) :=
    delete_rows_from_file NoFault lines_to_remove
      (mkSlots (content f) None None) in
  (ok, with_content f (target st)).

(** *** [collect_duplicate_lines_for_deletion] *)

Definition get_default {V : Type} (k : string) (d : sdict V) (dflt : V) : V :=
  match sget k d with Some v => v | None => dflt end.

(** First scan: the files in which each hash occurs, looking only at the
    lines whose prefix names an inter-file duplicate. *)
Definition scan1_step (inter_file_duplicate_prefixes : list string)
  (file_name : string) (hash_to_files : sdict (list string)) (line : string)
  : sdict (list string) :=
  let stripped_line := PyStr.strip line in
  if negb (PyStr.truthy stripped_line) then hash_to_files
  else
    let prefix := line_prefix stripped_line in
    if set_mem prefix inter_file_duplicate_prefixes then
      let h := line_hash stripped_line in
      sset h (set_add file_name (get_default h hash_to_files [])) hash_to_files
    else hash_to_files.

(** Second scan: the stripped lines of every file under the hashes the
    first scan found in more than one file. *)
Definition scan2_step (multi_file_duplicates : sdict (list string))
  (file_name : string) (lines_to_delete : sdict (sdict (list string)))
  (line : string) : sdict (sdict (list string)) :=
  let stripped_line := PyStr.strip line in
  if negb (PyStr.truthy stripped_line) then lines_to_delete
  else
    let h := line_hash stripped_line in
    if PyDict.mem String.eqb h multi_file_duplicates then
      let per_file := get_default h lines_to_delete [] in
      let lines := get_default file_name per_file [] in
      sset h (sset file_name (lines ++ [stripped_line])%list per_file)
        lines_to_delete
    else lines_to_delete.

Definition collect_duplicate_lines_for_deletion (files : list File)
  (duplicates_data : sdict (list string)) : sdict (sdict (list string)) :=
  let inter_file_duplicate_prefixes :=
    map fst
      (filter (fun kv => (1 <? List.length (snd kv))%nat) duplicates_data) in
  match inter_file_duplicate_prefixes with
  | [] => []
  | _ =>
      let hash_to_files :=
        fold_left
          (fun acc f =>
             fold_left (scan1_step inter_file_duplicate_prefixes (name f))
               (body f) acc)
          files [] in
      let multi_file_duplicates :=
        filter (fun kv => (1 <? List.length (snd kv))%nat) hash_to_files in
      fold_left
        (fun acc f =>
           fold_left (scan2_step multi_file_duplicates (name f)) (body f) acc)
        files []
  end.

(** *** [delete_duplicate_rows] *)

(** [for f in files: if f.name == delete_file: ... break], then the
    rewriting of that file: the new file list and whether a file was
    rewritten. *)
Fixpoint delete_in_first (delete_file : string)
  (lines_to_remove : list string) (files : list File) : bool * list File :=
  match files with
  | [] => (false, [])
  | f :: rest =>
      if String.eqb (name f) delete_file then
        let '(ok, f') := rewritten lines_to_remove f in (ok, f' :: rest)
      else
        let '(ok, rest') := delete_in_first delete_file lines_to_remove rest in
        (ok, f :: rest')
  end.

Definition counts_add (k : string) (n : nat) (d : sdict nat) : sdict nat :=
  sset k (get_default k d 0 + n) d.

(** Stage 1 for one hash: the first basename in sorted order is kept, the
    listed lines are removed from each of the others. *)
Definition delete_for_hash (st : list File * sdict nat)
  (entry : string * sdict (list string)) : list File * sdict nat :=
  let file_lines_map := snd entry in
  match py_sort String.leb (PyDict.keys file_lines_map) with
  | [] => st
  | keep_file :: delete_files =>
      fold_left
        (fun st delete_file =>
           let '(files, inter_file_deleted_counts) := st in
           let lines_to_remove := get_default delete_file file_lines_map [] in
           let '(ok, files') :=
             delete_in_first delete_file lines_to_remove files in
           if ok
           then (files',
                 counts_add delete_file (List.length lines_to_remove)
                   inter_file_deleted_counts)
           else (files', inter_file_deleted_counts))
        delete_files st
  end.

Definition delete_inter_file (files : list File)
  (lines_to_delete : sdict (sdict (list string))) : list File * sdict nat :=
  fold_left delete_for_hash lines_to_delete (files, []).

(** Stage 2: every file loses its repeated hashes. *)
Definition delete_intra_file (files : list File) : list File * sdict nat :=
  fold_left
    (fun st f =>
       let '(done, intra_file_deleted_counts) := st in
       let '(lines, intra_deleted) :=
         find_and_delete_intrafile_duplicates (content f) in
       ((done ++ [if (0 <? intra_deleted)%nat then with_content f lines
                  else f])%list,
        if (0 <? intra_deleted)%nat
        then sset (name f) intra_deleted intra_file_deleted_counts
        else intra_file_deleted_counts))
    files ([], []).

(** " -> Törölve N sor" *)
Definition deleted_note (filename : string) (n : nat) : string :=
  (filename ++ " -> T" ++ o_uml ++ "r" ++ o_uml ++ "lve "
   ++ PyStr.str_of_nat n ++ " sor")%string.

(** Stage 3: the file lists of the report carry the numbers of deleted
    lines.  ([file_list[0]] would raise on an empty list; the engines build
    none, and the model leaves such an entry as it is.) *)
Definition annotate (inter_counts intra_counts : sdict nat)
  (kv : string * list string) : string * list string :=
  let '(prefix, file_list) := kv in
  if (1 <? List.length file_list)%nat then
    (prefix,
     map (fun filename =>
            let n := get_default filename inter_counts 0 in
            if (0 <? n)%nat then deleted_note filename n else filename)
       file_list)
  else
    match file_list with
    | filename :: _ =>
        let n := get_default filename intra_counts 0 in
        if (0 <? n)%nat then (prefix, [deleted_note filename n]) else kv
    | [] => kv
    end.

(** [listed_file.split(' ->')[0]]: the text before the first " ->". *)
Fixpoint before_arrow (s : string) : string :=
  match s with
  | EmptyString => EmptyString
  | String c s' =>
      if String.prefix " ->" s then EmptyString else String c (before_arrow s')
  end.

(** "(Csak fájlon belüli duplikátumok - NAME)" *)
Definition dummy_prefix (filename : string) : string :=
  ("(Csak f" ++ a_acute ++ "jlon bel" ++ u_uml ++ "li duplik" ++ a_acute
   ++ "tumok - " ++ filename ++ ")")%string.

(** Stage 4: a file that lost lines inside and is listed nowhere gets an
    entry of its own. *)
Definition add_unlisted (data : sdict (list string)) (kv : string * nat)
  : sdict (list string) :=
  let '(filename, deleted_count) := kv in
  if (0 <? deleted_count)%nat then
    let already_listed :=
      existsb
        (fun file_list =>
           existsb (fun listed_file =>
                      String.eqb (before_arrow listed_file) filename)
             file_list)
        (PyDict.values data) in
    if already_listed then data
    else sset (dummy_prefix filename) [deleted_note filename deleted_count] data
  else data.

Definition delete_duplicate_rows (files : list File)
  (lines_to_delete : sdict (sdict (list string)))
  (duplicates_data : sdict (list string))
  : list File * sdict (list string) :=
  let '(files1, inter_file_deleted_counts) :=
    delete_inter_file files lines_to_delete in
  let '(files2, intra_file_deleted_counts) := delete_intra_file files1 in
  let modified :=
    map (annotate inter_file_deleted_counts intra_file_deleted_counts)
      duplicates_data in
  (files2, fold_left add_unlisted intra_file_deleted_counts modified).

(** The common tail of the three engines: the optional deletion, then the
    report.  The result is the files as they are left and the lines of
    [duplicates.txt]. *)
Definition finish (files : list File) (output_data : sdict (list string))
  : list File * list string :=
  if deleteduplicates config then
    let lines_to_delete :=
      collect_duplicate_lines_for_deletion files output_data in
    let '(files', output_data') :=
      delete_duplicate_rows files lines_to_delete output_data in
    (files', write_duplicates output_data')
  else (files, write_duplicates output_data).

End Deletion.

(** ** The three strategies *)

Section Strategies.

Variable xxh64 : string -> N.
Variable config : Config.

Let finish := finish xxh64 config.

(** The file names of a counter's keys, in ascending file id. *)
Definition names_of (files : list File) (file_counts : list (nat * nat))
  : list string :=
  map (id_to_file_map files) (sorted_nats (PyDict.keys file_counts)).

Definition total_of (file_counts : list (nat * nat)) : nat :=
  list_sum (PyDict.values file_counts).

(** *** [run_strategy_fast]

    [order] lists the file ids in the order in which [as_completed] hands
    the workers' results to the driver. *)

Definition fast_merge (file_id : nat)
  (global_hashes : sdict (string * list (nat * nat)))
  (kv : string * (string * nat)) : sdict (string * list (nat * nat)) :=
  let '(h, (prefix, count)) := kv in
  let '(p0, counts) := get_default h global_hashes (EmptyString, []) in
  sset h (if PyStr.truthy p0 then p0 else prefix, nset file_id count counts)
    global_hashes.

Definition fast_global (files : list File) (order : list nat)
  : sdict (string * list (nat * nat)) :=
  fold_left
    (fun global_hashes file_id =>
       match nth_error files file_id with
       | Some f =>
           fold_left (fast_merge file_id) (process_file_fast xxh64 config f)
             global_hashes
       | None => global_hashes
       end)
    order [].

Definition fast_collect (files : list File)
  (acc : sdict (list string) * sdict (list string))
  (entry : string * (string * list (nat * nat)))
  : sdict (list string) * sdict (list string) :=
  let '(output_data, intra_file_duplicates) := acc in
  let '(_, (prefix, file_counts)) := entry in
  if (1 <? List.length file_counts)%nat then
    (sset prefix (names_of files file_counts) output_data,
     intra_file_duplicates)
  else if (1 <? total_of file_counts)%nat then
    (output_data,
     sset prefix [id_to_file_map files (hd 0 (PyDict.keys file_counts))]
       intra_file_duplicates)
  else acc.

(** The loop over [global_hashes.items()], then
    [output_data.update(intra_file_duplicates)]. *)
Definition fast_collect_all (files : list File)
  (global_hashes : sdict (string * list (nat * nat)))
  : sdict (list string) :=
  let '(output_data, intra_file_duplicates) :=
    fold_left (fast_collect files) global_hashes ([], []) in
  PyDict.update String.eqb output_data intra_file_duplicates.

(** [output_data] as it stands before the deletion and the report. *)
Definition fast_output (files : list File) (order : list nat)
  : sdict (list string) :=
  fast_collect_all files (fast_global files order).

Definition run_strategy_fast (files : list File) (order : list nat)
  : list File * list string :=
  finish files (fast_output files order).

(** *** [run_strategy_safe]

    [order1] and [order2] are the completion orders of the two passes. *)

Definition safe_merge1 (file_id : nat)
  (hash_to_file_counts : sdict (list (nat * nat))) (kv : string * nat)
  : sdict (list (nat * nat)) :=
  let '(h, count) := kv in
  sset h (nset file_id count (get_default h hash_to_file_counts []))
    hash_to_file_counts.

Definition safe_counts (files : list File) (order1 : list nat)
  : sdict (list (nat * nat)) :=
  fold_left
    (fun acc file_id =>
       match nth_error files file_id with
       | Some f =>
           fold_left (safe_merge1 file_id)
             (process_file_safe_pass1 xxh64 config f) acc
       | None => acc
       end)
    order1 [].

Definition safe_duplicate_hashes
  (hash_to_file_counts : sdict (list (nat * nat))) : list string :=
  PyDict.keys
    (filter
       (fun kv =>
          (1 <? List.length (snd kv))%nat || (1 <? total_of (snd kv))%nat)
       hash_to_file_counts).

Definition safe_prefixes (files : list File) (order2 : list nat)
  (duplicate_hashes : list string) : sdict string :=
  fold_left
    (fun hash_to_prefix_map file_id =>
       match nth_error files file_id with
       | Some f =>
           PyDict.update String.eqb hash_to_prefix_map
             (process_file_safe_pass2 xxh64 config f duplicate_hashes)
       | None => hash_to_prefix_map
       end)
    order2 [].

Definition safe_collect (files : list File)
  (hash_to_file_counts : sdict (list (nat * nat)))
  (duplicate_hashes : list string) (output_data : sdict (list string))
  (kv : string * string) : sdict (list string) :=
  let '(h, prefix) := kv in
  if set_mem h duplicate_hashes then
    let file_counts := get_default h hash_to_file_counts [] in
    if (1 <? List.length file_counts)%nat then
      sset prefix (names_of files file_counts) output_data
    else if (1 <? total_of file_counts)%nat then
      sset prefix [id_to_file_map files (hd 0 (PyDict.keys file_counts))]
        output_data
    else output_data
  else output_data.

Definition safe_output (files : list File) (order1 order2 : list nat)
  : sdict (list string) :=
  let hash_to_file_counts := safe_counts files order1 in
  let duplicate_hashes := safe_duplicate_hashes hash_to_file_counts in
  fold_left (safe_collect files hash_to_file_counts duplicate_hashes)
    (safe_prefixes files order2 duplicate_hashes) [].

(** With no duplicate hash the function writes the empty report and
    returns before the second pass and before any deletion. *)
Definition run_strategy_safe (files : list File) (order1 order2 : list nat)
  : list File * list string :=
  match safe_duplicate_hashes (safe_counts files order1) with
  | [] => (files, write_duplicates [])
  | _ => finish files (safe_output files order1 order2)
  end.

(** *** [run_strategy_disk] *)

(** [heapq.merge] of two line streams: the smaller head first, the first
    stream on a tie. *)
Fixpoint merge2 (l1 : list string) : list string -> list string :=
  fix inner (l2 : list string) : list string :=
    match l1, l2 with
    | [], _ => l2
    | _, [] => l1
    | x :: l1', y :: l2' =>
        if String.leb x y then x :: merge2 l1' l2 else y :: inner l2'
    end.

(** [merge_files]: [heapq.merge] over the opened files takes, at each step,
    the smallest head, from the earliest stream on a tie. *)
Definition merge_files (files_to_merge : list (list string)) : list string :=
  fold_right merge2 [] files_to_merge.

(** [temp_files_for_merge[i:i + n] for i in range(0, len, n)], [n > 0]. *)
Fixpoint batches {A : Type} (fuel : nat) (n : nat) (l : list A)
  : list (list A) :=
  match fuel, l with
  | O, _ => []
  | _, [] => []
  | S fuel', _ => firstn n l :: batches fuel' n (skipn n l)
  end.

(** One level of the cascade. *)
Definition merge_level (batch_size : Z) (runs : list (list string))
  : outcome (list (list string)) :=
  if (batch_size =? 0)%Z then Raised          (* range() step of zero *)
  else if (batch_size <? 0)%Z then Done []    (* an empty range *)
  else
    Done (map merge_files
            (batches (List.length runs) (Z.to_nat batch_size) runs)).

(** [while len(temp_files_for_merge) > 1] *)
Fixpoint cascade (fuel : nat) (batch_size : Z) (runs : list (list string))
  : outcome (list (list string)) :=
  match runs with
  | [] | [_] => Done runs
  | _ =>
      match fuel with
      | O => OutOfFuel
      | S fuel' =>
          match merge_level batch_size runs with
          | Done runs' => cascade fuel' batch_size runs'
          | Raised => Raised
          | OutOfFuel => OutOfFuel
          end
      end
  end.

(** [itertools.groupby]: maximal runs of adjacent lines with the same
    key. *)
Fixpoint groupby (key : string -> string) (l : list string)
  : list (string * list string) :=
  match l with
  | [] => []
  | x :: l' =>
      match groupby key l' with
      | (k, g) :: rest =>
          if String.eqb (key x) k then (k, x :: g) :: rest
          else (key x, [x]) :: (k, g) :: rest
      | [] => [(key x, [x])]
      end
  end.

(** [line.split(DISK_MODE_DELIMITER, 1)[0]] *)
Definition run_key (line : string) : string :=
  hd EmptyString (PyStr.split_max TAB 1 line).

Definition nat_set_add (x : nat) (s : list nat) : list nat :=
  if existsb (Nat.eqb x) s then s else (s ++ [x])%list.

(** The body of [for item in group_items]; a line that does not unpack
    into three fields, or whose id is no number, is skipped. *)
Definition group_step (st : list nat * string) (item : string)
  : list nat * string :=
  let '(file_ids, prefix) := st in
  match PyStr.split_max TAB 2 (PyStr.strip item) with
  | [_; fid_str; current_prefix] =>
      match PyStr.int_of_str fid_str with
      | Some fid =>
          (nat_set_add fid file_ids,
           if PyStr.truthy prefix then prefix else current_prefix)
      | None => st
      end
  | _ => st
  end.

Definition disk_collect (files : list File)
  (output_data : sdict (list string)) (grp : string * list string)
  : sdict (list string) :=
  let group_items := snd grp in
  if (1 <? List.length group_items)%nat then
    let '(file_ids, prefix) :=
      fold_left group_step group_items ([], EmptyString) in
    if PyStr.truthy prefix
    then sset prefix (map (id_to_file_map files) (sorted_nats file_ids))
           output_data
    else output_data
  else output_data.

(** Phase 1: the chunk files of all inputs, in completion order. *)
Definition disk_runs (files : list File) (order : list nat)
  : list (list string) :=
  flat_map
    (fun file_id =>
       match nth_error files file_id with
       | Some f => process_and_sort_chunk_disk xxh64 config f file_id
       | None => []
       end)
    order.

Definition disk_output (fuel : nat) (files : list File) (order : list nat)
  : outcome (sdict (list string)) :=
  match cascade fuel (merge_batch_size config) (disk_runs files order) with
  | Done temp_files_for_merge =>
      match temp_files_for_merge with
      | final_merged_file :: _ =>
          Done (fold_left (disk_collect files)
                  (groupby run_key final_merged_file) [])
      | [] => Done []
      end
  | Raised => Raised
  | OutOfFuel => OutOfFuel
  end.

Definition run_strategy_disk (fuel : nat) (files : list File)
  (order : list nat) : outcome (list File * list string) :=
  match disk_output fuel files order with
  | Done output_data => Done (finish files output_data)
  | Raised => Raised
  | OutOfFuel => OutOfFuel
  end.

End Strategies.

(** ** Python floats

    A [float] is an IEEE 754 binary64 number, here in the specification
    format of the standard library: operations round to nearest, ties to
    even. *)
Module PyFloat.

Definition prec : Z := 53.
Definition emax : Z := 1024.

Definition float : Type := spec_float.

(** [float(z)] as the arithmetic operators apply it to an [int] operand:
    [None] stands for [OverflowError]. *)
Definition of_int (z : Z) : option float :=
  match binary_normalize prec emax z 0 false with
  | S754_infinity _ => None
  | x => Some x
  end.

Definition mul : float -> float -> float := SFmul prec emax.
Definition div : float -> float -> float := SFdiv prec emax.
Definition ltb : float -> float -> bool := SFltb.

(** A literal with one or two decimals: the double nearest to [n / d]. *)
Definition literal (n d : Z) : float :=
  div (binary_normalize prec emax n 0 false)
      (binary_normalize prec emax d 0 false).

(** [int(x)]: [None] stands for the [OverflowError] of an infinity and the
    [ValueError] of a NaN. *)
Definition to_int (x : float) : option Z :=
  match x with
  | S754_zero _ => Some 0%Z
  | S754_finite s m e =>
      let a := if (0 <=? e)%Z then (Zpos m * 2 ^ e)%Z
               else (Zpos m / 2 ^ (- e))%Z in
      Some (if s then (- a)%Z else a)
  | _ => None
  end.

End PyFloat.

(** ** Strategy selection *)

Inductive Strategy : Type := Fast | Safe | Disk.

Definition FAST_MODE_MEMORY_FACTOR : PyFloat.float := PyFloat.literal 4 10.
Definition SAFE_MODE_MEMORY_FACTOR : PyFloat.float := PyFloat.literal 1 10.
Definition RAM_USAGE_THRESHOLD : PyFloat.float := PyFloat.literal 70 100.

(** [int * float]: the integer is converted first. *)
Definition int_times (z : Z) (x : PyFloat.float) : option PyFloat.float :=
  option_map (fun y => PyFloat.mul y x) (PyFloat.of_int z).

(** [int / float] *)
Definition int_over (z : Z) (x : PyFloat.float) : option PyFloat.float :=
  option_map (fun y => PyFloat.div y x) (PyFloat.of_int z).

Definition default_line_length : PyFloat.float :=
  binary_normalize PyFloat.prec PyFloat.emax 150 0 false.

(** [estimate_average_line_length]: the mean length of the first
    [max_lines] non-blank lines after the header, 150.0 when there is none
    (or when anything raises).  [total_length / line_count] is the quotient
    of two integers far below 2^53, hence the quotient of their
    conversions. *)
Definition estimate_average_line_length (file : File) : PyFloat.float :=
  let sample :=
    firstn 10000
      (filter PyStr.truthy (map PyStr.strip (tl (content file)))) in
  match sample with
  | [] => default_line_length
  | _ =>
      let total_length :=
        fold_left (fun acc s => (acc + Z.of_nat (String.length s))%Z)
          sample 0%Z in
      match PyFloat.of_int total_length,
            PyFloat.of_int (Z.of_nat (List.length sample)) with
      | Some a, Some b => PyFloat.div a b
      | _, _ => default_line_length
      end
  end.

(** [max(files, key=lambda f: f.stat().st_size)]: the first file of the
    largest size; [None] stands for the [ValueError] of an empty list. *)
Fixpoint largest_file (files : list File) : option File :=
  match files with
  | [] => None
  | f :: rest =>
      match largest_file rest with
      | Some g => if (st_size f <? st_size g)%Z then Some g else Some f
      | None => Some f
      end
  end.

Definition total_size_bytes (files : list File) : Z :=
  fold_left (fun acc f => (acc + st_size f)%Z) files 0%Z.

(** The estimates of the [try] block up to the decision; [None] when one of
    them raises.  The result holds [ram_limit], [est_fast_mode_ram],
    [est_safe_mode_ram] and [est_disk_space_bytes]. *)
Definition estimates (available_ram_bytes : Z) (files : list File)
  (wlength : Z)
  : option (PyFloat.float * PyFloat.float * PyFloat.float * Z) :=
  let total := total_size_bytes files in
  match int_times available_ram_bytes RAM_USAGE_THRESHOLD with
  | None => None
  | Some ram_limit =>
  match int_times total FAST_MODE_MEMORY_FACTOR with
  | None => None
  | Some est_fast_mode_ram =>
  match int_times total SAFE_MODE_MEMORY_FACTOR with
  | None => None
  | Some est_safe_mode_ram =>
  match largest_file files with
  | None => None
  | Some largest =>
      let avg_line_length := estimate_average_line_length largest in
      let disk_record_length := (16 + 2 + 3 + wlength + 1)%Z in
      match int_over disk_record_length avg_line_length with
      | None => None
      | Some ratio =>
      match int_times total ratio with
      | None => None
      | Some product =>
      match PyFloat.to_int product with
      | None => None
      | Some est_disk_space_bytes =>
          Some (ram_limit, est_fast_mode_ram, est_safe_mode_ram,
                est_disk_space_bytes)
      end end end
  end end end end.

(** [auto_select_strategy].  [memory_probe] is the value of
    [psutil.virtual_memory().available], [None] when the call raises. *)
Definition auto_select_strategy (psutil_available : bool)
  (memory_probe : option Z) (files : list File) (wlength : Z) : Strategy :=
  if negb psutil_available then Safe
  else
    match memory_probe with
    | None => Safe
    | Some available_ram_bytes =>
        match estimates available_ram_bytes files wlength with
        | None => Safe
        | Some (ram_limit, est_fast_mode_ram, est_safe_mode_ram, _) =>
            if PyFloat.ltb est_fast_mode_ram ram_limit then Fast
            else if PyFloat.ltb est_safe_mode_ram ram_limit then Safe
            else Disk
        end
    end.

(** The decision as the specification words it, on the total size and the
    available memory alone: FAST when [total * 0.4 < 0.70 * available],
    else SAFE when [total * 0.1 < 0.70 * available], else DISK.  [None]
    when a number is too large for a float. *)
Definition select_by_thresholds (total available : Z) : option Strategy :=
  match int_times available RAM_USAGE_THRESHOLD,
        int_times total FAST_MODE_MEMORY_FACTOR,
        int_times total SAFE_MODE_MEMORY_FACTOR with
  | Some ram_limit, Some est_fast, Some est_safe =>
      Some (if PyFloat.ltb est_fast ram_limit then Fast
            else if PyFloat.ltb est_safe ram_limit then Safe
            else Disk)
  | _, _, _ => None
  end.

(** ** [main] *)






Section Main.

Variable xxh64 : string -> N.


End Main.

(** ** A concrete 64-bit hash for the examples

    The script takes its hash from a library; the examples below run the
    model with FNV-1a, another 64-bit non-cryptographic hash. *)
Definition fnv1a64 (s : string) : N :=
  fold_left
    (fun h c => ((N.lxor h (N_of_ascii c)) * 1099511628211) mod 2 ^ 64)%N
    (list_ascii_of_string s) 14695981039346656037%N.

Definition default_config : Config :=
  mkConfig 47 6 ";" 256 false.

(** A text file from its lines, each written with a newline. *)
Definition text_file (name : string) (lines : list string) : File :=
  let content := map (fun l => (l ++ NL)%string) lines in
  mkFile name (encoded_size content) content.

(** * Properties *)

(** ** Strings *)

Lemma sapp_assoc (a b c : string) :
  ((a ++ b) ++ c = a ++ (b ++ c))%string.
Proof. induction a as [|x a IH]; simpl; [reflexivity|now rewrite IH]. Qed.

Lemma sapp_nil_r (a : string) : (a ++ "")%string = a.
Proof. induction a as [|x a IH]; simpl; [reflexivity|now rewrite IH]. Qed.

Section SplitFacts.

Variable d : ascii.

Lemma split_max_nonempty (n : nat) (s : string) :
  PyStr.split_max d n s <> [].
Proof.
  revert n; induction s as [|c s IH]; intros n; simpl.
  - discriminate.
  - destruct (Ascii.eqb c d).
    + destruct n; discriminate.
    + destruct (PyStr.split_max d n s); discriminate.
Qed.

(** More cuts than the string has characters change nothing. *)
Lemma split_max_saturate (s : string) (n : nat) :
  String.length s <= n ->
  PyStr.split_max d n s = PyStr.fields d s.
Proof.
  unfold PyStr.fields.
  revert n; induction s as [|c s IH]; intros n Hn; simpl in *.
  - reflexivity.
  - destruct (Ascii.eqb c d).
    + destruct n as [|n]; [lia|].
      rewrite (IH n) by lia. reflexivity.
    + rewrite (IH n) by lia.
      rewrite (IH (S (String.length s))) by lia. reflexivity.
Qed.

(** The first [n] segments do not depend on the cuts allowed beyond [n]. *)
Lemma firstn_split_max (s : string) (n m : nat) :
  n <= m ->
  firstn n (PyStr.split_max d n s) = firstn n (PyStr.split_max d m s).
Proof.
  revert n m; induction s as [|c s IH]; intros n m Hnm; simpl.
  - reflexivity.
  - destruct (Ascii.eqb c d).
    + destruct n as [|n]; [reflexivity|].
      destruct m as [|m]; [lia|].
      simpl. f_equal. apply IH. lia.
    + specialize (IH n m Hnm).
      pose proof (split_max_nonempty n s) as Hn.
      pose proof (split_max_nonempty m s) as Hm.
      destruct (PyStr.split_max d n s) as [|f fs]; [congruence|].
      destruct (PyStr.split_max d m s) as [|g gs]; [congruence|].
      destruct n as [|n]; [reflexivity|].
      simpl in *. injection IH as -> ->. reflexivity.
Qed.

Lemma firstn_split_fields (s : string) (n : nat) :
  firstn n (PyStr.split_max d n s) = firstn n (PyStr.fields d s).
Proof.
  destruct (Nat.le_gt_cases n (String.length s)) as [H|H].
  - apply firstn_split_max, H.
  - rewrite split_max_saturate by lia. reflexivity.
Qed.

(** Joining what was split gives the string back. *)
Lemma join_split_max (n : nat) (s : string) :
  PyStr.join d (PyStr.split_max d n s) = s.
Proof.
  unfold PyStr.join.
  revert n; induction s as [|c s IH]; intros n; simpl.
  - reflexivity.
  - destruct (Ascii.eqb_spec c d) as [->|Hc].
    + destruct n as [|n]; [reflexivity|].
      specialize (IH n).
      pose proof (split_max_nonempty n s) as Hne.
      simpl. destruct (PyStr.split_max d n s) as [|f fs]; [congruence|].
      simpl. f_equal. exact IH.
    + specialize (IH n).
      pose proof (split_max_nonempty n s) as Hne.
      destruct (PyStr.split_max d n s) as [|f fs]; [congruence|].
      simpl in *. destruct fs; simpl in *; f_equal; exact IH.
Qed.

Lemma join_app (l1 l2 : list string) :
  l1 <> [] -> l2 <> [] ->
  PyStr.join d (l1 ++ l2)
  = (PyStr.join d l1 ++ String d (PyStr.join d l2))%string.
Proof.
  unfold PyStr.join. intros H1 H2.
  induction l1 as [|x l1 IH]; [congruence|].
  destruct l1 as [|y l1].
  - simpl. destruct l2; [congruence|]. reflexivity.
  - change ((x :: y :: l1) ++ l2) with (x :: (y :: l1) ++ l2).
    change (concat (String d "") (x :: (y :: l1) ++ l2))
      with (x ++ String d "" ++ concat (String d "") ((y :: l1) ++ l2))%string.
    rewrite IH by discriminate.
    change (concat (String d "") (x :: y :: l1))
      with (x ++ String d "" ++ concat (String d "") (y :: l1))%string.
    rewrite !sapp_assoc. reflexivity.
Qed.

End SplitFacts.

(** ** [normalize_line] *)

(** C5, as the code has it.  For a field count [K] that [str.split]
    accepts, the normalized key is made of the first [K]
    delimiter-separated fields of the trimmed line, joined again by the
    delimiter.  The residue of a longer line is no part of the key: the
    trimmed line is the key, a delimiter and the fields left over. *)
Theorem normalize_line_first_fields (line : string) (d : ascii) (K : Z) :
  (- 2 ^ 63 <= K < 2 ^ 63)%Z ->
  let trimmed := PyStr.strip line in
  let all_fields := PyStr.fields d trimmed in
  normalize_line line d K = PyStr.join d (PyStr.slice_to K all_fields)
  /\ ((0 < K)%Z -> Z.to_nat K < List.length all_fields ->
      trimmed
      = (normalize_line line d K
         ++ String d (PyStr.join d (skipn (Z.to_nat K) all_fields)))%string).
Proof.
  intros _ trimmed all_fields.
  assert (Hkey : normalize_line line d K
                 = PyStr.join d (PyStr.slice_to K all_fields)).
  { unfold normalize_line, PyStr.split, PyStr.slice_to.
    fold trimmed. destruct (K <? 0)%Z eqn:HK.
    - reflexivity.
    - rewrite firstn_split_fields. reflexivity. }
  split; [exact Hkey|].
  intros Hpos Hlen. rewrite Hkey.
  unfold PyStr.slice_to.
  replace (K <? 0)%Z with false by (symmetry; apply Z.ltb_ge; lia).
  rewrite <- join_app.
  - rewrite firstn_skipn. unfold all_fields, PyStr.fields.
    symmetry. apply join_split_max.
  - intro H. apply (f_equal (@List.length string)) in H.
    rewrite length_firstn in H. simpl in H. lia.
  - intro H. apply (f_equal (@List.length string)) in H.
    rewrite length_skipn in H. simpl in H. lia.
Qed.

Lemma normalize_line_first_fields_witness :
  normalize_line "a;b;c;d" ";" 2
  = PyStr.join ";"
      (PyStr.slice_to 2 (PyStr.fields ";" (PyStr.strip "a;b;c;d")))
  /\ PyStr.strip "a;b;c;d"
     = (normalize_line "a;b;c;d" ";" 2
        ++ String ";"
             (PyStr.join ";"
                (skipn 2 (PyStr.fields ";" (PyStr.strip "a;b;c;d")))))%string.
Proof.
  assert (Hrange : (- 2 ^ 63 <= 2 < 2 ^ 63)%Z)
    by (split; [vm_compute; discriminate|reflexivity]).
  destruct (normalize_line_first_fields "a;b;c;d" ";" 2 Hrange) as [H1 H2].
  split; [exact H1|].
  apply H2; [reflexivity|vm_compute; repeat constructor].
Defined.

(** C5 as it is worded fails: the residue ["c;d"] is cut off. *)
Lemma normalize_line_drops_residue :
  normalize_line "a;b;c;d" ";" 2 <> normalize_line_residue "a;b;c;d" ";" 2.
Proof. vm_compute. discriminate. Qed.

(** ** The order of strings *)

Lemma ascii_compare_refl (a : ascii) : Ascii.compare a a = Eq.
Proof. unfold Ascii.compare. apply N.compare_refl. Qed.

Lemma ascii_compare_lt_trans (a b c : ascii) :
  Ascii.compare a b = Lt -> Ascii.compare b c = Lt -> Ascii.compare a c = Lt.
Proof.
  unfold Ascii.compare. rewrite !N.compare_lt_iff. apply N.lt_trans.
Qed.

Lemma string_compare_refl (s : string) : String.compare s s = Eq.
Proof.
  induction s as [|c s IH]; simpl; [reflexivity|].
  now rewrite ascii_compare_refl.
Qed.

Lemma string_compare_lt_trans (s1 s2 s3 : string) :
  String.compare s1 s2 = Lt -> String.compare s2 s3 = Lt ->
  String.compare s1 s3 = Lt.
Proof.
  revert s2 s3; induction s1 as [|a s1 IH]; intros [|b s2] [|c s3];
    simpl; try congruence.
  destruct (Ascii.compare a b) eqn:Hab; try discriminate;
    destruct (Ascii.compare b c) eqn:Hbc; try discriminate; intros H1 H2.
  - apply Ascii.compare_eq_iff in Hab, Hbc. subst.
    rewrite ascii_compare_refl. eapply IH; eassumption.
  - apply Ascii.compare_eq_iff in Hab. subst. now rewrite Hbc.
  - apply Ascii.compare_eq_iff in Hbc. subst. now rewrite Hab.
  - now rewrite (ascii_compare_lt_trans a b c).
Qed.

Lemma string_leb_refl (s : string) : String.leb s s = true.
Proof. unfold String.leb. now rewrite string_compare_refl. Qed.

Lemma string_leb_trans (s1 s2 s3 : string) :
  String.leb s1 s2 = true -> String.leb s2 s3 = true ->
  String.leb s1 s3 = true.
Proof.
  unfold String.leb.
  destruct (String.compare s1 s2) eqn:H12; try discriminate;
    destruct (String.compare s2 s3) eqn:H23; try discriminate; intros _ _.
  - apply String.compare_eq_iff in H12, H23. subst.
    now rewrite string_compare_refl.
  - apply String.compare_eq_iff in H12. subst. now rewrite H23.
  - apply String.compare_eq_iff in H23. subst. now rewrite H12.
  - now rewrite (string_compare_lt_trans s1 s2 s3).
Qed.

(** ** Sorting *)

Section SortFacts.

Context {A : Type}.
Variable le : A -> A -> bool.

Lemma insert_sorted_perm (x : A) (l : list A) :
  Permutation (insert_sorted le x l) (x :: l).
Proof.
  induction l as [|y l IH]; simpl.
  - apply Permutation_refl.
  - destruct (le x y).
    + apply Permutation_refl.
    + eapply perm_trans; [apply perm_skip, IH|apply perm_swap].
Qed.

Lemma py_sort_perm (l : list A) : Permutation (py_sort le l) l.
Proof.
  induction l as [|x l IH]; simpl.
  - apply perm_nil.
  - eapply perm_trans; [apply insert_sorted_perm|apply perm_skip, IH].
Qed.

Lemma py_sort_length (l : list A) :
  List.length (py_sort le l) = List.length l.
Proof. apply Permutation_length, py_sort_perm. Qed.

Lemma py_sort_in (x : A) (l : list A) : In x (py_sort le l) <-> In x l.
Proof.
  split; apply Permutation_in;
    [apply py_sort_perm|apply Permutation_sym, py_sort_perm].
Qed.

(** Stability: elements that the order does not tell apart stay in the
    order in which they came. *)
Lemma insert_sorted_filter (p : A -> bool) (x : A) (l : list A) :
  (forall a b, p a = true -> p b = true -> le a b = true) ->
  filter p (insert_sorted le x l) = filter p (x :: l).
Proof.
  intros Hp. induction l as [|y l IH]; simpl in *.
  - reflexivity.
  - destruct (le x y) eqn:Hxy; simpl.
    + reflexivity.
    + rewrite IH. destruct (p x) eqn:Hx, (p y) eqn:Hy; try reflexivity.
      rewrite (Hp x y Hx Hy) in Hxy. discriminate.
Qed.

Lemma py_sort_stable (p : A -> bool) (l : list A) :
  (forall a b, p a = true -> p b = true -> le a b = true) ->
  filter p (py_sort le l) = filter p l.
Proof.
  intros Hp. induction l as [|x l IH]; simpl.
  - reflexivity.
  - rewrite insert_sorted_filter by exact Hp. simpl. now rewrite IH.
Qed.

Hypothesis le_total : forall a b, le a b = true \/ le b a = true.
Hypothesis le_trans :
  forall a b c, le a b = true -> le b c = true -> le a c = true.

Let lep (a b : A) : Prop := le a b = true.

Lemma insert_sorted_sorted (x : A) (l : list A) :
  StronglySorted lep l -> StronglySorted lep (insert_sorted le x l).
Proof.
  induction 1 as [|y l Hs IH Hy]; simpl.
  - constructor; constructor.
  - destruct (le x y) eqn:Hxy.
    + constructor; [constructor; assumption|].
      constructor; [exact Hxy|].
      eapply Forall_impl; [|exact Hy].
      intros z Hz. eapply le_trans; eassumption.
    + constructor; [exact IH|].
      assert (Hyx : lep y x)
        by (destruct (le_total x y); [congruence|assumption]).
      rewrite Forall_forall in *. intros z Hz.
      apply (Permutation_in _ (insert_sorted_perm x l)) in Hz.
      destruct Hz as [<-|Hz]; [exact Hyx|apply Hy, Hz].
Qed.

Lemma py_sort_sorted (l : list A) : StronglySorted lep (py_sort le l).
Proof.
  induction l as [|x l IH]; simpl.
  - constructor.
  - apply insert_sorted_sorted, IH.
Qed.

Hypothesis le_antisym : forall a b, le a b = true -> le b a = true -> a = b.

(** A sorted list is determined by its elements. *)
Lemma sorted_perm_eq (l1 l2 : list A) :
  StronglySorted lep l1 -> StronglySorted lep l2 -> Permutation l1 l2 ->
  l1 = l2.
Proof.
  intros H1; revert l2; induction H1 as [|x l1 Hs1 IH Hx]; intros l2 H2 HP.
  - apply Permutation_nil in HP. now subst.
  - destruct H2 as [|y l2 Hs2 Hy].
    + apply Permutation_sym, Permutation_nil in HP. discriminate.
    + assert (x = y) as <-.
      { assert (Hxin : In x (y :: l2))
          by (eapply Permutation_in; [exact HP|now left]).
        assert (Hyin : In y (x :: l1))
          by (eapply Permutation_in;
              [apply Permutation_sym, HP|now left]).
        rewrite Forall_forall in Hx, Hy.
        destruct Hxin as [->|Hxin]; [reflexivity|].
        destruct Hyin as [->|Hyin]; [reflexivity|].
        apply le_antisym; [apply Hx, Hyin|apply Hy, Hxin]. }
      f_equal. apply IH; [exact Hs2|].
      eapply Permutation_cons_inv; exact HP.
Qed.

Lemma py_sort_perm_eq (l1 l2 : list A) :
  Permutation l1 l2 -> py_sort le l1 = py_sort le l2.
Proof.
  intros HP. apply sorted_perm_eq; try apply py_sort_sorted.
  eapply perm_trans; [apply py_sort_perm|].
  eapply perm_trans; [exact HP|apply Permutation_sym, py_sort_perm].
Qed.

End SortFacts.

Lemma sorted_strings_sorted (l : list string) :
  StronglySorted (fun a b => String.leb a b = true) (sorted_strings l).
Proof.
  apply py_sort_sorted; [apply String.leb_total|apply string_leb_trans].
Qed.

Lemma sorted_strings_perm_eq (l1 l2 : list string) :
  Permutation l1 l2 -> sorted_strings l1 = sorted_strings l2.
Proof.
  apply py_sort_perm_eq;
    [apply String.leb_total|apply string_leb_trans|apply String.leb_antisym].
Qed.

(** ** [get_input_files] and the file ids *)

(** C7, as the code has it.  The input files are the regular files the
    directory enumerates, in ascending size; files of the same size keep
    the order of the enumeration; the file id [i] names the [i]-th file
    of that list. *)
Theorem get_input_files_order (matches : list Entry) :
  let regular := map entry_file (filter entry_is_file matches) in
  let files := get_input_files (Some matches) in
  Permutation files regular
  /\ StronglySorted (fun f g => (st_size f <= st_size g)%Z) files
  /\ (forall size : Z,
        filter (fun f => (st_size f =? size)%Z) files
        = filter (fun f => (st_size f =? size)%Z) regular)
  /\ (forall i f, nth_error files i = Some f ->
                  id_to_file_map files i = name f).
Proof.
  intros regular files. unfold files, get_input_files. fold regular.
  repeat split.
  - apply py_sort_perm.
  - pose proof (py_sort_sorted (fun f g => (st_size f <=? st_size g)%Z))
      as Hs.
    eapply StronglySorted_ind
      with (P := StronglySorted (fun f g => (st_size f <= st_size g)%Z)).
    + constructor.
    + intros a l _ IH Ha. constructor; [exact IH|].
      eapply Forall_impl; [|exact Ha].
      intros b Hb. apply Z.leb_le, Hb.
    + apply Hs.
      * intros a b. rewrite !Z.leb_le. lia.
      * intros a b c. rewrite !Z.leb_le. lia.
  - intros size. apply py_sort_stable.
    intros a b Ha Hb. apply Z.eqb_eq in Ha, Hb. apply Z.leb_le. lia.
  - intros i f Hi. unfold id_to_file_map. now rewrite Hi.
Qed.

(** C7 as it is worded fails: two files of one size keep the order of the
    directory listing, whatever their names. *)
Lemma file_ids_ignore_basenames :
  let listing :=
    Some [mkEntry true (mkFile "b.csv" 5 []);
          mkEntry true (mkFile "a.csv" 5 [])] in
  id_to_file_map (get_input_files listing) 0 = "b.csv"
  /\ id_to_file_map (files_by_size_then_name listing) 0 = "a.csv".
Proof. split; reflexivity. Qed.

(** ** Dictionaries *)

Section DictFacts.

Context {V : Type}.

Lemma sget_in_keys (k : string) (d : sdict V) :
  In k (PyDict.keys d) -> exists v, sget k d = Some v.
Proof.
  induction d as [|[k' v'] d IH]; simpl; [tauto|].
  intros [->|Hin].
  - rewrite String.eqb_refl. eauto.
  - destruct (String.eqb k k'); eauto.
Qed.

Lemma sget_some_in (k : string) (v : V) (d : sdict V) :
  sget k d = Some v -> In (k, v) d.
Proof.
  induction d as [|[k' v'] d IH]; simpl; [discriminate|].
  destruct (String.eqb_spec k k') as [->|Hne].
  - intros [= ->]. now left.
  - intros H. right. now apply IH.
Qed.

Lemma sget_none_notin (k : string) (d : sdict V) :
  sget k d = None <-> ~ In k (PyDict.keys d).
Proof.
  induction d as [|[k' v'] d IH]; simpl; [tauto|].
  destruct (String.eqb_spec k k') as [->|Hne].
  - split; [discriminate|]. intros H. exfalso. apply H. now left.
  - rewrite IH. split.
    + intros H [Heq|Hin]; [congruence|tauto].
    + tauto.
Qed.

Lemma sget_sset_same (k : string) (v : V) (d : sdict V) :
  sget k (sset k v d) = Some v.
Proof.
  induction d as [|[k' v'] d IH]; simpl.
  - now rewrite String.eqb_refl.
  - destruct (String.eqb_spec k k') as [->|Hne]; simpl.
    + now rewrite String.eqb_refl.
    + destruct (String.eqb_spec k k'); [congruence|exact IH].
Qed.

Lemma sget_sset_other (k k' : string) (v : V) (d : sdict V) :
  k <> k' -> sget k (sset k' v d) = sget k d.
Proof.
  intros Hne. induction d as [|[k0 v0] d IH]; simpl.
  - destruct (String.eqb_spec k k'); [congruence|reflexivity].
  - destruct (String.eqb_spec k' k0) as [->|Hne0]; simpl.
    + destruct (String.eqb_spec k k0); [congruence|reflexivity].
    + destruct (String.eqb_spec k k0); [reflexivity|exact IH].
Qed.

Lemma sget_sset (k k' : string) (v : V) (d : sdict V) :
  sget k (sset k' v d) = if String.eqb k k' then Some v else sget k d.
Proof.
  destruct (String.eqb_spec k k') as [->|Hne].
  - apply sget_sset_same.
  - now apply sget_sset_other.
Qed.

(** Assignment keeps the keys where they are; a new key goes last. *)
Lemma keys_sset (k : string) (v : V) (d : sdict V) :
  PyDict.keys (sset k v d)
  = if PyDict.mem String.eqb k d then PyDict.keys d
    else PyDict.keys d ++ [k].
Proof.
  unfold PyDict.mem.
  induction d as [|[k' v'] d IH]; simpl; [reflexivity|].
  destruct (String.eqb_spec k k') as [->|Hne]; simpl; [reflexivity|].
  rewrite IH. destruct (sget k d); reflexivity.
Qed.

Lemma nodup_keys_sset (k : string) (v : V) (d : sdict V) :
  NoDup (PyDict.keys d) -> NoDup (PyDict.keys (sset k v d)).
Proof.
  intros Hnd. rewrite keys_sset. unfold PyDict.mem.
  destruct (sget k d) eqn:Hget; [exact Hnd|].
  apply sget_none_notin in Hget.
  apply NoDup_app; [exact Hnd|repeat constructor; simpl; tauto|].
  intros a Ha [<-|[]]. contradiction.
Qed.

End DictFacts.

(** ** [write_duplicates] *)

(** The lines written for the file names of one entry, once sorted. *)
Definition render_names (names : list string) : list string :=
  match names with
  | [filename] => [("    - " ++ INTRA_MARKER ++ filename ++ NL)%string]
  | _ => map (fun filename => ("    - " ++ filename ++ NL)%string) names
  end.

Definition render_entry (entry : string * list string) : list string :=
  (fst entry ++ NL)%string :: render_names (snd entry).

Lemma write_entry_render (prefix : string) (file_list : list string) :
  write_entry prefix file_list
  = render_entry (prefix, sorted_strings file_list).
Proof.
  unfold write_entry, render_entry, render_names; simpl. f_equal.
  destruct file_list as [|x [|y l]]; try reflexivity.
  pose proof (py_sort_length String.leb (x :: y :: l)) as Hlen.
  unfold sorted_strings.
  destruct (py_sort String.leb (x :: y :: l)) as [|a [|b l']];
    try discriminate; reflexivity.
Qed.

(** C8.  For a non-empty dictionary the report is a sequence of entries:
    the prefixes come in ascending order, each once per key, and under each
    prefix the file names of that key come in ascending order. *)
Theorem write_duplicates_sorted (duplicates_data : sdict (list string)) :
  duplicates_data <> [] ->
  exists entries : list (string * list string),
    write_duplicates duplicates_data = flat_map render_entry entries
    /\ Permutation (map fst entries) (PyDict.keys duplicates_data)
    /\ StronglySorted (fun a b => String.leb a b = true) (map fst entries)
    /\ Forall
         (fun entry =>
            exists file_list,
              sget (fst entry) duplicates_data = Some file_list
              /\ Permutation (snd entry) file_list
              /\ StronglySorted (fun a b => String.leb a b = true)
                   (snd entry))
         entries.
Proof.
  intros Hne.
  set (lookup := fun prefix =>
         match sget prefix duplicates_data with
         | Some file_list => file_list
         | None => []
         end).
  exists (map (fun prefix => (prefix, sorted_strings (lookup prefix)))
            (sorted_strings (PyDict.keys duplicates_data))).
  assert (Hkeys : forall prefix,
             In prefix (sorted_strings (PyDict.keys duplicates_data)) ->
             exists file_list, sget prefix duplicates_data = Some file_list).
  { intros prefix Hin. apply sget_in_keys.
    unfold sorted_strings in Hin. now apply py_sort_in in Hin. }
  rewrite map_map; simpl. rewrite map_id.
  repeat split.
  - unfold write_duplicates.
    destruct duplicates_data as [|kv rest]; [congruence|].
    rewrite flat_map_concat_map, flat_map_concat_map, map_map. f_equal.
    apply map_ext_in. intros prefix Hin.
    destruct (Hkeys prefix Hin) as [file_list Hget].
    unfold lookup. rewrite Hget. apply write_entry_render.
  - apply py_sort_perm.
  - apply sorted_strings_sorted.
  - apply Forall_forall. intros entry Hin.
    apply in_map_iff in Hin. destruct Hin as [prefix [<- Hin]]. simpl.
    destruct (Hkeys prefix Hin) as [file_list Hget].
    exists file_list. unfold lookup. rewrite Hget.
    repeat split; [apply py_sort_perm|apply sorted_strings_sorted].
Qed.

Lemma write_duplicates_sorted_witness :
  exists entries : list (string * list string),
    write_duplicates [("k2", ["b.csv"; "a.csv"]); ("k1", ["c.csv"])]
    = flat_map render_entry entries
    /\ Permutation (map fst entries) ["k2"; "k1"]
    /\ StronglySorted (fun a b => String.leb a b = true) (map fst entries)
    /\ Forall
         (fun entry =>
            exists file_list,
              sget (fst entry) [("k2", ["b.csv"; "a.csv"]); ("k1", ["c.csv"])]
              = Some file_list
              /\ Permutation (snd entry) file_list
              /\ StronglySorted (fun a b => String.leb a b = true)
                   (snd entry))
         entries.
Proof.
  apply (write_duplicates_sorted
           [("k2", ["b.csv"; "a.csv"]); ("k1", ["c.csv"])]).
  discriminate.
Defined.

(** ** [delete_rows_from_file] *)

(** The faults that strike before [shutil.move] is called. *)
Definition before_move (fault : Fault) : bool :=
  match fault with
  | FailTempCreate | FailCopy _ | FailBackup _ => true
  | _ => false
  end.

Ltac trace_index i H :=
  destruct i as [|[|[|[|[|[|i]]]]]]; simpl in H;
  try (destruct i; discriminate H); try discriminate H;
  injection H as <-; simpl.

(** C10.  [original] is the content of the file, [old_backup] what may lie
    at the backup path; the temporary path is fresh.  In every run, a state
    in which the file no longer has its original content comes after a
    state in which the temporary file holds the whole filtered content and
    the file is still untouched.  When an operation before the move
    raises, the function returns [False], the file has its original
    content and the temporary file is gone.  When nothing raises, the
    function returns [True], the file has the filtered content, and neither
    the temporary file nor the backup is left. *)
Theorem delete_rows_from_file_atomic (fault : Fault)
  (lines_to_remove original : list string)
  (old_backup : option (list string)) :
  let st0 := mkSlots original None old_backup in
  let run := delete_rows_trace fault lines_to_remove st0 in
  let result := delete_rows_from_file fault lines_to_remove st0 in
  (forall i st,
     nth_error (fst run) i = Some st -> target st <> original ->
     exists j st',
       j < i /\ nth_error (fst run) j = Some st'
       /\ temp st' = Some (filtered_rows lines_to_remove original)
       /\ target st' = original)
  /\ (before_move fault = true ->
      fst result = false
      /\ target (snd result) = original
      /\ temp (snd result) = None)
  /\ delete_rows_from_file NoFault lines_to_remove st0
     = (true, mkSlots (filtered_rows lines_to_remove original) None None).
Proof.
  intros st0 run result. split; [|split; [|reflexivity]].
  - intros i st Hi Hneq.
    assert (Hcopied :
              forall k, 2 <= k ->
                before_move fault = false ->
                exists j st',
                  j < k /\ nth_error (fst run) j = Some st'
                  /\ temp st' = Some (filtered_rows lines_to_remove original)
                  /\ target st' = original).
    { intros k Hk Hb. exists 1.
      destruct fault; try discriminate Hb; simpl;
        eexists; (split; [lia|split; [reflexivity|split; reflexivity]]). }
    destruct fault as [| |n|b|t|]; subst run st0; trace_index i Hi;
      simpl in Hneq; try congruence;
      apply Hcopied; try lia; reflexivity.
  - intros Hb. subst result st0.
    destruct fault; try discriminate Hb; simpl; auto.
Qed.

Lemma delete_rows_from_file_atomic_witness :
  let st0 := mkSlots ["h"; "x"; "y"] None None in
  let result := delete_rows_from_file (FailCopy 1) ["x"] st0 in
  (forall i st,
     nth_error (fst (delete_rows_trace (FailCopy 1) ["x"] st0)) i = Some st ->
     target st <> ["h"; "x"; "y"] ->
     exists j st',
       j < i
       /\ nth_error (fst (delete_rows_trace (FailCopy 1) ["x"] st0)) j
          = Some st'
       /\ temp st' = Some (filtered_rows ["x"] ["h"; "x"; "y"])
       /\ target st' = ["h"; "x"; "y"])
  /\ (fst result = false
      /\ target (snd result) = ["h"; "x"; "y"]
      /\ temp (snd result) = None)
  /\ delete_rows_from_file NoFault ["x"] st0
     = (true, mkSlots (filtered_rows ["x"] ["h"; "x"; "y"]) None None).
Proof.
  pose proof (delete_rows_from_file_atomic (FailCopy 1) ["x"]
                ["h"; "x"; "y"] None) as [H1 [H2 H3]].
  split; [exact H1|]. split; [apply H2; reflexivity|exact H3].
Defined.

(** Without a fault the file ends up with the filtered content, and neither
    the temporary file nor the backup is left. *)
Lemma delete_rows_from_file_ok (lines_to_remove original : list string)
  (old_backup : option (list string)) :
  delete_rows_from_file NoFault lines_to_remove
    (mkSlots original None old_backup)
  = (true, mkSlots (filtered_rows lines_to_remove original) None None).
Proof. reflexivity. Qed.

(** ** [auto_select_strategy] *)

(** C4, as the code has it.  Without [psutil], or when the memory probe
    raises, or when one of the estimates of the [try] block raises, the
    answer is SAFE.  Otherwise the answer is the one the two thresholds
    give. *)
Theorem auto_select_strategy_thresholds (psutil : bool) (probe : option Z)
  (files : list File) (wlength : Z) :
  (psutil = false \/ probe = None ->
   auto_select_strategy psutil probe files wlength = Safe)
  /\ (forall available,
        psutil = true -> probe = Some available ->
        estimates available files wlength = None ->
        auto_select_strategy psutil probe files wlength = Safe)
  /\ (forall available,
        psutil = true -> probe = Some available ->
        estimates available files wlength <> None ->
        files <> []
        /\ select_by_thresholds (total_size_bytes files) available
           = Some (auto_select_strategy psutil probe files wlength)).
Proof.
  unfold auto_select_strategy. split; [|split].
  - intros [-> | ->]; [reflexivity|]. destruct psutil; reflexivity.
  - intros available -> -> H. simpl. now rewrite H.
  - intros available -> -> H. simpl.
    unfold estimates, select_by_thresholds in *.
    destruct (int_times available RAM_USAGE_THRESHOLD) as [ram_limit|];
      [|congruence].
    destruct (int_times (total_size_bytes files) FAST_MODE_MEMORY_FACTOR)
      as [est_fast|]; [|congruence].
    destruct (int_times (total_size_bytes files) SAFE_MODE_MEMORY_FACTOR)
      as [est_safe|]; [|congruence].
    destruct (largest_file files) as [largest|] eqn:Hlargest; [|congruence].
    split; [intros ->; discriminate Hlargest|].
    destruct (int_over (16 + 2 + 3 + wlength + 1)
                (estimate_average_line_length largest)) as [ratio|];
      [|congruence].
    destruct (int_times (total_size_bytes files) ratio) as [product|];
      [|congruence].
    destruct (PyFloat.to_int product); [reflexivity|congruence].
Qed.

(** C4 as it is worded fails: the probe succeeds and the thresholds say
    FAST, yet a write length too large for a float makes the estimate of
    the disk space raise, and the answer is SAFE. *)
Lemma huge_write_length_selects_safe :
  let files := [text_file "a.csv" ["id;name"; "1;x"]] in
  select_by_thresholds (total_size_bytes files) 8000000000 = Some Fast
  /\ auto_select_strategy true (Some 8000000000%Z) files (2 ^ 1024) = Safe.
Proof. split; vm_compute; reflexivity. Qed.

(** ** The report of the FAST engine is keyed by the prefix *)

Section DictUpdate.

Context {V : Type}.

Lemma nodup_keys_update (d other : sdict V) :
  NoDup (PyDict.keys d) -> NoDup (PyDict.keys (PyDict.update String.eqb d other)).
Proof.
  unfold PyDict.update. revert d.
  induction other as [|[k v] other IH]; intros d Hd; simpl; [exact Hd|].
  apply IH, nodup_keys_sset, Hd.
Qed.

(** With distinct keys in [other], the update reads as: [other] first. *)
Lemma sget_update (k : string) (d other : sdict V) :
  NoDup (PyDict.keys other) ->
  sget k (PyDict.update String.eqb d other)
  = match sget k other with Some v => Some v | None => sget k d end.
Proof.
  unfold PyDict.update. revert d.
  induction other as [|[k' v'] other IH]; intros d Hnd; simpl; [reflexivity|].
  inversion Hnd as [|? ? Hnotin Hnd']; subst.
  rewrite IH by exact Hnd'.
  destruct (String.eqb_spec k k') as [->|Hne].
  - apply sget_none_notin in Hnotin. rewrite Hnotin.
    apply sget_sset_same.
  - rewrite sget_sset_other by exact Hne. reflexivity.
Qed.

End DictUpdate.

Section FastReport.

Variable files : list File.

(** The file list of a group found in several files. *)
Definition inter_list (file_counts : list (nat * nat)) : option (list string) :=
  if (1 <? List.length file_counts)%nat
  then Some (names_of files file_counts) else None.

(** The file list of a group repeated inside its only file. *)
Definition intra_list (file_counts : list (nat * nat)) : option (list string) :=
  if (1 <? List.length file_counts)%nat then None
  else if (1 <? total_of file_counts)%nat
       then Some [id_to_file_map files (hd 0 (PyDict.keys file_counts))]
       else None.

(** The list of the last group of [global_hashes] that has the prefix and
    a list under [kind]; [dflt] when there is none. *)
Definition last_with (kind : list (nat * nat) -> option (list string))
  (prefix : string) (global_hashes : sdict (string * list (nat * nat)))
  (dflt : option (list string)) : option (list string) :=
  fold_left
    (fun acc entry =>
       if String.eqb prefix (fst (snd entry))
       then match kind (snd (snd entry)) with
            | Some l => Some l
            | None => acc
            end
       else acc)
    global_hashes dflt.

Lemma last_with_cons (kind : list (nat * nat) -> option (list string))
  (prefix : string) (entry : string * (string * list (nat * nat)))
  (global_hashes : sdict (string * list (nat * nat)))
  (dflt : option (list string)) :
  last_with kind prefix (entry :: global_hashes) dflt
  = last_with kind prefix global_hashes
      (if String.eqb prefix (fst (snd entry))
       then match kind (snd (snd entry)) with
            | Some l => Some l
            | None => dflt
            end
       else dflt).
Proof. reflexivity. Qed.

Lemma fast_collect_fold (prefix : string)
  (global_hashes : sdict (string * list (nat * nat)))
  (output_data intra : sdict (list string)) :
  NoDup (PyDict.keys output_data) -> NoDup (PyDict.keys intra) ->
  let result := fold_left (fast_collect files) global_hashes
                  (output_data, intra) in
  sget prefix (fst result)
  = last_with inter_list prefix global_hashes (sget prefix output_data)
  /\ sget prefix (snd result)
     = last_with intra_list prefix global_hashes (sget prefix intra)
  /\ NoDup (PyDict.keys (fst result))
  /\ NoDup (PyDict.keys (snd result)).
Proof.
  revert output_data intra.
  induction global_hashes as [|[h [p fc]] G IH]; intros O I HO HI.
  - simpl. auto.
  - cbn zeta. rewrite !last_with_cons. cbn [fold_left fst snd].
    change (fast_collect files (O, I) (h, (p, fc)))
      with (if (1 <? List.length fc)%nat
            then (sset p (names_of files fc) O, I)
            else if (1 <? total_of fc)%nat
                 then (O, sset p [id_to_file_map files
                                    (hd 0 (PyDict.keys fc))] I)
                 else (O, I)).
    unfold inter_list at 2, intra_list at 2.
    destruct (1 <? List.length fc)%nat eqn:Hlen.
    + destruct (IH (sset p (names_of files fc) O) I
                  (nodup_keys_sset _ _ _ HO) HI) as (H1 & H2 & H3 & H4).
      repeat split; try assumption.
      * etransitivity; [exact H1|]. f_equal. rewrite sget_sset.
        destruct (String.eqb prefix p); reflexivity.
      * etransitivity; [exact H2|]. f_equal.
        destruct (String.eqb prefix p); reflexivity.
    + destruct (1 <? total_of fc)%nat eqn:Htot.
      * destruct (IH O (sset p [id_to_file_map files (hd 0 (PyDict.keys fc))] I)
                    HO (nodup_keys_sset _ _ _ HI)) as (H1 & H2 & H3 & H4).
        repeat split; try assumption.
        -- etransitivity; [exact H1|]. f_equal.
           destruct (String.eqb prefix p); reflexivity.
        -- etransitivity; [exact H2|]. f_equal. rewrite sget_sset.
           destruct (String.eqb prefix p); reflexivity.
      * destruct (IH O I HO HI) as (H1 & H2 & H3 & H4).
        repeat split; try assumption.
        -- etransitivity; [exact H1|]. f_equal.
           destruct (String.eqb prefix p); reflexivity.
        -- etransitivity; [exact H2|]. f_equal.
           destruct (String.eqb prefix p); reflexivity.
Qed.

(** C9, as the code has it.  The report of the FAST engine has one entry
    per prefix.  When several duplicate groups share a prefix, the entry
    holds the list of the last group repeated inside a single file, if
    there is one, whatever its place among the groups; otherwise it holds
    the list of the last group found in several files.  The lists of the
    other groups are not in the report. *)
Theorem fast_report_keyed_by_prefix (prefix : string)
  (global_hashes : sdict (string * list (nat * nat))) :
  sget prefix (fast_collect_all files global_hashes)
  = match last_with intra_list prefix global_hashes None with
    | Some l => Some l
    | None => last_with inter_list prefix global_hashes None
    end
  /\ NoDup (PyDict.keys (fast_collect_all files global_hashes)).
Proof.
  unfold fast_collect_all.
  destruct (fast_collect_fold prefix global_hashes [] [])
    as (H1 & H2 & H3 & H4); [constructor|constructor|].
  destruct (fold_left (fast_collect files) global_hashes ([], []))
    as [O I]; simpl in *.
  split.
  - rewrite sget_update by exact H4. rewrite H1, H2. reflexivity.
  - apply nodup_keys_update, H3.
Qed.

End FastReport.

(** C9 as it is worded fails.  The group of ["ab;1"], repeated inside
    [a.csv], is merged first; the group of ["ab;2"], found in both files, is
    merged later; both have the prefix ["ab"].  The entry of the report is
    the list of the group merged first. *)
Lemma earlier_group_can_win :
  let cfg := mkConfig 2 6 ";" 256 false in
  let files := [text_file "a.csv" ["id;n"; "ab;1"; "ab;1"; "ab;2"];
                text_file "b.csv" ["id;n"; "ab;2"]] in
  map snd (fast_global fnv1a64 cfg files [0; 1])
  = [("ab", [(0, 2)]); ("ab", [(0, 1); (1, 1)])]
  /\ fast_output fnv1a64 cfg files [0; 1] = [("ab", ["a.csv"])].
Proof. split; vm_compute; reflexivity. Qed.

(** ** Dictionaries over any key *)

Section KeyedDict.

Context {K : Type}.
Variable eqb : K -> K -> bool.
Hypothesis eqb_spec : forall x y, reflect (x = y) (eqb x y).

Local Abbreviation get := (PyDict.get eqb).
Local Abbreviation set := (PyDict.set eqb).

Lemma dget_set {V} (k k' : K) (v : V) (d : list (K * V)) :
  get k (set k' v d) = if eqb k k' then Some v else get k d.
Proof.
  induction d as [|[k0 v0] d IH]; simpl.
  - reflexivity.
  - destruct (eqb_spec k' k0) as [->|Hne0]; simpl.
    + destruct (eqb_spec k k0); reflexivity.
    + destruct (eqb_spec k k0) as [->|Hne].
      * destruct (eqb_spec k0 k'); [congruence|reflexivity].
      * exact IH.
Qed.

Lemma dget_none {V} (k : K) (d : list (K * V)) :
  get k d = None <-> ~ In k (PyDict.keys d).
Proof.
  induction d as [|[k' v'] d IH]; simpl; [tauto|].
  destruct (eqb_spec k k') as [->|Hne].
  - split; [discriminate|]. intros H. exfalso. apply H. now left.
  - rewrite IH. split.
    + intros H [Heq|Hin]; [congruence|tauto].
    + tauto.
Qed.

Lemma dget_some_in {V} (k : K) (v : V) (d : list (K * V)) :
  get k d = Some v -> In (k, v) d.
Proof.
  induction d as [|[k' v'] d IH]; simpl; [discriminate|].
  destruct (eqb_spec k k') as [->|Hne].
  - intros [= ->]. now left.
  - intros H. right. now apply IH.
Qed.

Lemma dget_some_key {V} (k : K) (v : V) (d : list (K * V)) :
  get k d = Some v -> In k (PyDict.keys d).
Proof.
  intros H. apply dget_some_in in H.
  change k with (fst (k, v)). now apply in_map.
Qed.

Lemma dget_in {V} (k : K) (v : V) (d : list (K * V)) :
  NoDup (PyDict.keys d) -> In (k, v) d -> get k d = Some v.
Proof.
  induction d as [|[k' v'] d IH]; simpl; [tauto|].
  intros Hnd [[= -> ->]|Hin].
  - destruct (eqb_spec k k); [reflexivity|congruence].
  - inversion Hnd as [|? ? Hnotin Hnd']; subst.
    destruct (eqb_spec k k') as [->|Hne].
    + exfalso. apply Hnotin. change k' with (fst (k', v)).
      now apply in_map.
    + now apply IH.
Qed.

Lemma dkeys_set {V} (k : K) (v : V) (d : list (K * V)) :
  PyDict.keys (set k v d)
  = match get k d with
    | Some _ => PyDict.keys d
    | None => PyDict.keys d ++ [k]
    end.
Proof.
  induction d as [|[k' v'] d IH]; simpl; [reflexivity|].
  destruct (eqb_spec k k') as [->|Hne]; simpl; [reflexivity|].
  rewrite IH. destruct (get k d); reflexivity.
Qed.

Lemma dnodup_set {V} (k : K) (v : V) (d : list (K * V)) :
  NoDup (PyDict.keys d) -> NoDup (PyDict.keys (set k v d)).
Proof.
  intros Hnd. rewrite dkeys_set.
  destruct (get k d) eqn:Hget; [exact Hnd|].
  apply dget_none in Hget.
  apply NoDup_app; [exact Hnd|repeat constructor; simpl; tauto|].
  intros a Ha [<-|[]]. contradiction.
Qed.

(** A loop that, for each item of a dictionary, rewrites the entry of the
    same key in another one. *)
Lemma dget_fold_each {V W} (upd : K -> W -> option V -> V)
  (items : list (K * W)) (d : list (K * V)) (k : K) :
  NoDup (PyDict.keys items) ->
  get k
    (fold_left
       (fun (acc : list (K * V)) (kv : K * W) =>
          set (fst kv) (upd (fst kv) (snd kv) (get (fst kv) acc)) acc)
       items d)
  = match get k items with
    | Some w => Some (upd k w (get k d))
    | None => get k d
    end.
Proof.
  revert d. induction items as [|[k' w'] items IH]; intros d Hnd; simpl.
  - reflexivity.
  - inversion Hnd as [|? ? Hnotin Hnd']; subst.
    rewrite IH by exact Hnd'. simpl.
    destruct (eqb_spec k k') as [->|Hne].
    + apply dget_none in Hnotin. rewrite Hnotin. rewrite dget_set.
      destruct (eqb_spec k' k'); [reflexivity|congruence].
    + rewrite dget_set.
      destruct (eqb_spec k k'); [congruence|reflexivity].
Qed.

Lemma dnodup_fold_each {V W} (upd : K -> W -> option V -> V)
  (items : list (K * W)) (d : list (K * V)) :
  NoDup (PyDict.keys d) ->
  NoDup
    (PyDict.keys
       (fold_left
          (fun (acc : list (K * V)) (kv : K * W) =>
             set (fst kv) (upd (fst kv) (snd kv) (get (fst kv) acc)) acc)
          items d)).
Proof.
  revert d. induction items as [|[k' w'] items IH]; intros d Hnd; simpl.
  - exact Hnd.
  - apply IH, dnodup_set, Hnd.
Qed.

Lemma emit_key_dec {V X} (emit : X -> option (K * V)) (k : K)
  (items : list X) :
  (exists x v, In x items /\ emit x = Some (k, v))
  \/ (forall x v, In x items -> emit x <> Some (k, v)).
Proof.
  induction items as [|x items [IH|IH]].
  - right. intros x v [].
  - left. destruct IH as [y [v [Hy Hey]]]. exists y, v. simpl. auto.
  - destruct (emit x) as [[k' v']|] eqn:Hx.
    + destruct (eqb_spec k k') as [->|Hne].
      * left. exists x, v'. simpl. auto.
      * right. intros y v [<-|Hy]; [congruence|now apply IH].
    + right. intros y v [<-|Hy]; [congruence|now apply IH].
Qed.

(** A loop that assigns to a dictionary under the keys some items give.
    Whatever is found under a key was assigned by an item; when the items
    agree on the value of a key, it is the value found. *)
Lemma dget_fold_emit {V X} (emit : X -> option (K * V)) (items : list X)
  (d : list (K * V)) (k : K) (v : V) :
  let out :=
    fold_left
      (fun (acc : list (K * V)) (x : X) =>
         match emit x with
         | Some (k', v') => set k' v' acc
         | None => acc
         end)
      items d in
  (get k out = Some v ->
   get k d = Some v \/ exists x, In x items /\ emit x = Some (k, v))
  /\ ((forall x v', In x items -> emit x = Some (k, v') -> v' = v) ->
      (exists x, In x items /\ emit x = Some (k, v)) ->
      get k out = Some v)
  /\ ((forall x v', In x items -> emit x <> Some (k, v')) ->
      get k out = get k d).
Proof.
  revert d. induction items as [|x items IH]; intros d; simpl.
  - split; [auto|split; [intros _ [x [[] _]]|reflexivity]].
  - destruct (emit x) as [[k' v']|] eqn:Hx.
    + destruct (IH (set k' v' d)) as (H1 & H2 & H3).
      repeat split.
      * intros Hget. destruct (H1 Hget) as [Hd|[y [Hy Hey]]].
        -- rewrite dget_set in Hd.
           destruct (eqb_spec k k') as [->|Hne].
           ++ injection Hd as ->. right. exists x. auto.
           ++ now left.
        -- right. exists y. auto.
      * intros Hagree Hex.
        destruct (emit_key_dec emit k items) as [Hlater|Hnone].
        -- apply H2; [intros; eapply Hagree; eauto|].
           destruct Hlater as [y [v'' [Hy Hey]]].
           rewrite (Hagree y v'' (or_intror Hy) Hey) in Hey. eauto.
        -- rewrite H3 by exact Hnone. rewrite dget_set.
           destruct Hex as [y [[<-|Hy] Hey]].
           ++ rewrite Hx in Hey. injection Hey as -> ->.
              destruct (eqb_spec k k); [reflexivity|congruence].
           ++ exfalso. exact (Hnone y v Hy Hey).
      * intros Hnone. rewrite H3 by (intros; apply Hnone; auto).
        rewrite dget_set. destruct (eqb_spec k k') as [->|Hne]; [|reflexivity].
        exfalso. exact (Hnone x v' (or_introl eq_refl) Hx).
    + destruct (IH d) as (H1 & H2 & H3).
      repeat split.
      * intros Hget. destruct (H1 Hget) as [Hd|[y [Hy Hey]]]; [auto|].
        right. exists y. auto.
      * intros Hagree [y [[<-|Hy] Hey]]; [congruence|].
        apply H2; [intros; eapply Hagree; eauto|eauto].
      * intros Hnone. apply H3. intros; apply Hnone; auto.
Qed.

End KeyedDict.

(** ** What a corpus holds *)

Lemma fold_left_flat_map {A B S : Type} (f : S -> B -> S) (g : A -> list B)
  (l : list A) (a : S) :
  fold_left f (flat_map g l) a
  = fold_left (fun acc x => fold_left f (g x) acc) l a.
Proof.
  revert a. induction l as [|x l IH]; intros a; simpl.
  - reflexivity.
  - rewrite fold_left_app. apply IH.
Qed.

(** The loops of the workers skip the lines that are blank once stripped. *)
Lemma fold_skip_blank {S : Type} (step : S -> string -> S)
  (g : S -> string -> S) (lines : list string) (acc : S) :
  (forall a line,
     step a line
     = if PyStr.truthy (PyStr.strip line) then g a (PyStr.strip line) else a) ->
  fold_left step lines acc
  = fold_left g (filter PyStr.truthy (map PyStr.strip lines)) acc.
Proof.
  intros Hstep. revert acc.
  induction lines as [|line lines IH]; intros acc; simpl.
  - reflexivity.
  - rewrite Hstep. destruct (PyStr.truthy (PyStr.strip line)); simpl; apply IH.
Qed.

Section Corpus.

Variable xxh64 : string -> N.
Variable config : Config.
Variable files : list File.

Local Abbreviation lh := (line_hash xxh64 config).
Local Abbreviation lp := (line_prefix config).

(** The stripped, non-blank lines after the header. *)
Definition data_lines (f : File) : list string :=
  filter PyStr.truthy (map PyStr.strip (body f)).

Definition all_lines : list string := flat_map data_lines files.

(** How often a hash occurs among lines. *)
Definition occurrences (h : string) (lines : list string) : nat :=
  List.length (filter (fun s => String.eqb (lh s) h) lines).

Definition file_count (h : string) (i : nat) : nat :=
  match nth_error files i with
  | Some f => occurrences h (data_lines f)
  | None => 0
  end.

(** The ids of the files in which a hash occurs, ascending. *)
Definition containing (h : string) : list nat :=
  filter (fun i => (0 <? file_count h i)%nat) (seq 0 (List.length files)).

Definition total_count (h : string) : nat :=
  list_sum (map (file_count h) (seq 0 (List.length files))).

(** The entry the report is to have for a prefix: the prefix is that of a
    line whose hash occurs more than once in the corpus, and the list names
    the files in which that hash occurs, in ascending file id. *)
Definition expected (prefix : string) (file_list : list string) : Prop :=
  exists s,
    In s all_lines /\ lp s = prefix /\ 1 < total_count (lh s)
    /\ file_list = map (id_to_file_map files) (containing (lh s)).

Lemma occurrences_app (h : string) (l1 l2 : list string) :
  occurrences h (l1 ++ l2) = occurrences h l1 + occurrences h l2.
Proof. unfold occurrences. now rewrite filter_app, length_app. Qed.

Lemma occurrences_pos (h : string) (lines : list string) :
  0 < occurrences h lines <-> exists s, In s lines /\ lh s = h.
Proof.
  unfold occurrences. split.
  - destruct (filter (fun s => String.eqb (lh s) h) lines) as [|s l] eqn:Hf;
      simpl; [lia|]. intros _.
    assert (Hin : In s (filter (fun s => String.eqb (lh s) h) lines))
      by (rewrite Hf; now left).
    apply filter_In in Hin. destruct Hin as [Hin Heq].
    apply String.eqb_eq in Heq. eauto.
  - intros [s [Hin Heq]].
    assert (Hf : In s (filter (fun s => String.eqb (lh s) h) lines))
      by (apply filter_In; split; [exact Hin|now apply String.eqb_eq]).
    destruct (filter (fun s => String.eqb (lh s) h) lines); [destruct Hf|].
    simpl. lia.
Qed.

Lemma data_lines_all (i : nat) (f : File) (s : string) :
  nth_error files i = Some f -> In s (data_lines f) -> In s all_lines.
Proof.
  intros Hi Hs. apply in_flat_map. exists f. split; [|exact Hs].
  eapply nth_error_In, Hi.
Qed.

Lemma all_lines_file (s : string) :
  In s all_lines ->
  exists i f, nth_error files i = Some f /\ In s (data_lines f).
Proof.
  intros Hs. apply in_flat_map in Hs. destruct Hs as [f [Hf Hs]].
  apply In_nth_error in Hf. destruct Hf as [i Hi]. eauto.
Qed.

Lemma file_count_pos (h : string) (i : nat) :
  0 < file_count h i ->
  i < List.length files /\ exists s, In s all_lines /\ lh s = h.
Proof.
  unfold file_count. destruct (nth_error files i) as [f|] eqn:Hi; [|lia].
  intros Hpos. split.
  - apply nth_error_Some. congruence.
  - apply occurrences_pos in Hpos. destruct Hpos as [s [Hs Hh]].
    exists s. split; [eapply data_lines_all; eassumption|exact Hh].
Qed.

Lemma line_file_count (s : string) :
  In s all_lines -> exists i, i < List.length files /\ 0 < file_count (lh s) i.
Proof.
  intros Hs. destruct (all_lines_file s Hs) as [i [f [Hi Hin]]].
  exists i. split; [apply nth_error_Some; congruence|].
  unfold file_count. rewrite Hi. apply occurrences_pos. eauto.
Qed.

Lemma in_containing (h : string) (i : nat) :
  In i (containing h) <-> 0 < file_count h i.
Proof.
  unfold containing. rewrite filter_In, in_seq, Nat.ltb_lt. split.
  - tauto.
  - intros H. split; [|exact H]. apply file_count_pos in H. lia.
Qed.

Lemma containing_nodup (h : string) : NoDup (containing h).
Proof. apply NoDup_filter, seq_NoDup. Qed.

Lemma filter_sorted {A : Type} (R : A -> A -> Prop) (p : A -> bool)
  (l : list A) :
  StronglySorted R l -> StronglySorted R (filter p l).
Proof.
  induction 1 as [|x l Hs IH Hx]; simpl; [constructor|].
  destruct (p x); [|exact IH].
  constructor; [exact IH|].
  apply Forall_forall. intros y Hy. apply filter_In in Hy.
  rewrite Forall_forall in Hx. apply Hx. tauto.
Qed.

Lemma seq_sorted (n start : nat) :
  StronglySorted (fun a b => Nat.leb a b = true) (seq start n).
Proof.
  revert start. induction n as [|n IH]; intros start; simpl; constructor.
  - apply IH.
  - apply Forall_forall. intros y Hy. apply in_seq in Hy.
    apply Nat.leb_le. lia.
Qed.

Lemma containing_sorted (h : string) :
  StronglySorted (fun a b => Nat.leb a b = true) (containing h).
Proof. apply filter_sorted, seq_sorted. Qed.

(** A list of distinct ids that has the elements of [containing h] sorts to
    [containing h]. *)
Lemma sorted_nats_containing (h : string) (ids : list nat) :
  NoDup ids -> (forall i, In i ids <-> 0 < file_count h i) ->
  sorted_nats ids = containing h.
Proof.
  intros Hnd Hin. unfold sorted_nats.
  apply (sorted_perm_eq Nat.leb).
  - intros a b Hab Hba. apply Nat.leb_le in Hab, Hba. lia.
  - apply py_sort_sorted.
    + intros a b. rewrite !Nat.leb_le. lia.
    + intros a b c. rewrite !Nat.leb_le. lia.
  - apply containing_sorted.
  - eapply perm_trans; [apply py_sort_perm|].
    apply NoDup_Permutation; [exact Hnd|apply containing_nodup|].
    intros i. rewrite Hin, in_containing. tauto.
Qed.

Lemma list_sum_map_zero {A : Type} (f : A -> nat) (p : A -> bool)
  (l : list A) :
  (forall x, In x l -> p x = false -> f x = 0) ->
  list_sum (map f (filter p l)) = list_sum (map f l).
Proof.
  induction l as [|x l IH]; intros H; simpl; [reflexivity|].
  destruct (p x) eqn:Hp; simpl.
  - rewrite IH; [reflexivity|]. intros y Hy. apply H. now right.
  - rewrite IH by (intros y Hy; apply H; now right).
    rewrite (H x (or_introl eq_refl) Hp). reflexivity.
Qed.

Lemma list_sum_perm (l1 l2 : list nat) :
  Permutation l1 l2 -> list_sum l1 = list_sum l2.
Proof.
  induction 1; simpl; lia.
Qed.

Lemma total_count_containing (h : string) :
  total_count h = list_sum (map (file_count h) (containing h)).
Proof.
  unfold total_count, containing. symmetry. apply list_sum_map_zero.
  intros i _ Hi. apply Nat.ltb_ge in Hi. lia.
Qed.

Lemma list_sum_ge_length (l : list nat) :
  Forall (fun c => 0 < c) l -> List.length l <= list_sum l.
Proof.
  induction 1 as [|c l Hc _ IH]; simpl; lia.
Qed.

Lemma total_count_ge (h : string) :
  List.length (containing h) <= total_count h.
Proof.
  rewrite total_count_containing.
  rewrite <- (length_map (file_count h) (containing h)).
  apply list_sum_ge_length, Forall_forall.
  intros c Hc. apply in_map_iff in Hc. destruct Hc as [i [<- Hi]].
  now apply in_containing.
Qed.

(** A counter of one hash: the ids of the files that hold it, each with
    the number of its occurrences there. *)
Definition counter_of (h : string) (done : list nat)
  (counts : list (nat * nat)) : Prop :=
  NoDup (PyDict.keys counts)
  /\ forall i,
       nget i counts
       = if existsb (Nat.eqb i) done && (0 <? file_count h i)%nat
         then Some (file_count h i) else None.

Lemma counter_of_complete (h : string) (order : list nat)
  (counts : list (nat * nat)) :
  Permutation order (seq 0 (List.length files)) ->
  counter_of h order counts ->
  sorted_nats (PyDict.keys counts) = containing h
  /\ List.length counts = List.length (containing h)
  /\ total_of counts = total_count h.
Proof.
  intros Hperm [Hnd Hget].
  assert (Hmem : forall i, existsb (Nat.eqb i) order = true
                           <-> i < List.length files).
  { intros i. rewrite existsb_exists. split.
    - intros [j [Hj Heq]]. apply Nat.eqb_eq in Heq. subst j.
      apply (Permutation_in _ Hperm) in Hj. apply in_seq in Hj. lia.
    - intros Hi. exists i. split; [|apply Nat.eqb_refl].
      apply (Permutation_in _ (Permutation_sym Hperm)), in_seq. lia. }
  assert (Hkeys : forall i, In i (PyDict.keys counts) <-> 0 < file_count h i).
  { intros i. split.
    - intros Hin. destruct (nget i counts) eqn:Hi.
      + rewrite Hget in Hi.
        destruct (0 <? file_count h i)%nat eqn:Hpos;
          [now apply Nat.ltb_lt|].
        rewrite andb_false_r in Hi. discriminate.
      + apply (dget_none Nat.eqb Nat.eqb_spec) in Hi. contradiction.
    - intros Hpos. destruct (nget i counts) eqn:Hi.
      + eapply (dget_some_key Nat.eqb Nat.eqb_spec). exact Hi.
      + rewrite Hget in Hi.
        pose proof (proj1 (file_count_pos h i Hpos)) as Hlt.
        apply Hmem in Hlt. rewrite Hlt in Hi.
        apply Nat.ltb_lt in Hpos. rewrite Hpos in Hi. discriminate. }
  assert (Hsorted := sorted_nats_containing h _ Hnd Hkeys).
  assert (Hperm2 : Permutation (PyDict.keys counts) (containing h)).
  { rewrite <- Hsorted. apply Permutation_sym, py_sort_perm. }
  repeat split.
  - exact Hsorted.
  - rewrite <- (length_map fst counts). apply Permutation_length, Hperm2.
  - rewrite total_count_containing.
    rewrite <- (list_sum_perm _ _ (Permutation_map (file_count h) Hperm2)).
    unfold total_of, PyDict.values, PyDict.keys. rewrite map_map.
    f_equal. apply map_ext_in. intros [i c] Hin. simpl.
    pose proof (dget_in Nat.eqb Nat.eqb_spec i c counts Hnd Hin) as Hi.
    rewrite Hget in Hi.
    destruct (existsb (Nat.eqb i) order && (0 <? file_count h i)%nat);
      congruence.
Qed.

End Corpus.

(** ** The FAST engine *)

Lemma fold_left_ext {A B : Type} (f g : A -> B -> A) (l : list B) (a : A) :
  (forall x y, f x y = g x y) -> fold_left f l a = fold_left g l a.
Proof.
  intros H. revert a. induction l as [|y l IH]; intros a; simpl.
  - reflexivity.
  - rewrite H. apply IH.
Qed.

Section FastEngine.

Variable xxh64 : string -> N.
Variable config : Config.
Variable files : list File.

Local Abbreviation lh := (line_hash xxh64 config).
Local Abbreviation lp := (line_prefix config).
Local Abbreviation occ := (occurrences xxh64 config).
Local Abbreviation fcount := (file_count xxh64 config files).
Local Abbreviation lines := (all_lines files).

Local Opaque line_hash line_prefix.

(** Lines of one hash show one prefix, and lines of one prefix have one
    hash. *)
Hypothesis hash_prefix :
  forall s t, In s lines -> In t lines -> (lh s = lh t <-> lp s = lp t).

(** The body of the worker's loop on a stripped, non-blank line. *)
Definition fast_count (local_hashes : sdict (string * nat)) (s : string)
  : sdict (string * nat) :=
  match sget (lh s) local_hashes with
  | None => sset (lh s) (lp s, 1) local_hashes
  | Some (p, c) => sset (lh s) (p, S c) local_hashes
  end.

Lemma process_file_fast_eq (f : File) :
  process_file_fast xxh64 config f = fold_left fast_count (data_lines f) [].
Proof.
  unfold process_file_fast, data_lines. apply fold_skip_blank.
  intros a line. unfold fast_step, fast_count.
  destruct (PyStr.truthy (PyStr.strip line)); reflexivity.
Qed.

(** What the local dictionary of a worker holds under a hash. *)
Definition local_entry (ss : list string) (h : string)
  (entry : option (string * nat)) : Prop :=
  match entry with
  | Some (p, c) =>
      c = occ h ss /\ 0 < c /\ exists s, In s ss /\ lh s = h /\ lp s = p
  | None => occ h ss = 0
  end.

Lemma fast_count_spec (ss : list string) :
  let local_hashes := fold_left fast_count ss [] in
  NoDup (PyDict.keys local_hashes)
  /\ forall h, local_entry ss h (sget h local_hashes).
Proof.
  induction ss as [|x ss IH] using rev_ind; simpl.
  - split; [constructor|]. intros h. reflexivity.
  - rewrite fold_left_app. simpl. destruct IH as [Hnd IH].
    set (L := fold_left fast_count ss []) in *.
    unfold fast_count.
    pose proof (IH (lh x)) as Hx.
    destruct (sget (lh x) L) as [[p c]|] eqn:Hget; simpl in Hx.
    + split; [apply (dnodup_set String.eqb String.eqb_spec), Hnd|].
      intros h. rewrite (dget_set String.eqb String.eqb_spec).
      destruct (String.eqb_spec h (lh x)) as [->|Hne].
      * simpl. rewrite occurrences_app. unfold occurrences at 2. simpl.
        rewrite String.eqb_refl. simpl.
        destruct Hx as (Hc & Hpos & s & Hs & Hh & Hp).
        repeat split; try lia.
        exists s. rewrite in_app_iff. auto.
      * specialize (IH h). unfold local_entry in *.
        destruct (sget h L) as [[p' c']|].
        -- rewrite occurrences_app. unfold occurrences at 2. simpl.
           destruct (String.eqb_spec (lh x) h); [congruence|]. simpl.
           destruct IH as (Hc & Hpos & s & Hs & Hh & Hp).
           repeat split; try lia.
           exists s. rewrite in_app_iff. auto.
        -- rewrite occurrences_app. unfold occurrences at 2. simpl.
           destruct (String.eqb_spec (lh x) h); [congruence|]. simpl. lia.
    + split; [apply (dnodup_set String.eqb String.eqb_spec), Hnd|].
      intros h. rewrite (dget_set String.eqb String.eqb_spec).
      destruct (String.eqb_spec h (lh x)) as [->|Hne].
      * simpl. rewrite occurrences_app. unfold occurrences at 2. simpl.
        rewrite String.eqb_refl. simpl.
        repeat split; try lia.
        exists x. rewrite in_app_iff. simpl. auto.
      * specialize (IH h). unfold local_entry in *.
        destruct (sget h L) as [[p' c']|].
        -- rewrite occurrences_app. unfold occurrences at 2. simpl.
           destruct (String.eqb_spec (lh x) h); [congruence|]. simpl.
           destruct IH as (Hc & Hpos & s & Hs & Hh & Hp).
           repeat split; try lia.
           exists s. rewrite in_app_iff. auto.
        -- rewrite occurrences_app. unfold occurrences at 2. simpl.
           destruct (String.eqb_spec (lh x) h); [congruence|]. simpl. lia.
Qed.

(** The driver's merge of one item, as a rewriting of one entry. *)
Definition fast_upd (file_id : nat) (h : string) (pc : string * nat)
  (old : option (string * list (nat * nat))) : string * list (nat * nat) :=
  let '(p0, counts) :=
    match old with Some e => e | None => (EmptyString, []) end in
  (if PyStr.truthy p0 then p0 else fst pc, nset file_id (snd pc) counts).

Lemma fast_merge_upd (file_id : nat)
  (G : sdict (string * list (nat * nat))) (kv : string * (string * nat)) :
  fast_merge file_id G kv
  = sset (fst kv) (fast_upd file_id (fst kv) (snd kv) (sget (fst kv) G)) G.
Proof.
  destruct kv as [h [prefix count]]. unfold fast_merge, fast_upd, get_default.
  simpl. destruct (sget h G) as [[p0 counts]|]; reflexivity.
Qed.

(** What the global dictionary holds under a hash once the results of the
    files [done] are merged. *)
Definition global_entry (done : list nat) (h : string)
  (entry : option (string * list (nat * nat))) : Prop :=
  match entry with
  | Some (p, counts) =>
      counter_of xxh64 config files h done counts
      /\ (exists s, In s lines /\ lh s = h /\ lp s = p)
      /\ (exists i, In i done /\ 0 < fcount h i)
  | None => forall i, In i done -> fcount h i = 0
  end.

Lemma existsb_app_one (i j : nat) (l : list nat) :
  existsb (Nat.eqb i) (l ++ [j]) = existsb (Nat.eqb i) l || Nat.eqb i j.
Proof. rewrite existsb_app. simpl. now rewrite orb_false_r. Qed.

Lemma fast_global_spec (done : list nat) :
  NoDup done -> (forall i, In i done -> i < List.length files) ->
  let G := fast_global xxh64 config files done in
  NoDup (PyDict.keys G) /\ forall h, global_entry done h (sget h G).
Proof.
  unfold fast_global.
  induction done as [|fid done IH] using rev_ind; intros Hnd Hvalid.
  - simpl. split; [constructor|]. intros h i [].
  - rewrite fold_left_app. simpl.
    apply NoDup_remove in Hnd. rewrite app_nil_r in Hnd.
    destruct Hnd as [Hnd Hfresh].
    destruct IH as [HndG IH];
      [exact Hnd|intros i Hi; apply Hvalid, in_or_app; now left|].
    set (G := fold_left _ done []) in *.
    assert (Hfid : fid < List.length files)
      by (apply Hvalid, in_or_app; right; now left).
    destruct (nth_error files fid) as [f|] eqn:Hf;
      [|apply nth_error_None in Hf; lia].
    destruct (fast_count_spec (data_lines f)) as [HndL HL].
    rewrite <- process_file_fast_eq in HndL, HL.
    set (L := process_file_fast xxh64 config f) in *.
    rewrite (fold_left_ext (fast_merge fid)
               (fun acc kv =>
                  sset (fst kv)
                    (fast_upd fid (fst kv) (snd kv) (sget (fst kv) acc)) acc))
      by (intros; apply fast_merge_upd).
    split; [apply (dnodup_fold_each String.eqb String.eqb_spec), HndG|].
    intros h.
    rewrite (dget_fold_each String.eqb String.eqb_spec (fast_upd fid) L G h
               HndL).
    specialize (HL h). specialize (IH h).
    assert (Hcount : fcount h fid = occ h (data_lines f))
      by (unfold file_count; now rewrite Hf).
    assert (Hnotdone : existsb (Nat.eqb fid) done = false).
    { destruct (existsb (Nat.eqb fid) done) eqn:He; [|reflexivity].
      apply existsb_exists in He. destruct He as [j [Hj Heq]].
      apply Nat.eqb_eq in Heq. subst j. contradiction. }
    destruct (sget h L) as [[p' c']|]; simpl in HL.
    + destruct HL as (Hc & Hpos & s & Hs & Hh & Hp).
      assert (Hsl : In s lines) by (eapply data_lines_all; eassumption).
      unfold fast_upd. simpl.
      destruct (sget h G) as [[p0 counts0]|]; simpl in IH |- *.
      * destruct IH as ([Hndc Hget] & Hex & Hi).
        repeat split.
        -- apply (dnodup_set Nat.eqb Nat.eqb_spec), Hndc.
        -- intros i. rewrite (dget_set Nat.eqb Nat.eqb_spec), existsb_app_one.
           destruct (Nat.eqb_spec i fid) as [->|Hne].
           ++ rewrite orb_true_r. simpl. rewrite Hcount, <- Hc.
              apply Nat.ltb_lt in Hpos. now rewrite Hpos.
           ++ rewrite orb_false_r. apply Hget.
        -- destruct (PyStr.truthy p0); [exact Hex|eauto].
        -- exists fid. split; [apply in_or_app; right; now left|lia].
      * repeat split.
        -- repeat constructor. simpl. tauto.
        -- intros i. simpl. rewrite existsb_app_one.
           destruct (Nat.eqb_spec i fid) as [->|Hne].
           ++ rewrite orb_true_r. simpl. rewrite Hcount, <- Hc.
              apply Nat.ltb_lt in Hpos. now rewrite Hpos.
           ++ rewrite orb_false_r.
              destruct (existsb (Nat.eqb i) done) eqn:He; [|reflexivity].
              apply existsb_exists in He. destruct He as [j [Hj Heq]].
              apply Nat.eqb_eq in Heq. subst j.
              rewrite (IH i Hj). reflexivity.
        -- eauto.
        -- exists fid. split; [apply in_or_app; right; now left|lia].
    + destruct (sget h G) as [[p0 counts0]|]; simpl in IH |- *.
      * destruct IH as ([Hndc Hget] & Hex & [i [Hi Hposi]]).
        repeat split.
        -- exact Hndc.
        -- intros j. rewrite existsb_app_one, Hget.
           destruct (Nat.eqb_spec j fid) as [->|Hne].
           ++ rewrite Hnotdone, orb_true_r. simpl.
              rewrite Hcount, HL. reflexivity.
           ++ now rewrite orb_false_r.
        -- exact Hex.
        -- exists i. split; [apply in_or_app; now left|exact Hposi].
      * intros i Hi. apply in_app_or in Hi. destruct Hi as [Hi|[<-|[]]].
        -- now apply IH.
        -- lia.
Qed.

(** The two dictionaries of the final loop, each as a loop of its own. *)
Definition emit_inter (entry : string * (string * list (nat * nat)))
  : option (string * list string) :=
  let '(_, (prefix, file_counts)) := entry in
  if (1 <? List.length file_counts)%nat
  then Some (prefix, names_of files file_counts) else None.

Definition emit_intra (entry : string * (string * list (nat * nat)))
  : option (string * list string) :=
  let '(_, (prefix, file_counts)) := entry in
  if (1 <? List.length file_counts)%nat then None
  else if (1 <? total_of file_counts)%nat
       then Some (prefix,
                  [id_to_file_map files (hd 0 (PyDict.keys file_counts))])
       else None.

Definition emit_loop {X : Type} (emit : X -> option (string * list string))
  (items : list X) (d : sdict (list string)) : sdict (list string) :=
  fold_left
    (fun (acc : list (string * list string)) (x : X) =>
       match emit x with
       | Some (k', v') => sset k' v' acc
       | None => acc
       end)
    items d.

Lemma emit_loop_nodup {X : Type} (emit : X -> option (string * list string))
  (items : list X) (d : sdict (list string)) :
  NoDup (PyDict.keys d) -> NoDup (PyDict.keys (emit_loop emit items d)).
Proof.
  unfold emit_loop. revert d.
  induction items as [|x items IH]; intros d Hd; simpl; [exact Hd|].
  apply IH. destruct (emit x) as [[k v]|]; [|exact Hd].
  apply (dnodup_set String.eqb String.eqb_spec), Hd.
Qed.

Lemma fast_collect_split (G : sdict (string * list (nat * nat)))
  (O I : sdict (list string)) :
  fold_left (fast_collect files) G (O, I)
  = (emit_loop emit_inter G O, emit_loop emit_intra G I).
Proof.
  unfold emit_loop. revert O I.
  induction G as [|[h [p fc]] G IH]; intros O I; simpl; [reflexivity|].
  destruct (1 <? List.length fc)%nat; [apply IH|].
  destruct (1 <? total_of fc)%nat; apply IH.
Qed.

(** An entry of the complete global dictionary is written to the report
    exactly when its hash occurs more than once, with the names of the
    files that hold the hash. *)
Lemma fast_entry_emits (order : list nat) (h p : string)
  (counts : list (nat * nat)) :
  Permutation order (seq 0 (List.length files)) ->
  global_entry order h (Some (p, counts)) ->
  let l := map (id_to_file_map files) (containing xxh64 config files h) in
  (1 < total_count xxh64 config files h ->
   (emit_inter (h, (p, counts)) = Some (p, l)
    /\ emit_intra (h, (p, counts)) = None)
   \/ (emit_inter (h, (p, counts)) = None
       /\ emit_intra (h, (p, counts)) = Some (p, l)))
  /\ (total_count xxh64 config files h <= 1 ->
      emit_inter (h, (p, counts)) = None
      /\ emit_intra (h, (p, counts)) = None).
Proof.
  intros Hperm (Hcounter & _ & [i [Hi Hposi]]) l.
  destruct (counter_of_complete xxh64 config files h order counts Hperm
              Hcounter) as (Hsorted & Hlen & Htot).
  pose proof (total_count_ge xxh64 config files h) as Hge.
  unfold emit_inter, emit_intra, names_of. rewrite Hsorted, Hlen, Htot.
  fold l. split.
  - intros Hdup.
    destruct (1 <? List.length (containing xxh64 config files h))%nat
      eqn:Hmany; [now left|right].
    apply Nat.ltb_lt in Hdup. rewrite Hdup. split; [reflexivity|].
    f_equal. f_equal. unfold l.
    apply Nat.ltb_ge in Hmany.
    assert (Hin : In i (containing xxh64 config files h))
      by now apply in_containing.
    rewrite <- Hsorted in Hin, Hmany |- *.
    unfold sorted_nats in *. rewrite py_sort_length in Hmany.
    apply py_sort_in in Hin.
    destruct counts as [|[j c] [|kv counts]]; simpl in *; try lia.
    reflexivity.
  - intros Hle.
    replace (1 <? List.length (containing xxh64 config files h))%nat
      with false by (symmetry; apply Nat.ltb_ge; lia).
    replace (1 <? total_count xxh64 config files h)%nat
      with false by (symmetry; apply Nat.ltb_ge; lia).
    auto.
Qed.

(** The report data of the FAST engine: one entry per prefix, and exactly
    the entries expected. *)
Lemma fast_output_spec (order : list nat) :
  Permutation order (seq 0 (List.length files)) ->
  NoDup (PyDict.keys (fast_output xxh64 config files order))
  /\ forall p l,
       sget p (fast_output xxh64 config files order) = Some l
       <-> expected xxh64 config files p l.
Proof.
  intros Hperm.
  assert (Hnd : NoDup order)
    by (eapply Permutation_NoDup;
        [apply Permutation_sym, Hperm|apply seq_NoDup]).
  assert (Hvalid : forall i, In i order -> i < List.length files).
  { intros i Hi. apply (Permutation_in _ Hperm), in_seq in Hi. lia. }
  destruct (fast_global_spec order Hnd Hvalid) as [HndG HG].
  unfold fast_output, fast_collect_all.
  set (G := fast_global xxh64 config files order) in *.
  rewrite fast_collect_split.
  assert (HndO : NoDup (PyDict.keys (emit_loop emit_inter G [])))
    by (apply emit_loop_nodup; constructor).
  assert (HndI : NoDup (PyDict.keys (emit_loop emit_intra G [])))
    by (apply emit_loop_nodup; constructor).
  split; [apply nodup_keys_update, HndO|].
  (* an entry of [G] with its description *)
  assert (Hentry : forall e, In e G ->
            global_entry order (fst e) (Some (snd e))).
  { intros [h e] Hin. pose proof (HG h) as Hh.
    rewrite (dget_in String.eqb String.eqb_spec h e G HndG Hin) in Hh.
    exact Hh. }
  (* entries that emit under one prefix are one entry *)
  assert (Huniq : forall e1 e2, In e1 G -> In e2 G ->
            fst (snd e1) = fst (snd e2) -> e1 = e2).
  { intros [h1 [p1 c1]] [h2 [p2 c2]] H1 H2 Hp. simpl in Hp. subst p2.
    destruct (Hentry _ H1) as (_ & [s1 (Hs1 & Hh1 & Hp1)] & _).
    destruct (Hentry _ H2) as (_ & [s2 (Hs2 & Hh2 & Hp2)] & _).
    simpl in *.
    assert (h1 = h2) as <-.
    { rewrite <- Hh1, <- Hh2. apply (hash_prefix s1 s2 Hs1 Hs2). congruence. }
    pose proof (dget_in String.eqb String.eqb_spec _ _ _ HndG H1) as E1.
    pose proof (dget_in String.eqb String.eqb_spec _ _ _ HndG H2) as E2.
    congruence. }
  assert (Hkey : forall emit, (emit = emit_inter \/ emit = emit_intra) ->
            forall e k v, emit e = Some (k, v) -> k = fst (snd e)).
  { intros emit [-> | ->] [h [p c]] k v; unfold emit_inter, emit_intra;
      simpl; intros He.
    - destruct (1 <? List.length c)%nat; congruence.
    - destruct (1 <? List.length c)%nat; [discriminate|].
      destruct (1 <? total_of c)%nat; congruence. }
  assert (Hagree : forall emit, (emit = emit_inter \/ emit = emit_intra) ->
            forall k e v, In e G -> emit e = Some (k, v) ->
            forall x v', In x G -> emit x = Some (k, v') -> v' = v).
  { intros emit Hemit k e v He Hev x v' Hx Hxv.
    assert (x = e) as ->.
    { apply Huniq; try assumption.
      rewrite <- (Hkey emit Hemit _ _ _ Hev).
      rewrite <- (Hkey emit Hemit _ _ _ Hxv). reflexivity. }
    congruence. }
  intros p l. rewrite sget_update by exact HndI.
  destruct (dget_fold_emit String.eqb String.eqb_spec emit_inter G [] p l)
    as (HO1 & HO2 & _).
  destruct (dget_fold_emit String.eqb String.eqb_spec emit_intra G [] p l)
    as (HI1 & HI2 & _).
  fold (emit_loop emit_inter G []) in HO1, HO2.
  fold (emit_loop emit_intra G []) in HI1, HI2.
  split.
  - (* what is in the report was expected *)
    intros Hget.
    assert (Hsome : exists e emit,
               (emit = emit_inter \/ emit = emit_intra)
               /\ In e G /\ emit e = Some (p, l)).
    { destruct (sget p (emit_loop emit_intra G [])) as [l'|] eqn:HI.
      - injection Hget as ->.
        destruct (HI1 eq_refl) as [Habs|[e [He Hev]]]; [discriminate|].
        exists e, emit_intra. auto.
      - destruct (HO1 Hget) as [Habs|[e [He Hev]]]; [discriminate|].
        exists e, emit_inter. auto. }
    destruct Hsome as ([h [p' c]] & emit & Hemit & He & Hev).
    pose proof (Hkey emit Hemit _ _ _ Hev) as Hp. simpl in Hp. subst p'.
    pose proof (Hentry _ He) as Hge. simpl in Hge.
    destruct (fast_entry_emits order h p c Hperm Hge) as [Hdup Hnodup].
    destruct (Nat.le_gt_cases (total_count xxh64 config files h) 1)
      as [Hle|Hgt].
    + destruct (Hnodup Hle) as [E1 E2].
      destruct Hemit as [-> | ->]; congruence.
    + destruct Hge as (_ & [s (Hs & Hh & Hps)] & _).
      exists s. subst h. repeat split; try assumption.
      destruct (Hdup Hgt) as [[E1 E2]|[E1 E2]];
        destruct Hemit as [-> | ->]; congruence.
  - (* what was expected is in the report *)
    intros [s (Hs & Hps & Hdup & Hl)].
    destruct (line_file_count xxh64 config files s Hs) as [i [Hi Hposi]].
    pose proof (HG (lh s)) as Hge.
    destruct (sget (lh s) G) as [[p' c]|] eqn:Hget0; simpl in Hge.
    2:{ assert (Hin : In i order)
          by (apply (Permutation_in _ (Permutation_sym Hperm)), in_seq; lia).
        specialize (Hge i Hin). lia. }
    assert (He : In (lh s, (p', c)) G)
      by (eapply (dget_some_in String.eqb String.eqb_spec); exact Hget0).
    assert (p' = p) as ->.
    { destruct Hge as (_ & [t (Ht & Hht & Hpt)] & _).
      rewrite <- Hpt, <- Hps. apply (hash_prefix t s Ht Hs). exact Hht. }
    destruct (fast_entry_emits order (lh s) p c Hperm Hge) as [Hemits _].
    rewrite <- Hl in Hemits.
    destruct (Hemits Hdup) as [[E1 E2]|[E1 E2]].
    + (* found in several files *)
      assert (HnoneI : sget p (emit_loop emit_intra G []) = None).
      { destruct (sget p (emit_loop emit_intra G [])) as [l'|] eqn:HI;
          [|reflexivity].
        destruct (dget_fold_emit String.eqb String.eqb_spec emit_intra G []
                    p l') as (HI1' & _).
        fold (emit_loop emit_intra G []) in HI1'.
        destruct (HI1' HI) as [Habs|[e [He' Hev']]]; [discriminate|].
        assert (e = (lh s, (p, c))) as ->.
        { apply Huniq; try assumption.
          rewrite <- (Hkey emit_intra (or_intror eq_refl) _ _ _ Hev').
          reflexivity. }
        congruence. }
      rewrite HnoneI. apply HO2.
      * apply (Hagree emit_inter (or_introl eq_refl) p _ l He E1).
      * eauto.
    + (* repeated inside one file *)
      rewrite HI2; [reflexivity| |eauto].
      apply (Hagree emit_intra (or_intror eq_refl) p _ l He E2).
Qed.

End FastEngine.

(** ** The SAFE engine *)

Lemma total_count_pos (xxh64 : string -> N) (config : Config)
  (files : list File) (h : string) :
  0 < total_count xxh64 config files h ->
  exists i, i < List.length files /\ 0 < file_count xxh64 config files h i.
Proof.
  rewrite total_count_containing.
  destruct (containing xxh64 config files h) as [|i l] eqn:Hc; simpl; [lia|].
  intros _. exists i.
  assert (Hin : In i (containing xxh64 config files h))
    by (rewrite Hc; now left).
  apply in_containing in Hin. split; [|exact Hin].
  apply file_count_pos in Hin. tauto.
Qed.

Section SafeEngine.

Variable xxh64 : string -> N.
Variable config : Config.
Variable files : list File.

Local Abbreviation lh := (line_hash xxh64 config).
Local Abbreviation lp := (line_prefix config).
Local Abbreviation occ := (occurrences xxh64 config).
Local Abbreviation fcount := (file_count xxh64 config files).
Local Abbreviation total := (total_count xxh64 config files).
Local Abbreviation lines := (all_lines files).

Local Opaque line_hash line_prefix.

Hypothesis hash_prefix :
  forall s t, In s lines -> In t lines -> (lh s = lh t <-> lp s = lp t).

(** *** First pass *)

Definition safe_count (local_hashes : sdict nat) (s : string) : sdict nat :=
  match sget (lh s) local_hashes with
  | None => sset (lh s) 1 local_hashes
  | Some c => sset (lh s) (S c) local_hashes
  end.

Lemma process_file_safe_pass1_eq (f : File) :
  process_file_safe_pass1 xxh64 config f
  = fold_left safe_count (data_lines f) [].
Proof.
  unfold process_file_safe_pass1, data_lines. apply fold_skip_blank.
  intros a line. reflexivity.
Qed.

Lemma safe_count_spec (ss : list string) :
  let local_hashes := fold_left safe_count ss [] in
  NoDup (PyDict.keys local_hashes)
  /\ forall h,
       sget h local_hashes
       = if (0 <? occ h ss)%nat then Some (occ h ss) else None.
Proof.
  induction ss as [|x ss IH] using rev_ind; simpl.
  - split; [constructor|]. intros h. reflexivity.
  - rewrite fold_left_app. simpl. destruct IH as [Hnd IH].
    set (L := fold_left safe_count ss []) in *.
    assert (Hstep : forall h,
               sget h (safe_count L x)
               = if String.eqb h (lh x)
                 then Some (S (occ (lh x) ss))
                 else sget h L).
    { intros h. unfold safe_count. pose proof (IH (lh x)) as Hx.
      destruct (sget (lh x) L) as [c|] eqn:Hget;
        rewrite (dget_set String.eqb String.eqb_spec);
        destruct (String.eqb h (lh x)); try reflexivity;
        destruct (0 <? occ (lh x) ss)%nat eqn:Hpos; try discriminate.
      - congruence.
      - apply Nat.ltb_ge in Hpos. f_equal. lia. }
    split.
    + unfold safe_count. destruct (sget (lh x) L);
        apply (dnodup_set String.eqb String.eqb_spec), Hnd.
    + intros h. rewrite Hstep, occurrences_app.
      unfold occurrences at 3 5. simpl.
      destruct (String.eqb_spec h (lh x)) as [->|Hne].
      * rewrite String.eqb_refl. simpl.
        replace (0 <? occ (lh x) ss + 1)%nat with true
          by (symmetry; apply Nat.ltb_lt; lia).
        f_equal. lia.
      * destruct (String.eqb_spec (lh x) h); [congruence|]. simpl.
        rewrite Nat.add_0_r. apply IH.
Qed.

Definition safe_upd (file_id : nat) (h : string) (count : nat)
  (old : option (list (nat * nat))) : list (nat * nat) :=
  nset file_id count (match old with Some c => c | None => [] end).

Lemma safe_merge1_upd (file_id : nat) (C : sdict (list (nat * nat)))
  (kv : string * nat) :
  safe_merge1 file_id C kv
  = sset (fst kv) (safe_upd file_id (fst kv) (snd kv) (sget (fst kv) C)) C.
Proof. destruct kv as [h count]. reflexivity. Qed.

Definition counts_entry (done : list nat) (h : string)
  (entry : option (list (nat * nat))) : Prop :=
  match entry with
  | Some counts =>
      counter_of xxh64 config files h done counts
      /\ (exists i, In i done /\ 0 < fcount h i)
  | None => forall i, In i done -> fcount h i = 0
  end.

Lemma safe_counts_spec (done : list nat) :
  NoDup done -> (forall i, In i done -> i < List.length files) ->
  let C := safe_counts xxh64 config files done in
  NoDup (PyDict.keys C) /\ forall h, counts_entry done h (sget h C).
Proof.
  unfold safe_counts.
  induction done as [|fid done IH] using rev_ind; intros Hnd Hvalid.
  - simpl. split; [constructor|]. intros h i [].
  - rewrite fold_left_app. simpl.
    apply NoDup_remove in Hnd. rewrite app_nil_r in Hnd.
    destruct Hnd as [Hnd Hfresh].
    destruct IH as [HndC IH];
      [exact Hnd|intros i Hi; apply Hvalid, in_or_app; now left|].
    set (C := fold_left _ done []) in *.
    assert (Hfid : fid < List.length files)
      by (apply Hvalid, in_or_app; right; now left).
    destruct (nth_error files fid) as [f|] eqn:Hf;
      [|apply nth_error_None in Hf; lia].
    destruct (safe_count_spec (data_lines f)) as [HndL HL].
    rewrite <- process_file_safe_pass1_eq in HndL, HL.
    set (L := process_file_safe_pass1 xxh64 config f) in *.
    rewrite (fold_left_ext (safe_merge1 fid)
               (fun acc kv =>
                  sset (fst kv)
                    (safe_upd fid (fst kv) (snd kv) (sget (fst kv) acc)) acc))
      by (intros; apply safe_merge1_upd).
    split; [apply (dnodup_fold_each String.eqb String.eqb_spec), HndC|].
    intros h.
    rewrite (dget_fold_each String.eqb String.eqb_spec (safe_upd fid) L C h
               HndL).
    specialize (HL h). specialize (IH h).
    assert (Hcount : fcount h fid = occ h (data_lines f))
      by (unfold file_count; now rewrite Hf).
    assert (Hnotdone : existsb (Nat.eqb fid) done = false).
    { destruct (existsb (Nat.eqb fid) done) eqn:He; [|reflexivity].
      apply existsb_exists in He. destruct He as [j [Hj Heq]].
      apply Nat.eqb_eq in Heq. subst j. contradiction. }
    rewrite HL. rewrite <- Hcount.
    destruct (0 <? fcount h fid)%nat eqn:Hpos.
    + apply Nat.ltb_lt in Hpos. unfold safe_upd.
      destruct (sget h C) as [counts0|]; simpl in IH |- *.
      * destruct IH as ([Hndc Hget] & Hi).
        repeat split.
        -- apply (dnodup_set Nat.eqb Nat.eqb_spec), Hndc.
        -- intros i. rewrite (dget_set Nat.eqb Nat.eqb_spec), existsb_app_one.
           destruct (Nat.eqb_spec i fid) as [->|Hne].
           ++ rewrite orb_true_r. simpl.
              apply Nat.ltb_lt in Hpos. now rewrite Hpos.
           ++ rewrite orb_false_r. apply Hget.
        -- exists fid. split; [apply in_or_app; right; now left|lia].
      * repeat split.
        -- repeat constructor. simpl. tauto.
        -- intros i. simpl. rewrite existsb_app_one.
           destruct (Nat.eqb_spec i fid) as [->|Hne].
           ++ rewrite orb_true_r. simpl.
              apply Nat.ltb_lt in Hpos. now rewrite Hpos.
           ++ rewrite orb_false_r.
              destruct (existsb (Nat.eqb i) done) eqn:He; [|reflexivity].
              apply existsb_exists in He. destruct He as [j [Hj Heq]].
              apply Nat.eqb_eq in Heq. subst j.
              rewrite (IH i Hj). reflexivity.
        -- exists fid. split; [apply in_or_app; right; now left|lia].
    + apply Nat.ltb_ge in Hpos.
      destruct (sget h C) as [counts0|]; simpl in IH |- *.
      * destruct IH as ([Hndc Hget] & [i [Hi Hposi]]).
        repeat split.
        -- exact Hndc.
        -- intros j. rewrite existsb_app_one, Hget.
           destruct (Nat.eqb_spec j fid) as [->|Hne].
           ++ rewrite Hnotdone, orb_true_r. simpl.
              replace (0 <? fcount h fid)%nat with false
                by (symmetry; apply Nat.ltb_ge; lia).
              reflexivity.
           ++ now rewrite orb_false_r.
        -- exists i. split; [apply in_or_app; now left|exact Hposi].
      * intros i Hi. apply in_app_or in Hi. destruct Hi as [Hi|[<-|[]]].
        -- now apply IH.
        -- lia.
Qed.

(** The duplicate hashes are those that occur more than once. *)
Lemma safe_duplicate_hashes_spec (order : list nat) (h : string) :
  Permutation order (seq 0 (List.length files)) ->
  set_mem h (safe_duplicate_hashes (safe_counts xxh64 config files order))
  = (1 <? total h)%nat.
Proof.
  intros Hperm.
  assert (Hnd : NoDup order)
    by (eapply Permutation_NoDup;
        [apply Permutation_sym, Hperm|apply seq_NoDup]).
  assert (Hvalid : forall i, In i order -> i < List.length files).
  { intros i Hi. apply (Permutation_in _ Hperm), in_seq in Hi. lia. }
  destruct (safe_counts_spec order Hnd Hvalid) as [HndC HC].
  set (C := safe_counts xxh64 config files order) in *.
  assert (Hcond : forall counts, sget h C = Some counts ->
            ((1 <? List.length counts)%nat || (1 <? total_of counts)%nat)
            = (1 <? total h)%nat).
  { intros counts Hget. pose proof (HC h) as Hh. rewrite Hget in Hh.
    destruct Hh as [Hcounter _].
    destruct (counter_of_complete xxh64 config files h order counts Hperm
                Hcounter) as (_ & Hlen & Htot).
    rewrite Hlen, Htot.
    pose proof (total_count_ge xxh64 config files h) as Hge.
    destruct (1 <? total h)%nat eqn:Ht; [apply orb_true_r|].
    apply Nat.ltb_ge in Ht. rewrite orb_false_r. apply Nat.ltb_ge. lia. }
  unfold set_mem, safe_duplicate_hashes.
  destruct (1 <? total h)%nat eqn:Ht.
  - apply existsb_exists. exists h. split; [|apply String.eqb_refl].
    pose proof (HC h) as Hh.
    destruct (sget h C) as [counts|] eqn:Hget; simpl in Hh.
    + apply in_map_iff. exists (h, counts). split; [reflexivity|].
      apply filter_In. split.
      * eapply (dget_some_in String.eqb String.eqb_spec). exact Hget.
      * simpl. rewrite (Hcond counts eq_refl). reflexivity.
    + apply Nat.ltb_lt in Ht.
      destruct (total_count_pos xxh64 config files h) as [i [Hi Hpos]];
        [lia|].
      assert (Hin : In i order)
        by (apply (Permutation_in _ (Permutation_sym Hperm)), in_seq; lia).
      specialize (Hh i Hin). lia.
  - destruct (existsb (String.eqb h) _) eqn:He; [|reflexivity].
    apply existsb_exists in He. destruct He as [h' [Hin Heq]].
    apply String.eqb_eq in Heq. subst h'.
    apply in_map_iff in Hin. destruct Hin as [[h' counts] [Heq Hin]].
    simpl in Heq. subst h'. apply filter_In in Hin. destruct Hin as [Hin Hc].
    simpl in Hc.
    rewrite (Hcond counts
               (dget_in String.eqb String.eqb_spec h counts C HndC Hin))
      in Hc.
    congruence.
Qed.

(** *** Second pass *)

Definition safe_first_prefix (duplicate_hashes : list string)
  (results : sdict string) (s : string) : sdict string :=
  if set_mem (lh s) duplicate_hashes
     && negb (PyDict.mem String.eqb (lh s) results)
  then sset (lh s) (lp s) results
  else results.

Lemma safe_first_prefix_spec (D : list string) (ss : list string) :
  let results := fold_left (safe_first_prefix D) ss [] in
  NoDup (PyDict.keys results)
  /\ forall h,
       match sget h results with
       | Some p =>
           set_mem h D = true /\ exists s, In s ss /\ lh s = h /\ lp s = p
       | None => set_mem h D = false \/ occ h ss = 0
       end.
Proof.
  induction ss as [|x ss IH] using rev_ind; simpl.
  - split; [constructor|]. intros h. now right.
  - rewrite fold_left_app. simpl. destruct IH as [Hnd IH].
    set (R := fold_left (safe_first_prefix D) ss []) in *.
    unfold safe_first_prefix, PyDict.mem.
    destruct (set_mem (lh x) D) eqn:HD; simpl.
    + destruct (sget (lh x) R) as [px|] eqn:Hx; simpl.
      * split; [exact Hnd|]. intros h. specialize (IH h).
        destruct (sget h R) as [p|] eqn:Hh.
        -- destruct IH as (Hm & s & Hs & Hhs & Hps). split; [exact Hm|].
           exists s. rewrite in_app_iff. auto.
        -- destruct IH as [Hm|Hz]; [now left|].
           destruct (String.eqb_spec (lh x) h) as [Heq|Hne];
             [congruence|].
           right. rewrite occurrences_app. unfold occurrences at 2. simpl.
           destruct (String.eqb_spec (lh x) h); [congruence|]. simpl. lia.
      * split; [apply (dnodup_set String.eqb String.eqb_spec), Hnd|].
        intros h. rewrite (dget_set String.eqb String.eqb_spec).
        destruct (String.eqb_spec h (lh x)) as [->|Hne].
        -- split; [exact HD|]. exists x. rewrite in_app_iff. simpl. auto.
        -- specialize (IH h). destruct (sget h R) as [p|].
           ++ destruct IH as (Hm & s & Hs & Hhs & Hps). split; [exact Hm|].
              exists s. rewrite in_app_iff. auto.
           ++ destruct IH as [Hm|Hz]; [now left|]. right.
              rewrite occurrences_app. unfold occurrences at 2. simpl.
              destruct (String.eqb_spec (lh x) h); [congruence|]. simpl. lia.
    + split; [exact Hnd|]. intros h. specialize (IH h).
      destruct (sget h R) as [p|].
      * destruct IH as (Hm & s & Hs & Hhs & Hps). split; [exact Hm|].
        exists s. rewrite in_app_iff. auto.
      * destruct IH as [Hm|Hz]; [now left|].
        destruct (String.eqb_spec (lh x) h) as [Heq|Hne].
        -- left. congruence.
        -- right. rewrite occurrences_app. unfold occurrences at 2. simpl.
           destruct (String.eqb_spec (lh x) h); [congruence|]. simpl. lia.
Qed.

Lemma process_file_safe_pass2_spec (f : File) (D : list string) :
  let results := process_file_safe_pass2 xxh64 config f D in
  NoDup (PyDict.keys results)
  /\ forall h,
       match sget h results with
       | Some p =>
           set_mem h D = true
           /\ exists s, In s (data_lines f) /\ lh s = h /\ lp s = p
       | None => set_mem h D = false \/ occ h (data_lines f) = 0
       end.
Proof.
  unfold process_file_safe_pass2. destruct D as [|d D].
  - simpl. split; [constructor|]. intros h. now left.
  - assert (Heq : fold_left (safe2_step xxh64 config (d :: D)) (body f) []
                  = fold_left (safe_first_prefix (d :: D)) (data_lines f) []).
    { unfold data_lines. apply fold_skip_blank.
      intros a line. unfold safe2_step, safe_first_prefix.
      destruct (PyStr.truthy (PyStr.strip line)); reflexivity. }
    rewrite Heq. apply safe_first_prefix_spec.
Qed.

Definition pass2_items (D : list string) (order : list nat)
  : list (string * string) :=
  flat_map
    (fun file_id =>
       match nth_error files file_id with
       | Some f => process_file_safe_pass2 xxh64 config f D
       | None => []
       end)
    order.

Lemma safe_prefixes_eq (D : list string) (order : list nat) :
  safe_prefixes xxh64 config files order D
  = fold_left
      (fun (acc : list (string * string)) (kv : string * string) =>
         match Some kv with
         | Some (k', v') => sset k' v' acc
         | None => acc
         end)
      (pass2_items D order) [].
Proof.
  unfold safe_prefixes, pass2_items. rewrite fold_left_flat_map.
  apply fold_left_ext. intros acc fid.
  destruct (nth_error files fid) as [f|]; [|reflexivity].
  unfold PyDict.update. apply fold_left_ext. intros a [k v]. reflexivity.
Qed.

(** The prefixes of the second pass: one for each duplicate hash, that of
    one of its lines. *)
Lemma safe_prefixes_spec (order1 order2 : list nat) :
  Permutation order1 (seq 0 (List.length files)) ->
  Permutation order2 (seq 0 (List.length files)) ->
  let D := safe_duplicate_hashes (safe_counts xxh64 config files order1) in
  let M := safe_prefixes xxh64 config files order2 D in
  NoDup (PyDict.keys M)
  /\ forall h p,
       sget h M = Some p
       <-> (1 < total h /\ exists s, In s lines /\ lh s = h /\ lp s = p).
Proof.
  intros Hperm1 Hperm2 D M.
  assert (HD : forall h, set_mem h D = (1 <? total h)%nat)
    by (intros h; apply safe_duplicate_hashes_spec, Hperm1).
  assert (Hitems : forall h p, In (h, p) (pass2_items D order2) ->
            1 < total h /\ exists s, In s lines /\ lh s = h /\ lp s = p).
  { intros h p Hin. apply in_flat_map in Hin.
    destruct Hin as [fid [Hfid Hin]].
    destruct (nth_error files fid) as [f|] eqn:Hf; [|destruct Hin].
    destruct (process_file_safe_pass2_spec f D) as [HndR HR].
    pose proof (HR h) as Hh.
    rewrite (dget_in String.eqb String.eqb_spec h p _ HndR Hin) in Hh.
    destruct Hh as (Hm & s & Hs & Hhs & Hps).
    rewrite HD in Hm. apply Nat.ltb_lt in Hm. split; [exact Hm|].
    exists s. split; [eapply data_lines_all; eassumption|auto]. }
  subst M. rewrite safe_prefixes_eq.
  split.
  - generalize (pass2_items D order2). intros items.
    assert (Hgen : forall d : sdict string, NoDup (PyDict.keys d) ->
              NoDup (PyDict.keys
                       (fold_left
                          (fun (acc : list (string * string))
                               (kv : string * string) =>
                             match Some kv with
                             | Some (k', v') => sset k' v' acc
                             | None => acc
                             end) items d))).
    { induction items as [|[k v] items IH]; intros d Hd; simpl; [exact Hd|].
      apply IH, (dnodup_set String.eqb String.eqb_spec), Hd. }
    apply Hgen. constructor.
  - intros h p.
    destruct (dget_fold_emit String.eqb String.eqb_spec
                (fun kv : string * string => Some kv)
                (pass2_items D order2) [] h p) as (H1 & H2 & _).
    split.
    + intros Hget. destruct (H1 Hget) as [Habs|[[h' p'] [Hin Heq]]];
        [discriminate|].
      injection Heq as -> ->. now apply Hitems.
    + intros (Hdup & s & Hs & Hhs & Hps).
      apply H2.
      * intros [h' p'] v' Hin Heq. injection Heq as -> ->.
        destruct (Hitems _ _ Hin) as (_ & t & Ht & Hht & Hpt).
        rewrite <- Hpt, <- Hps. apply (hash_prefix t s Ht Hs). congruence.
      * destruct (all_lines_file files s Hs) as [i [f [Hi Hsf]]].
        destruct (process_file_safe_pass2_spec f D) as [HndR HR].
        pose proof (HR h) as Hh.
        destruct (sget h (process_file_safe_pass2 xxh64 config f D))
          as [p'|] eqn:Hget.
        -- destruct Hh as (_ & t & Ht & Hht & Hpt).
           assert (p' = p) as ->.
           { rewrite <- Hpt, <- Hps.
             apply (hash_prefix t s); [|exact Hs|congruence].
             eapply data_lines_all; eassumption. }
           exists (h, p). split; [|reflexivity].
           apply in_flat_map. exists i. split.
           ++ apply (Permutation_in _ (Permutation_sym Hperm2)), in_seq.
              assert (i < List.length files)
                by (apply nth_error_Some; congruence). lia.
           ++ rewrite Hi.
              eapply (dget_some_in String.eqb String.eqb_spec). exact Hget.
        -- exfalso. destruct Hh as [Hm|Hz].
           ++ rewrite HD in Hm. apply Nat.ltb_ge in Hm. lia.
           ++ assert (Hpos : 0 < occ h (data_lines f))
                by (apply occurrences_pos; eauto).
              lia.
Qed.

(** *** The report data *)

Definition emit_safe (C : sdict (list (nat * nat))) (D : list string)
  (kv : string * string) : option (string * list string) :=
  let '(h, prefix) := kv in
  if set_mem h D then
    let file_counts := get_default h C [] in
    if (1 <? List.length file_counts)%nat
    then Some (prefix, names_of files file_counts)
    else if (1 <? total_of file_counts)%nat
         then Some (prefix,
                    [id_to_file_map files (hd 0 (PyDict.keys file_counts))])
         else None
  else None.

Lemma safe_output_eq (order1 order2 : list nat) :
  let C := safe_counts xxh64 config files order1 in
  let D := safe_duplicate_hashes C in
  safe_output xxh64 config files order1 order2
  = emit_loop (emit_safe C D) (safe_prefixes xxh64 config files order2 D) [].
Proof.
  unfold safe_output, emit_loop. apply fold_left_ext.
  intros acc [h p]. unfold safe_collect, emit_safe.
  destruct (set_mem h _); [|reflexivity].
  destruct (1 <? List.length _)%nat; [reflexivity|].
  destruct (1 <? total_of _)%nat; reflexivity.
Qed.

Lemma safe_output_spec (order1 order2 : list nat) :
  Permutation order1 (seq 0 (List.length files)) ->
  Permutation order2 (seq 0 (List.length files)) ->
  NoDup (PyDict.keys (safe_output xxh64 config files order1 order2))
  /\ forall p l,
       sget p (safe_output xxh64 config files order1 order2) = Some l
       <-> expected xxh64 config files p l.
Proof.
  intros Hperm1 Hperm2. rewrite safe_output_eq.
  set (C := safe_counts xxh64 config files order1).
  set (D := safe_duplicate_hashes C).
  destruct (safe_prefixes_spec order1 order2 Hperm1 Hperm2) as [HndM HM].
  fold C D in HndM, HM.
  set (M := safe_prefixes xxh64 config files order2 D) in *.
  split; [apply emit_loop_nodup; constructor|].
  assert (Hnd1 : NoDup order1)
    by (eapply Permutation_NoDup;
        [apply Permutation_sym, Hperm1|apply seq_NoDup]).
  assert (Hvalid1 : forall i, In i order1 -> i < List.length files).
  { intros i Hi. apply (Permutation_in _ Hperm1), in_seq in Hi. lia. }
  destruct (safe_counts_spec order1 Hnd1 Hvalid1) as [HndC HC].
  fold C in HndC, HC.
  (* what an item of the second pass writes *)
  assert (Hemit : forall h p, In (h, p) M ->
            emit_safe C D (h, p)
            = Some (p, map (id_to_file_map files)
                         (containing xxh64 config files h))
            /\ 1 < total h
            /\ exists s, In s lines /\ lh s = h /\ lp s = p).
  { intros h p Hin.
    pose proof (proj1 (HM h p)
                  (dget_in String.eqb String.eqb_spec h p M HndM Hin))
      as (Hdup & s & Hs & Hhs & Hps).
    split; [|split; [exact Hdup|eauto]].
    unfold emit_safe.
    assert (HD : set_mem h D = (1 <? total h)%nat)
      by (apply safe_duplicate_hashes_spec, Hperm1).
    rewrite HD.
    replace (1 <? total h)%nat with true
      by (symmetry; apply Nat.ltb_lt; exact Hdup).
    pose proof (HC h) as Hh. unfold get_default.
    destruct (sget h C) as [counts|]; simpl in Hh.
    - destruct Hh as [Hcounter Hex].
      assert (Hge : global_entry xxh64 config files order1 h
                      (Some (p, counts))).
      { split; [exact Hcounter|]. split; [eauto|exact Hex]. }
      destruct (fast_entry_emits xxh64 config files order1 h p counts
                  Hperm1 Hge) as [Hemits _].
      unfold emit_inter, emit_intra in Hemits.
      destruct (Hemits Hdup) as [[E1 E2]|[E1 E2]].
      + destruct (1 <? List.length counts)%nat; [exact E1|discriminate].
      + destruct (1 <? List.length counts)%nat; [discriminate|exact E2].
    - destruct (total_count_pos xxh64 config files h) as [i [Hi Hpos]];
        [lia|].
      assert (Hin1 : In i order1)
        by (apply (Permutation_in _ (Permutation_sym Hperm1)), in_seq; lia).
      specialize (Hh i Hin1). lia. }
  intros p l.
  destruct (dget_fold_emit String.eqb String.eqb_spec (emit_safe C D) M []
              p l) as (H1 & H2 & _).
  fold (emit_loop (emit_safe C D) M []) in H1, H2.
  split.
  - intros Hget. destruct (H1 Hget) as [Habs|[[h p'] [Hin Heq]]];
      [discriminate|].
    destruct (Hemit h p' Hin) as (Hev & Hdup & s & Hs & Hhs & Hps).
    rewrite Heq in Hev. injection Hev as <- ->.
    exists s. subst h. auto.
  - intros [s (Hs & Hps & Hdup & Hl)].
    assert (HinM : In (lh s, p) M).
    { eapply (dget_some_in String.eqb String.eqb_spec).
      apply HM. split; [exact Hdup|eauto]. }
    apply H2.
    + intros [h' p'] v' Hin Heq.
      destruct (Hemit h' p' Hin) as (Hev & _ & t & Ht & Hht & Hpt).
      rewrite Heq in Hev. injection Hev as <- ->.
      assert (h' = lh s) as ->.
      { rewrite <- Hht. apply (hash_prefix t s Ht Hs). congruence. }
      symmetry. exact Hl.
    + exists (lh s, p). split; [exact HinM|].
      rewrite (proj1 (Hemit _ _ HinM)). now rewrite Hl.
Qed.

End SafeEngine.

(** ** The lines of a run file *)

Lemma split_max_zero (d : ascii) (s : string) : PyStr.split_max d 0 s = [s].
Proof.
  induction s as [|c s IH]; simpl; [reflexivity|].
  destruct (Ascii.eqb c d); [reflexivity|]. now rewrite IH.
Qed.

(** A segment without the delimiter, followed by a delimiter, is cut off as
    it is. *)
Lemma split_max_segment (d : ascii) (n : nat) (x rest : string) :
  PyStr.mem_char d x = false ->
  PyStr.split_max d (S n) (x ++ String d rest)
  = x :: PyStr.split_max d n rest.
Proof.
  induction x as [|c x IH]; simpl; intros Hx.
  - now rewrite Ascii.eqb_refl.
  - apply orb_false_iff in Hx. destruct Hx as [Hc Hx].
    rewrite Hc. now rewrite (IH Hx).
Qed.

Lemma lstrip_head (c : ascii) (s : string) :
  PyStr.is_space c = false -> PyStr.lstrip (String c s) = String c s.
Proof. intros H. simpl. now rewrite H. Qed.

Lemma rstrip_app (a b : string) :
  PyStr.rstrip (a ++ b)
  = match PyStr.rstrip b with
    | EmptyString => PyStr.rstrip a
    | r => (a ++ r)%string
    end.
Proof.
  induction a as [|c a IH]; simpl.
  - destruct (PyStr.rstrip b); reflexivity.
  - rewrite IH. destruct (PyStr.rstrip b); [reflexivity|].
    destruct a; reflexivity.
Qed.

Lemma rstrip_newline (p : string) :
  PyStr.rstrip (p ++ NL) = PyStr.rstrip p.
Proof. rewrite rstrip_app. reflexivity. Qed.

(** Hexadecimal digits are neither tabs nor blanks. *)
Definition plain (c : ascii) : Prop :=
  Ascii.eqb c TAB = false /\ PyStr.is_space c = false.

Fixpoint all_plain (s : string) : Prop :=
  match s with
  | EmptyString => True
  | String c s' => plain c /\ all_plain s'
  end.

Lemma hex_digit_plain (n : N) : plain (hex_digit n).
Proof.
  unfold hex_digit.
  repeat match goal with
         | |- context [match ?x with _ => _ end] => destruct x
         end; split; reflexivity.
Qed.

Lemma hex_digits_plain (w : nat) (n : N) (acc : string) :
  all_plain acc -> all_plain (hex_digits w n acc).
Proof.
  revert n acc. induction w as [|w IH]; intros n acc Hacc; simpl.
  - exact Hacc.
  - apply IH. split; [apply hex_digit_plain|exact Hacc].
Qed.

Lemma hex_digits_length (w : nat) (n : N) (acc : string) :
  String.length (hex_digits w n acc) = w + String.length acc.
Proof.
  revert n acc. induction w as [|w IH]; intros n acc; simpl.
  - reflexivity.
  - rewrite IH. simpl. lia.
Qed.

Lemma hexdigest_plain (n : N) : all_plain (hexdigest n).
Proof. apply hex_digits_plain. exact I. Qed.

Lemma hexdigest_length (n : N) : String.length (hexdigest n) = 16.
Proof. unfold hexdigest. now rewrite hex_digits_length. Qed.

Lemma all_plain_no_tab (s : string) :
  all_plain s -> PyStr.mem_char TAB s = false.
Proof.
  induction s as [|c s IH]; simpl; [reflexivity|].
  intros [[Hc _] Hs]. rewrite Hc. now apply IH.
Qed.

(** Decimal numerals *)

Lemma digits_plain (d : Decimal.uint) :
  all_plain (NilEmpty.string_of_uint d).
Proof.
  induction d; simpl; repeat split; try assumption; reflexivity.
Qed.

Lemma str_of_nat_plain (n : nat) : all_plain (PyStr.str_of_nat n).
Proof.
  unfold PyStr.str_of_nat, NilZero.string_of_uint.
  destruct (Nat.to_uint n) eqn:E; try (rewrite <- E; apply digits_plain).
  simpl. repeat split; reflexivity.
Qed.

Lemma int_of_str_of_nat (n : nat) :
  PyStr.int_of_str (PyStr.str_of_nat n) = Some n.
Proof.
  unfold PyStr.int_of_str, PyStr.str_of_nat.
  assert (Hnn : Nat.to_uint n <> Decimal.Nil).
  { intro E. pose proof (Unsigned.of_to n) as H. rewrite E in H.
    simpl in H. subst n. discriminate E. }
  rewrite NilZero.usu by exact Hnn. simpl. f_equal. apply Unsigned.of_to.
Qed.

(** Stripping a line that starts with a visible character and ends,
    before its newline, with a text that ends with one. *)
Lemma strip_wrapped (c : ascii) (a b : string) :
  PyStr.is_space c = false -> PyStr.rstrip b = b -> PyStr.truthy b = true ->
  PyStr.strip (String c a ++ b ++ NL) = (String c a ++ b)%string.
Proof.
  intros Hc Hb Hne. unfold PyStr.strip.
  change (String c a ++ b ++ NL)%string with (String c (a ++ b ++ NL))%string.
  rewrite lstrip_head by exact Hc.
  change (String c (a ++ b ++ NL))%string with (String c a ++ (b ++ NL))%string.
  rewrite rstrip_app, rstrip_newline, Hb.
  destruct b; [discriminate|reflexivity].
Qed.

(** A line as phase 1 writes it, with a prefix that does not end in a
    blank, is read back as it was written. *)
Section RunLine.

Variables (n : N) (fid : nat) (pref : string).
Hypothesis pref_stripped : PyStr.rstrip pref = pref.
Hypothesis pref_nonempty : PyStr.truthy pref = true.

Let item := disk_line (hexdigest n, fid, pref).

Lemma hexdigest_cons : exists c rest,
    hexdigest n = String c rest /\ plain c.
Proof.
  pose proof (hexdigest_length n) as Hlen.
  pose proof (hexdigest_plain n) as Hplain.
  destruct (hexdigest n) as [|c rest]; [discriminate|].
  exists c, rest. split; [reflexivity|apply Hplain].
Qed.

Lemma disk_line_shape :
  item
  = (hexdigest n
     ++ String TAB (PyStr.str_of_nat fid ++ String TAB (pref ++ NL)))%string.
Proof. reflexivity. Qed.

Lemma run_key_line : run_key item = hexdigest n.
Proof.
  unfold run_key. rewrite disk_line_shape.
  rewrite split_max_segment
    by (apply all_plain_no_tab, hexdigest_plain).
  reflexivity.
Qed.

Lemma strip_line :
  PyStr.strip item
  = (hexdigest n ++ String TAB (PyStr.str_of_nat fid ++ String TAB pref))
    %string.
Proof.
  rewrite disk_line_shape.
  destruct hexdigest_cons as [c [rest [Hh [_ Hc]]]].
  rewrite Hh.
  replace (String c rest
           ++ String TAB (PyStr.str_of_nat fid ++ String TAB (pref ++ NL)))
          %string
    with (String c (rest ++ String TAB (PyStr.str_of_nat fid ++ String TAB ""))
          ++ pref ++ NL)%string.
  - rewrite strip_wrapped by assumption.
    simpl. f_equal. rewrite !sapp_assoc. simpl. f_equal. f_equal.
    rewrite sapp_assoc. reflexivity.
  - simpl. f_equal. rewrite !sapp_assoc. simpl. f_equal. f_equal.
    rewrite sapp_assoc. reflexivity.
Qed.

(** The three fields of the line. *)
Lemma split_line :
  PyStr.split_max TAB 2 (PyStr.strip item)
  = [hexdigest n; PyStr.str_of_nat fid; pref].
Proof.
  rewrite strip_line.
  rewrite split_max_segment
    by (apply all_plain_no_tab, hexdigest_plain).
  rewrite split_max_segment
    by (apply all_plain_no_tab, str_of_nat_plain).
  now rewrite split_max_zero.
Qed.

(** One step of the loop over the items of a group. *)
Lemma group_step_line (file_ids : list nat) (prefix : string) :
  group_step (file_ids, prefix) item
  = (nat_set_add fid file_ids,
     if PyStr.truthy prefix then prefix else pref).
Proof.
  unfold group_step. rewrite split_line, int_of_str_of_nat. reflexivity.
Qed.

End RunLine.

(** ** Merging sorted runs *)

Lemma compare_app_same_length (a b x y : string) :
  String.length a = String.length b ->
  String.compare (a ++ x) (b ++ y)
  = match String.compare a b with
    | Eq => String.compare x y
    | c => c
    end.
Proof.
  revert b. induction a as [|c a IH]; intros [|c' b]; simpl;
    try discriminate; [reflexivity|].
  intros [= Hlen]. destruct (Ascii.compare c c'); try reflexivity.
  now apply IH.
Qed.

(** The key of a line orders the lines of the run files. *)
Definition key_le (a b : string) : Prop :=
  String.leb (run_key a) (run_key b) = true.

(** A line of a run file: a record as phase 1 writes it. *)
Definition run_line (a : string) : Prop :=
  exists n fid pref, a = disk_line (hexdigest n, fid, pref).

Lemma run_line_leb (a b : string) :
  run_line a -> run_line b -> String.leb a b = true -> key_le a b.
Proof.
  intros (n1 & f1 & p1 & ->) (n2 & f2 & p2 & ->) Hle.
  unfold key_le. rewrite !run_key_line.
  rewrite !disk_line_shape in Hle. unfold String.leb in *.
  rewrite compare_app_same_length in Hle
    by (now rewrite !hexdigest_length).
  destruct (String.compare (hexdigest n1) (hexdigest n2));
    [reflexivity|reflexivity|discriminate].
Qed.

Lemma key_le_trans (a b c : string) : key_le a b -> key_le b c -> key_le a c.
Proof. unfold key_le. apply string_leb_trans. Qed.

Lemma merge2_nil_r (l : list string) : merge2 l [] = l.
Proof. destruct l; reflexivity. Qed.

Lemma merge2_cons (x y : string) (l1 l2 : list string) :
  merge2 (x :: l1) (y :: l2)
  = if String.leb x y then x :: merge2 l1 (y :: l2)
    else y :: merge2 (x :: l1) l2.
Proof. reflexivity. Qed.

Lemma merge2_perm (l1 l2 : list string) :
  Permutation (merge2 l1 l2) (l1 ++ l2).
Proof.
  revert l2. induction l1 as [|x l1 IH1]; intros l2.
  - destruct l2; apply Permutation_refl.
  - induction l2 as [|y l2 IH2].
    + rewrite merge2_nil_r, app_nil_r. apply Permutation_refl.
    + rewrite merge2_cons. destruct (String.leb x y).
      * simpl. apply perm_skip, IH1.
      * eapply perm_trans; [apply perm_skip, IH2|].
        apply (Permutation_middle (x :: l1) l2 y).
Qed.

Lemma merge2_sorted (l1 l2 : list string) :
  Forall run_line l1 -> Forall run_line l2 ->
  StronglySorted key_le l1 -> StronglySorted key_le l2 ->
  StronglySorted key_le (merge2 l1 l2).
Proof.
  revert l2. induction l1 as [|x l1 IH1]; intros l2 HQ1 HQ2 Hs1 Hs2.
  - destruct l2; assumption.
  - induction l2 as [|y l2 IH2].
    + rewrite merge2_nil_r. exact Hs1.
    + rewrite merge2_cons.
      inversion HQ1 as [|? ? Hx HQ1']; subst.
      inversion HQ2 as [|? ? Hy HQ2']; subst.
      inversion Hs1 as [|? ? Hs1' Hx1]; subst.
      inversion Hs2 as [|? ? Hs2' Hy2]; subst.
      destruct (String.leb x y) eqn:Hxy.
      * constructor; [apply IH1; assumption|].
        assert (Hk : key_le x y) by now apply run_line_leb.
        apply Forall_forall. intros z Hz.
        apply (Permutation_in _ (merge2_perm l1 (y :: l2))) in Hz.
        apply in_app_or in Hz. rewrite Forall_forall in Hx1, Hy2.
        destruct Hz as [Hz|[<-|Hz]]; [now apply Hx1|exact Hk|].
        eapply key_le_trans; [exact Hk|now apply Hy2].
      * constructor; [apply IH2; assumption|].
        assert (Hk : key_le y x).
        { apply run_line_leb; try assumption.
          destruct (String.leb_total x y); congruence. }
        apply Forall_forall. intros z Hz.
        apply (Permutation_in _ (merge2_perm (x :: l1) l2)) in Hz.
        apply in_app_or in Hz. rewrite Forall_forall in Hx1, Hy2.
        destruct Hz as [[<-|Hz]|Hz]; [exact Hk| |now apply Hy2].
        eapply key_le_trans; [exact Hk|now apply Hx1].
Qed.

(** A run: lines of records, in the order of their keys. *)
Definition sorted_run (r : list string) : Prop :=
  Forall run_line r /\ StronglySorted key_le r.

Lemma merge_files_spec (rs : list (list string)) :
  Forall sorted_run rs ->
  sorted_run (merge_files rs) /\ Permutation (merge_files rs) (List.concat rs).
Proof.
  unfold merge_files. induction 1 as [|r rs [HQ Hs] _ [[HQ' Hs'] HP]]; simpl.
  - split; [split; constructor|apply perm_nil].
  - assert (HP2 : Permutation (merge2 r (fold_right merge2 [] rs))
                    (r ++ List.concat rs)).
    { eapply perm_trans; [apply merge2_perm|].
      apply Permutation_app_head, HP. }
    split; [split|exact HP2].
    + apply Forall_forall. intros z Hz.
      apply (Permutation_in _ (merge2_perm _ _)) in Hz.
      apply in_app_or in Hz. rewrite Forall_forall in HQ, HQ'.
      destruct Hz; auto.
    + now apply merge2_sorted.
Qed.

(** *** Batches *)

Lemma batches_concat {A : Type} (fuel n : nat) (l : list A) :
  0 < n -> List.length l <= fuel -> List.concat (batches fuel n l) = l.
Proof.
  intros Hn. revert l. induction fuel as [|fuel IH]; intros l Hl.
  - destruct l; [reflexivity|simpl in Hl; lia].
  - destruct l as [|x l]; [reflexivity|].
    cbn [batches List.concat]. rewrite IH.
    + apply firstn_skipn.
    + rewrite length_skipn. cbn [List.length] in *. lia.
Qed.

Lemma batches_length_le {A : Type} (fuel n : nat) (l : list A) :
  0 < n -> List.length l <= fuel ->
  List.length (batches fuel n l) <= List.length l.
Proof.
  intros Hn. revert l. induction fuel as [|fuel IH]; intros l Hl.
  - simpl. lia.
  - destruct l as [|x l]; [simpl; lia|].
    cbn [batches List.length].
    assert (Hs : List.length (skipn n (x :: l)) <= List.length l)
      by (rewrite length_skipn; cbn [List.length]; lia).
    specialize (IH (skipn n (x :: l))). cbn [List.length] in Hl. lia.
Qed.

Lemma batches_length_lt {A : Type} (fuel n : nat) (l : list A) :
  2 <= n -> 2 <= List.length l -> List.length l <= fuel ->
  List.length (batches fuel n l) < List.length l.
Proof.
  intros Hn Hl Hf. destruct fuel as [|fuel]; [lia|].
  destruct l as [|x l]; [simpl in Hl; lia|].
  cbn [batches List.length].
  assert (Hs : List.length (skipn n (x :: l)) <= List.length l - 1)
    by (rewrite length_skipn; cbn [List.length]; lia).
  pose proof (batches_length_le fuel n (skipn n (x :: l))) as Hb.
  cbn [List.length] in Hl, Hf. lia.
Qed.

Lemma batches_forall {A : Type} (P : A -> Prop) (fuel n : nat) (l : list A) :
  Forall P l -> Forall (Forall P) (batches fuel n l).
Proof.
  revert l. induction fuel as [|fuel IH]; intros l Hl; [constructor|].
  destruct l as [|x l]; [constructor|].
  cbn [batches]. constructor.
  - rewrite <- (firstn_skipn n (x :: l)) in Hl.
    apply Forall_app in Hl. tauto.
  - apply IH. rewrite <- (firstn_skipn n (x :: l)) in Hl.
    apply Forall_app in Hl. tauto.
Qed.

Lemma concat_perm_map (f : list (list string) -> list string)
  (bs : list (list (list string))) :
  Forall (fun b => Permutation (f b) (List.concat b)) bs ->
  Permutation (List.concat (map f bs)) (List.concat (List.concat bs)).
Proof.
  induction 1 as [|b bs Hb _ IH]; simpl; [apply perm_nil|].
  rewrite concat_app. now apply Permutation_app.
Qed.

(** *** The cascade *)

(** With batches of two files or more the cascade ends, with one run at
    most, sorted, that holds the lines of all the runs. *)
Lemma cascade_spec (fuel : nat) (batch_size : Z) (runs : list (list string)) :
  (2 <= batch_size)%Z -> List.length runs <= fuel ->
  Forall sorted_run runs ->
  exists final,
    cascade fuel batch_size runs = Done final
    /\ List.length final <= 1
    /\ Forall sorted_run final
    /\ Permutation (List.concat final) (List.concat runs).
Proof.
  intros Hb. revert runs.
  induction fuel as [|fuel IH]; intros runs Hfuel Hruns.
  - destruct runs; [|simpl in Hfuel; lia].
    exists []. simpl. repeat split; auto.
  - destruct runs as [|r1 [|r2 runs]].
    + exists []. simpl. repeat split; auto.
    + exists [r1]. simpl. repeat split; auto.
    + set (rs := r1 :: r2 :: runs) in *.
      assert (Hlevel :
                merge_level batch_size rs
                = Done (map merge_files
                          (batches (List.length rs) (Z.to_nat batch_size)
                             rs))).
      { unfold merge_level.
        replace (batch_size =? 0)%Z with false
          by (symmetry; apply Z.eqb_neq; lia).
        replace (batch_size <? 0)%Z with false
          by (symmetry; apply Z.ltb_ge; lia).
        reflexivity. }
      set (bs := batches (List.length rs) (Z.to_nat batch_size) rs) in *.
      assert (Hlen : List.length (map merge_files bs) <= fuel).
      { rewrite length_map. unfold bs.
        pose proof (batches_length_lt (List.length rs) (Z.to_nat batch_size)
                      rs) as Hlt.
        assert (2 <= List.length rs) by (unfold rs; simpl; lia).
        lia. }
      assert (Hbs : Forall (Forall sorted_run) bs)
        by (apply batches_forall, Hruns).
      assert (Hgood : Forall sorted_run (map merge_files bs)).
      { apply Forall_forall. intros r Hr. apply in_map_iff in Hr.
        destruct Hr as [b [<- Hin]]. rewrite Forall_forall in Hbs.
        apply merge_files_spec, Hbs, Hin. }
      destruct (IH (map merge_files bs) Hlen Hgood)
        as (final & Hc & Hl & Hf & Hp).
      exists final. split; [|split; [exact Hl|split; [exact Hf|]]].
      * change (cascade (S fuel) batch_size rs)
          with (match merge_level batch_size rs with
                | Done runs' => cascade fuel batch_size runs'
                | Raised => Raised
                | OutOfFuel => OutOfFuel
                end).
        rewrite Hlevel. exact Hc.
      * eapply perm_trans; [exact Hp|].
        eapply perm_trans.
        -- apply concat_perm_map. apply Forall_forall. intros b Hin.
           rewrite Forall_forall in Hbs. apply merge_files_spec, Hbs, Hin.
        -- unfold bs. rewrite batches_concat by lia. apply Permutation_refl.
Qed.

(** ** Grouping a sorted run *)

Definition has_key (k : string) (x : string) : bool :=
  String.eqb (run_key x) k.

Lemma groupby_cons (x : string) (l : list string) :
  groupby run_key (x :: l)
  = match groupby run_key l with
    | (k, g) :: rest =>
        if String.eqb (run_key x) k then (k, x :: g) :: rest
        else (run_key x, [x]) :: (k, g) :: rest
    | [] => [(run_key x, [x])]
    end.
Proof. reflexivity. Qed.

(** In a run sorted on the key, the groups have distinct keys, and the
    group of a key holds all the lines of that key. *)
Lemma groupby_sorted (l : list string) :
  StronglySorted key_le l ->
  let gs := groupby run_key l in
  NoDup (map fst gs)
  /\ (forall k g, In (k, g) gs -> g = filter (has_key k) l /\ g <> [])
  /\ (forall x, In x l -> In (run_key x) (map fst gs))
  /\ match gs, l with
     | (k, _) :: _, x :: _ => run_key x = k
     | [], [] => True
     | _, _ => False
     end.
Proof.
  induction 1 as [|x l Hs IH Hx]; [simpl; repeat split; try tauto; constructor|].
  cbn zeta in *. rewrite groupby_cons.
  destruct IH as (Hnd & Hgrp & Hmem & Hhead).
  assert (Hwit : forall k, In k (map fst (groupby run_key l)) ->
            exists y, In y l /\ run_key y = k).
  { intros k Hk. apply in_map_iff in Hk. destruct Hk as [[k' g] [<- Hin]].
    destruct (Hgrp _ _ Hin) as [Hg Hne]. simpl.
    destruct g as [|y g]; [congruence|]. exists y.
    assert (Hy : In y (filter (has_key k') l)) by (rewrite <- Hg; now left).
    apply filter_In in Hy. destruct Hy as [Hy Hk]. split; [exact Hy|].
    now apply String.eqb_eq in Hk. }
  assert (Hfresh : forall k, run_key x <> k ->
            filter (has_key k) (x :: l) = filter (has_key k) l).
  { intros k Hne. simpl. unfold has_key at 1.
    destruct (String.eqb_spec (run_key x) k); [congruence|reflexivity]. }
  assert (Hsame : filter (has_key (run_key x)) (x :: l)
                  = x :: filter (has_key (run_key x)) l).
  { cbn [filter]. unfold has_key at 1. now rewrite String.eqb_refl. }
  destruct (groupby run_key l) as [|[k g] rest] eqn:Hgs.
  - destruct l as [|y l]; [|destruct Hhead]. split; [|split; [|split]].
    + repeat constructor. simpl. tauto.
    + intros k g [[= <- <-]|[]]. simpl. unfold has_key.
      rewrite String.eqb_refl. split; [reflexivity|discriminate].
    + intros y [<-|[]]. now left.
    + reflexivity.
  - destruct l as [|y0 l0]; [destruct Hhead|].
    destruct (String.eqb_spec (run_key x) k) as [Heq|Hne].
    + split; [|split; [|split]].
      * exact Hnd.
      * intros k' g' [[= <- <-]|Hin].
        -- destruct (Hgrp k g (or_introl eq_refl)) as [Hg _].
           split; [|discriminate]. rewrite <- Heq, Hsame, Heq.
           now rewrite <- Hg.
        -- destruct (Hgrp k' g' (or_intror Hin)) as [Hg Hne].
           split; [|exact Hne]. rewrite Hfresh; [exact Hg|].
           rewrite Heq. intros Hkk. simpl in Hnd.
           apply NoDup_cons_iff in Hnd. destruct Hnd as [Hnotin _].
           apply Hnotin. rewrite Hkk.
           change k' with (fst (k', g')). now apply in_map.
      * intros z [<-|Hz]; [left; now rewrite Heq|now apply Hmem].
      * exact Heq.
    + assert (Hnone : forall y, In y (y0 :: l0) -> run_key y <> run_key x).
      { intros y Hy Heq. apply Hne.
        rewrite Forall_forall in Hx. pose proof (Hx y0 (or_introl eq_refl))
          as Hx0. unfold key_le in Hx0. rewrite Hhead in Hx0.
        assert (Hky : String.leb k (run_key y) = true).
        { destruct Hy as [<-|Hy].
          - rewrite Hhead. apply string_leb_refl.
          - pose proof (StronglySorted_inv Hs) as [_ Hy0].
            rewrite Forall_forall in Hy0. specialize (Hy0 y Hy).
            unfold key_le in Hy0. now rewrite Hhead in Hy0. }
        rewrite Heq in Hky. now apply String.leb_antisym. }
      assert (Hnotin : ~ In (run_key x) (map fst ((k, g) :: rest))).
      { intros Hin. destruct (Hwit _ Hin) as [y [Hy Hk]].
        exact (Hnone y Hy Hk). }
      split; [|split; [|split]].
      * constructor; assumption.
      * intros k' g' [[= <- <-]|Hin].
        -- split; [|discriminate]. rewrite Hsame. f_equal.
           destruct (filter (has_key (run_key x)) (y0 :: l0)) as [|y f] eqn:Hf;
             [reflexivity|].
           assert (Hy : In y (filter (has_key (run_key x)) (y0 :: l0)))
             by (rewrite Hf; now left).
           apply filter_In in Hy. destruct Hy as [Hy Hk].
           apply String.eqb_eq in Hk. exfalso. exact (Hnone y Hy Hk).
        -- destruct (Hgrp k' g' Hin) as [Hg Hne'].
           split; [|exact Hne']. rewrite Hfresh; [exact Hg|].
           intros <-. apply Hnotin.
           change (run_key x) with (fst (run_key x, g')). now apply in_map.
      * intros z [<-|Hz]; [now left|right; now apply Hmem].
      * reflexivity.
Qed.

(** ** The DISK engine *)

Lemma line_hash_digest (xxh64 : string -> N) (config : Config) (s : string) :
  line_hash xxh64 config s
  = hexdigest
      (xxh64 (normalize_line s (hash_delimiter config) (hash_fields config))).
Proof. reflexivity. Qed.

Lemma disk_record_eq (xxh64 : string -> N) (config : Config) (fid : nat)
  (line : string) :
  disk_record xxh64 config fid line
  = if PyStr.truthy (PyStr.strip line) then
      if PyStr.truthy
           (normalize_line (PyStr.strip line) (hash_delimiter config)
              (hash_fields config))
      then Some (line_hash xxh64 config (PyStr.strip line), fid,
                 PyStr.replace TAB " "%char
                   (line_prefix config (PyStr.strip line)))
      else None
    else None.
Proof.
  unfold disk_record. cbv zeta.
  destruct (PyStr.truthy (PyStr.strip line)); [|reflexivity].
  destruct (PyStr.truthy (normalize_line _ _ _)); reflexivity.
Qed.

(** [readlines] cuts the lines of a file into chunks and loses none. *)
Lemma readlines_chunks_concat (hint : N) (acc : list string) (n : N)
  (lines : list string) :
  List.concat (readlines_chunks hint acc n lines) = (rev acc ++ lines)%list.
Proof.
  revert acc n. induction lines as [|line rest IH]; intros acc n.
  - cbn [readlines_chunks]. destruct acc as [|a acc]; [reflexivity|].
    cbn [List.concat]. reflexivity.
  - cbn [readlines_chunks]. cbv zeta.
    destruct (hint <? n + N.of_nat (String.length line))%N.
    + cbn [List.concat]. rewrite IH. cbn [rev app].
      now rewrite <- app_assoc.
    + rewrite IH. cbn [rev]. now rewrite <- app_assoc.
Qed.

Lemma strongly_sorted_map {A B : Type} (R : A -> A -> Prop)
  (R' : B -> B -> Prop) (f : A -> B) (l : list A) :
  (forall a b, In a l -> In b l -> R a b -> R' (f a) (f b)) ->
  StronglySorted R l -> StronglySorted R' (map f l).
Proof.
  intros H Hs. induction Hs as [|x l Hs IH Hx]; simpl; constructor.
  - apply IH. intros a b Ha Hb. apply H; now right.
  - apply Forall_forall. intros y Hy. apply in_map_iff in Hy.
    destruct Hy as [z [<- Hz]]. rewrite Forall_forall in Hx.
    apply H; [now left|now right|now apply Hx].
Qed.

Lemma filter_perm {A : Type} (p : A -> bool) (l l' : list A) :
  Permutation l l' -> Permutation (filter p l) (filter p l').
Proof.
  induction 1 as [|x l l' _ IH|x y l|l l' l'' _ IH1 _ IH2]; simpl.
  - constructor.
  - destruct (p x); [now constructor|exact IH].
  - destruct (p x), (p y); try apply Permutation_refl. apply perm_swap.
  - eapply perm_trans; eassumption.
Qed.

Lemma nat_set_add_in (x : nat) (s : list nat) (j : nat) :
  In j (nat_set_add x s) <-> j = x \/ In j s.
Proof.
  unfold nat_set_add. destruct (existsb (Nat.eqb x) s) eqn:E.
  - split; [now right|]. intros [->|H]; [|exact H].
    apply existsb_exists in E. destruct E as [y [Hy Heq]].
    apply Nat.eqb_eq in Heq. now subst y.
  - rewrite in_app_iff. simpl. split; [intros [H|[H|[]]]|intros [H|H]]; auto.
Qed.

Lemma nat_set_add_nodup (x : nat) (s : list nat) :
  NoDup s -> NoDup (nat_set_add x s).
Proof.
  intros Hnd. unfold nat_set_add. destruct (existsb (Nat.eqb x) s) eqn:E.
  - exact Hnd.
  - apply NoDup_app; [exact Hnd|repeat constructor; simpl; tauto|].
    intros y Hy [Heq|[]]. subst y.
    assert (existsb (Nat.eqb x) s = true); [|congruence].
    apply existsb_exists. exists x. split; [exact Hy|apply Nat.eqb_refl].
Qed.

Section DiskEngine.

Variable xxh64 : string -> N.
Variable config : Config.
Variable files : list File.

Local Abbreviation lh := (line_hash xxh64 config).
Local Abbreviation lp := (line_prefix config).
Local Abbreviation fcount := (file_count xxh64 config files).
Local Abbreviation total := (total_count xxh64 config files).
Local Abbreviation lines := (all_lines files).
Local Abbreviation key_of s :=
  (normalize_line s (hash_delimiter config) (hash_fields config)).

Local Opaque line_hash line_prefix.

Hypothesis hash_prefix :
  forall s t, In s lines -> In t lines -> (lh s = lh t <-> lp s = lp t).

(** The prefix of a line has no tab, does not end in a blank and is not
    empty; the key of a line is not empty. *)
Hypothesis prefix_kept :
  forall s, In s lines -> PyStr.replace TAB " "%char (lp s) = lp s.
Hypothesis prefix_stripped :
  forall s, In s lines -> PyStr.rstrip (lp s) = lp s.
Hypothesis prefix_nonempty :
  forall s, In s lines -> PyStr.truthy (lp s) = true.
Hypothesis key_nonempty :
  forall s, In s lines -> PyStr.truthy (key_of s) = true.

(** The record phase 1 writes for a line. *)
Definition record_of (fid : nat) (s : string) : string * nat * string :=
  (lh s, fid, lp s).

Definition file_records (fid : nat) : list (string * nat * string) :=
  match nth_error files fid with
  | Some f => map (record_of fid) (data_lines f)
  | None => []
  end.

Definition all_records (order : list nat) : list (string * nat * string) :=
  flat_map file_records order.

Definition hash_is (h : string) (r : string * nat * string) : bool :=
  String.eqb (fst (fst r)) h.

Lemma in_all_records (order : list nat) (r : string * nat * string) :
  In r (all_records order)
  <-> exists i f s,
        In i order /\ nth_error files i = Some f /\ In s (data_lines f)
        /\ r = record_of i s.
Proof.
  unfold all_records. rewrite in_flat_map. split.
  - intros [i [Hi Hr]]. unfold file_records in Hr.
    destruct (nth_error files i) as [f|] eqn:Hf; [|destruct Hr].
    apply in_map_iff in Hr. destruct Hr as [s [<- Hs]].
    exists i, f, s. auto.
  - intros (i & f & s & Hi & Hf & Hs & ->). exists i. split; [exact Hi|].
    unfold file_records. rewrite Hf. now apply in_map.
Qed.

Lemma record_line (fid : nat) (s : string) :
  disk_line (record_of fid s)
  = disk_line (hexdigest (xxh64 (key_of s)), fid, lp s).
Proof. unfold record_of. now rewrite line_hash_digest. Qed.

Lemma record_run_line (fid : nat) (s : string) :
  run_line (disk_line (record_of fid s)).
Proof. rewrite record_line. now exists (xxh64 (key_of s)), fid, (lp s). Qed.

Lemma record_run_key (fid : nat) (s : string) :
  run_key (disk_line (record_of fid s)) = lh s.
Proof.
  rewrite record_line, run_key_line. symmetry. apply line_hash_digest.
Qed.

Lemma record_group_step (fid : nat) (s : string) (ids : list nat)
  (p : string) :
  In s lines ->
  group_step (ids, p) (disk_line (record_of fid s))
  = (nat_set_add fid ids, if PyStr.truthy p then p else lp s).
Proof.
  intros Hs. rewrite record_line. apply group_step_line; auto.
Qed.

Lemma record_line_inj (i j : nat) (s t : string) :
  In s lines -> In t lines ->
  disk_line (record_of i s) = disk_line (record_of j t) ->
  lh s = lh t /\ i = j.
Proof.
  intros Hs Ht Heq. split.
  - rewrite <- (record_run_key i s), <- (record_run_key j t). now rewrite Heq.
  - rewrite !record_line in Heq.
    pose proof (split_line (xxh64 (key_of s)) i (lp s)
                  (prefix_stripped s Hs) (prefix_nonempty s Hs)) as H1.
    rewrite Heq in H1.
    rewrite (split_line (xxh64 (key_of t)) j (lp t)
               (prefix_stripped t Ht) (prefix_nonempty t Ht)) in H1.
    apply (f_equal (fun l => PyStr.int_of_str (nth 1 l EmptyString))) in H1.
    cbn [nth] in H1. rename H1 into Hn.
    rewrite !int_of_str_of_nat in Hn. congruence.
Qed.

(** *** Phase 1 *)

Lemma disk_records_lines (fid : nat) (ls : list string) :
  (forall line, In line ls -> PyStr.truthy (PyStr.strip line) = true ->
                In (PyStr.strip line) lines) ->
  filter_some (map (disk_record xxh64 config fid) ls)
  = map (record_of fid) (filter PyStr.truthy (map PyStr.strip ls)).
Proof.
  induction ls as [|line ls IH]; intros H; [reflexivity|].
  cbn [map filter_some filter]. rewrite disk_record_eq.
  assert (IH' := IH (fun l Hl => H l (or_intror Hl))).
  destruct (PyStr.truthy (PyStr.strip line)) eqn:Ht.
  - pose proof (H line (or_introl eq_refl) Ht) as Hin.
    rewrite key_nonempty, prefix_kept by exact Hin.
    cbn [filter_some map]. now rewrite IH'.
  - cbn [filter_some]. exact IH'.
Qed.

Lemma disk_chunk_spec (fid : nat) (ls : list string) :
  (forall line, In line ls -> PyStr.truthy (PyStr.strip line) = true ->
                In (PyStr.strip line) lines) ->
  sorted_run (disk_chunk xxh64 config fid ls)
  /\ Permutation (disk_chunk xxh64 config fid ls)
       (map disk_line
          (map (record_of fid) (filter PyStr.truthy (map PyStr.strip ls)))).
Proof.
  intros H. unfold disk_chunk. cbv zeta.
  rewrite (disk_records_lines fid ls H).
  set (recs := map (record_of fid) _).
  set (le := fun x y : string * nat * string =>
               String.leb (fst (fst x)) (fst (fst y))).
  assert (Hrec : forall r, In r (py_sort le recs) ->
                           exists s, r = record_of fid s).
  { intros r Hr. apply py_sort_in in Hr. unfold recs in Hr.
    apply in_map_iff in Hr. destruct Hr as [s [<- _]]. eauto. }
  split; [split|].
  - apply Forall_forall. intros a Ha. apply in_map_iff in Ha.
    destruct Ha as [r [<- Hr]]. destruct (Hrec r Hr) as [s ->].
    apply record_run_line.
  - apply (strongly_sorted_map (fun a b => le a b = true)).
    + intros a b Ha Hb Hab.
      destruct (Hrec a Ha) as [s ->], (Hrec b Hb) as [t ->].
      unfold key_le. rewrite !record_run_key. exact Hab.
    + apply py_sort_sorted.
      * intros a b. apply String.leb_total.
      * intros a b c. apply string_leb_trans.
  - apply Permutation_map, py_sort_perm.
Qed.

Lemma disk_chunks_spec (fid : nat) (cs : list (list string)) :
  (forall c line, In c cs -> In line c ->
                  PyStr.truthy (PyStr.strip line) = true ->
                  In (PyStr.strip line) lines) ->
  Forall sorted_run (map (disk_chunk xxh64 config fid) cs)
  /\ Permutation (List.concat (map (disk_chunk xxh64 config fid) cs))
       (map disk_line
          (map (record_of fid)
             (filter PyStr.truthy (map PyStr.strip (List.concat cs))))).
Proof.
  induction cs as [|c cs IH]; intros H.
  - split; constructor.
  - destruct IH as [IH1 IH2]; [intros c' line Hc; apply H; now right|].
    destruct (disk_chunk_spec fid c) as [Hs Hp];
      [intros line; apply H; now left|].
    cbn [map List.concat]. split; [constructor; assumption|].
    rewrite map_app, filter_app, !map_app. apply Permutation_app; assumption.
Qed.

Lemma process_and_sort_chunk_disk_spec (i : nat) (f : File) :
  nth_error files i = Some f ->
  Forall sorted_run (process_and_sort_chunk_disk xxh64 config f i)
  /\ Permutation (List.concat (process_and_sort_chunk_disk xxh64 config f i))
       (map disk_line (file_records i)).
Proof.
  intros Hf. unfold process_and_sort_chunk_disk, file_records. rewrite Hf.
  set (cs := readlines_chunks _ [] 0%N (body f)).
  assert (Hcs : List.concat cs = body f)
    by (unfold cs; now rewrite readlines_chunks_concat).
  destruct (disk_chunks_spec i cs) as [H1 H2].
  - intros c line Hc Hline Ht. eapply data_lines_all; [exact Hf|].
    unfold data_lines. apply filter_In. split; [|exact Ht].
    apply in_map. rewrite <- Hcs. apply in_concat. eauto.
  - split; [exact H1|]. rewrite Hcs in H2. exact H2.
Qed.

Lemma disk_runs_spec (order : list nat) :
  Forall sorted_run (disk_runs xxh64 config files order)
  /\ Permutation (List.concat (disk_runs xxh64 config files order))
       (map disk_line (all_records order)).
Proof.
  unfold disk_runs, all_records.
  induction order as [|i order [IH1 IH2]]; [split; constructor|].
  cbn [flat_map]. rewrite concat_app, map_app.
  destruct (nth_error files i) as [f|] eqn:Hf.
  - destruct (process_and_sort_chunk_disk_spec i f Hf) as [H1 H2].
    split; [apply Forall_app; split; assumption
           |apply Permutation_app; assumption].
  - unfold file_records at 1. rewrite Hf. split; assumption.
Qed.

(** *** Counting the records of a hash *)

Lemma count_file_records (h : string) (i : nat) :
  List.length (filter (hash_is h) (file_records i)) = fcount h i.
Proof.
  unfold file_records, file_count.
  destruct (nth_error files i) as [f|]; [|reflexivity].
  unfold occurrences. induction (data_lines f) as [|s l IH]; [reflexivity|].
  cbn [map filter]. unfold hash_is at 1, record_of at 1. cbn [fst].
  destruct (String.eqb (lh s) h); cbn [List.length]; now rewrite IH.
Qed.

Lemma count_all_records (h : string) (order : list nat) :
  List.length (filter (hash_is h) (all_records order))
  = list_sum (map (fcount h) order).
Proof.
  unfold all_records. induction order as [|i order IH]; [reflexivity|].
  cbn [flat_map map list_sum fold_right].
  rewrite filter_app, length_app, count_file_records, IH. reflexivity.
Qed.

Lemma filter_record_lines (k : string) (rs : list (string * nat * string)) :
  (forall r, In r rs -> exists i s, r = record_of i s) ->
  filter (has_key k) (map disk_line rs) = map disk_line (filter (hash_is k) rs).
Proof.
  induction rs as [|r rs IH]; intros H; [reflexivity|].
  cbn [map filter]. destruct (H r (or_introl eq_refl)) as [i [s ->]].
  unfold has_key at 1, hash_is at 1. rewrite record_run_key.
  unfold record_of at 2. cbn [fst].
  rewrite IH by (intros r Hr; apply H; now right).
  destruct (String.eqb (lh s) k); reflexivity.
Qed.

(** *** The loop over the items of a group *)

Lemma fold_group_step (g : list string) (ids0 : list nat) (p0 : string) :
  (forall a, In a g ->
             exists i s, In s lines /\ a = disk_line (record_of i s)) ->
  (NoDup ids0 -> NoDup (fst (fold_left group_step g (ids0, p0))))
  /\ (forall j,
        In j (fst (fold_left group_step g (ids0, p0)))
        <-> In j ids0
            \/ exists s, In s lines /\ In (disk_line (record_of j s)) g)
  /\ (PyStr.truthy p0 = true ->
      snd (fold_left group_step g (ids0, p0)) = p0)
  /\ (PyStr.truthy p0 = false -> g <> [] ->
      exists i s,
        In s lines /\ In (disk_line (record_of i s)) g
        /\ snd (fold_left group_step g (ids0, p0)) = lp s).
Proof.
  revert ids0 p0. induction g as [|a g IH]; intros ids0 p0 H.
  - simpl. split; [auto|]. split; [|split; [auto|congruence]].
    intros j. split; [auto|]. intros [Hj|[s [_ []]]]. exact Hj.
  - destruct (H a (or_introl eq_refl)) as (i & s & Hs & ->).
    cbn [fold_left]. rewrite record_group_step by exact Hs.
    destruct (IH (nat_set_add i ids0)
                (if PyStr.truthy p0 then p0 else lp s))
      as (I1 & I2 & I3 & I4); [intros b Hb; apply H; now right|].
    split; [|split; [|split]].
    + intros Hnd. apply I1, nat_set_add_nodup, Hnd.
    + intros j. rewrite I2, nat_set_add_in. split.
      * intros [[->|Hj]|[t [Ht Hin]]].
        -- right. exists s. split; [exact Hs|now left].
        -- now left.
        -- right. exists t. split; [exact Ht|now right].
      * intros [Hj|[t [Ht [Heq|Hin]]]].
        -- left. now right.
        -- left. left.
           destruct (record_line_inj i j s t Hs Ht Heq) as [_ E]. now symmetry.
        -- right. eauto.
    + intros Hp0. rewrite Hp0 in I3 |- *. apply I3, Hp0.
    + intros Hp0 _. rewrite Hp0 in I3 |- *. exists i, s.
      split; [exact Hs|]. split; [now left|].
      apply I3, prefix_nonempty, Hs.
Qed.

(** What the loop over the groups writes for one group. *)
Definition emit_disk (grp : string * list string)
  : option (string * list string) :=
  if (1 <? List.length (snd grp))%nat then
    if PyStr.truthy
         (snd (fold_left group_step (snd grp) ([], EmptyString)))
    then Some (snd (fold_left group_step (snd grp) ([], EmptyString)),
               map (id_to_file_map files)
                 (sorted_nats
                    (fst (fold_left group_step (snd grp) ([], EmptyString)))))
    else None
  else None.

Lemma disk_collect_eq (gs : list (string * list string))
  (d : sdict (list string)) :
  fold_left (disk_collect files) gs d = emit_loop emit_disk gs d.
Proof.
  unfold emit_loop. apply fold_left_ext. intros acc grp.
  unfold disk_collect, emit_disk. cbv zeta.
  destruct (1 <? List.length (snd grp))%nat; [|reflexivity].
  destruct (fold_left group_step (snd grp) ([], EmptyString)) as [ids p].
  cbn [fst snd]. destruct (PyStr.truthy p); reflexivity.
Qed.

(** *** Phase 3 on the merged file *)

Lemma disk_groups_spec (order : list nat) (F : list string) :
  Permutation order (seq 0 (List.length files)) ->
  sorted_run F -> Permutation F (map disk_line (all_records order)) ->
  NoDup (PyDict.keys
           (fold_left (disk_collect files) (groupby run_key F) []))
  /\ forall p l,
       sget p (fold_left (disk_collect files) (groupby run_key F) [])
       = Some l
       <-> expected xxh64 config files p l.
Proof.
  intros Hperm [HQ Hsorted] HF. rewrite disk_collect_eq.
  split; [apply emit_loop_nodup; constructor|].
  assert (Hin_order : forall i, i < List.length files -> In i order).
  { intros i Hi. apply (Permutation_in _ (Permutation_sym Hperm)), in_seq.
    lia. }
  assert (HinF : forall a,
            In a F
            <-> exists i f s,
                  nth_error files i = Some f /\ In s (data_lines f)
                  /\ a = disk_line (record_of i s)).
  { intros a. split.
    - intros Ha. apply (Permutation_in _ HF) in Ha. apply in_map_iff in Ha.
      destruct Ha as [r [<- Hr]]. apply in_all_records in Hr.
      destruct Hr as (i & f & s & _ & Hf & Hs & ->). eauto 6.
    - intros (i & f & s & Hf & Hs & ->).
      apply (Permutation_in _ (Permutation_sym HF)). apply in_map.
      apply in_all_records. exists i, f, s.
      split; [|split; [exact Hf|split; [exact Hs|reflexivity]]].
      apply Hin_order. apply nth_error_Some. congruence. }
  destruct (groupby_sorted F Hsorted) as (Hnd & Hgrp & Hmem & _).
  cbv zeta in *.
  set (gs := groupby run_key F) in *.
  assert (Hemit : forall k g, In (k, g) gs ->
            exists s,
              In s lines /\ lh s = k
              /\ emit_disk (k, g)
                 = if (1 <? total k)%nat
                   then Some (lp s,
                              map (id_to_file_map files)
                                (containing xxh64 config files k))
                   else None).
  { intros k g Hin. destruct (Hgrp k g Hin) as [Hg Hne].
    assert (Hitems : forall a,
              In a g
              <-> exists i f s,
                    nth_error files i = Some f /\ In s (data_lines f)
                    /\ lh s = k /\ a = disk_line (record_of i s)).
    { intros a. rewrite Hg, filter_In, HinF. split.
      - intros [(i & f & s & Hf & Hs & ->) Hk]. unfold has_key in Hk.
        rewrite record_run_key in Hk. apply String.eqb_eq in Hk. eauto 8.
      - intros (i & f & s & Hf & Hs & Hk & ->). split; [eauto 6|].
        unfold has_key. rewrite record_run_key. now apply String.eqb_eq. }
    assert (Hlen : List.length g = total k).
    { rewrite Hg.
      rewrite (Permutation_length (filter_perm (has_key k) _ _ HF)).
      rewrite filter_record_lines.
      - rewrite length_map, count_all_records. unfold total_count.
        apply list_sum_perm, Permutation_map, Hperm.
      - intros r Hr. apply in_all_records in Hr.
        destruct Hr as (i & f & s & _ & _ & _ & ->). eauto. }
    destruct (fold_group_step g [] EmptyString) as (F1 & F2 & _ & F4).
    { intros a Ha. apply Hitems in Ha.
      destruct Ha as (i & f & s & Hf & Hs & _ & ->). exists i, s.
      split; [eapply data_lines_all; eassumption|reflexivity]. }
    destruct (F4 eq_refl Hne) as (i0 & s0 & Hs0 & Hin0 & Hp).
    assert (Hk0 : lh s0 = k).
    { apply Hitems in Hin0.
      destruct Hin0 as (i & f & s & Hf & Hs & Hk & Heq).
      apply record_line_inj in Heq;
        [|exact Hs0|eapply data_lines_all; eassumption].
      destruct Heq as [Hh _]. congruence. }
    exists s0. split; [exact Hs0|split; [exact Hk0|]].
    unfold emit_disk. cbn [snd]. rewrite Hlen.
    destruct (1 <? total k)%nat; [|reflexivity].
    rewrite Hp, (prefix_nonempty s0 Hs0). f_equal. f_equal. f_equal.
    apply sorted_nats_containing.
    - apply F1. constructor.
    - intros j. rewrite F2. split.
      + intros [[]|[s [Hs Hin']]]. apply Hitems in Hin'.
        destruct Hin' as (i & f & t & Hf & Ht & Hk & Heq).
        apply record_line_inj in Heq;
          [|exact Hs|eapply data_lines_all; eassumption].
        destruct Heq as [_ ->].
        unfold file_count. rewrite Hf. apply occurrences_pos. eauto.
      + intros Hpos. right. unfold file_count in Hpos.
        destruct (nth_error files j) as [f|] eqn:Hf; [|lia].
        apply occurrences_pos in Hpos. destruct Hpos as [s [Hs Hk]].
        exists s. split; [eapply data_lines_all; eassumption|].
        apply Hitems. exists j, f, s. auto. }
  intros p l.
  destruct (dget_fold_emit String.eqb String.eqb_spec emit_disk gs [] p l)
    as (H1 & H2 & _).
  fold (emit_loop emit_disk gs []) in H1, H2.
  split.
  - intros Hget. destruct (H1 Hget) as [Habs|[[k g] [Hin Heq]]];
      [discriminate|].
    destruct (Hemit k g Hin) as (s & Hs & Hk & Hev). rewrite Heq in Hev.
    destruct (1 <? total k)%nat eqn:Hdup; [|discriminate].
    injection Hev as -> ->. apply Nat.ltb_lt in Hdup.
    exists s. subst k. auto.
  - intros [s (Hs & Hps & Hdup & Hl)].
    assert (Hkey : In (lh s) (map fst gs)).
    { destruct (all_lines_file files s Hs) as (i & f & Hf & Hin).
      rewrite <- (record_run_key i s). apply Hmem. apply HinF. eauto 6. }
    apply in_map_iff in Hkey. destruct Hkey as [[k g] [Hk Hin]].
    cbn [fst] in Hk. subst k.
    apply H2.
    + intros [k' g'] v' Hin' Heq.
      destruct (Hemit k' g' Hin') as (t & Ht & Hkt & Hev).
      rewrite Heq in Hev.
      destruct (1 <? total k')%nat; [|discriminate].
      injection Hev as Hpt ->.
      assert (Hkk : k' = lh s).
      { rewrite <- Hkt. apply (hash_prefix t s Ht Hs). congruence. }
      rewrite Hkk. symmetry. exact Hl.
    + exists (lh s, g). split; [exact Hin|].
      destruct (Hemit _ _ Hin) as (t & Ht & Hkt & Hev). rewrite Hev.
      replace (1 <? total (lh s))%nat with true
        by (symmetry; apply Nat.ltb_lt; exact Hdup).
      f_equal. f_equal; [|now rewrite Hl].
      rewrite <- Hps. apply (hash_prefix t s Ht Hs). exact Hkt.
Qed.

(** With a batch size of at least two and fuel for one level per run, the
    DISK engine ends, and its report data is the expected one. *)
Lemma disk_output_spec (fuel : nat) (order : list nat) :
  (2 <= merge_batch_size config)%Z ->
  Permutation order (seq 0 (List.length files)) ->
  List.length (disk_runs xxh64 config files order) <= fuel ->
  exists d,
    disk_output xxh64 config fuel files order = Done d
    /\ NoDup (PyDict.keys d)
    /\ forall p l, sget p d = Some l <-> expected xxh64 config files p l.
Proof.
  intros Hmbs Hperm Hfuel. destruct (disk_runs_spec order) as [Hruns Hpr].
  destruct (cascade_spec fuel _ _ Hmbs Hfuel Hruns)
    as (final & Hc & Hlen & Hfin & Hpf).
  unfold disk_output. rewrite Hc.
  destruct final as [|F [|F' final]]; [| |simpl in Hlen; lia].
  - exists []. split; [reflexivity|].
    apply (disk_groups_spec order [] Hperm); [split; constructor|].
    eapply perm_trans; [exact Hpf|exact Hpr].
  - eexists. split; [reflexivity|].
    apply (disk_groups_spec order F Hperm).
    + now inversion Hfin.
    + simpl in Hpf. rewrite app_nil_r in Hpf.
      eapply perm_trans; eassumption.
Qed.

End DiskEngine.

(** ** Dictionaries that hold the same entries *)

Lemma existsb_perm {A : Type} (f : A -> bool) (l l' : list A) :
  Permutation l l' -> existsb f l = existsb f l'.
Proof.
  induction 1 as [|x l l' _ IH|x y l|l l' l'' _ IH1 _ IH2]; simpl.
  - reflexivity.
  - now rewrite IH.
  - destruct (f x), (f y); reflexivity.
  - congruence.
Qed.

Lemma sget_map_values {V : Type} (f : string * V -> string * V)
  (k : string) (d : sdict V) :
  (forall kv, fst (f kv) = fst kv) ->
  sget k (map f d) = option_map (fun v => snd (f (k, v))) (sget k d).
Proof.
  intros Hf. induction d as [|[k' v] d IH]; [reflexivity|].
  cbn [map]. pose proof (Hf (k', v)) as Hk. cbn [fst] in Hk.
  destruct (f (k', v)) as [k'' v'] eqn:E. cbn [fst] in Hk. subst k''.
  cbn [PyDict.get]. destruct (String.eqb_spec k k') as [->|Hne].
  - cbn [option_map]. now rewrite E.
  - exact IH.
Qed.

Lemma keys_map_values {V : Type} (f : string * V -> string * V)
  (d : sdict V) :
  (forall kv, fst (f kv) = fst kv) ->
  PyDict.keys (map f d) = PyDict.keys d.
Proof.
  intros Hf. unfold PyDict.keys. rewrite map_map. apply map_ext, Hf.
Qed.

Section SameEntries.

Context {V : Type}.

Definition same_entries (d1 d2 : sdict V) : Prop :=
  NoDup (PyDict.keys d1) /\ NoDup (PyDict.keys d2)
  /\ forall k, sget k d1 = sget k d2.

Lemma same_entries_perm (d1 d2 : sdict V) :
  same_entries d1 d2 -> Permutation d1 d2.
Proof.
  intros (N1 & N2 & H).
  apply NoDup_Permutation.
  - eapply NoDup_map_inv, N1.
  - eapply NoDup_map_inv, N2.
  - intros [k v]. split; intros Hin.
    + apply (dget_some_in String.eqb String.eqb_spec). rewrite <- H.
      now apply (dget_in String.eqb String.eqb_spec).
    + apply (dget_some_in String.eqb String.eqb_spec). rewrite H.
      now apply (dget_in String.eqb String.eqb_spec).
Qed.

Lemma same_entries_sset (k : string) (v : V) (d1 d2 : sdict V) :
  same_entries d1 d2 -> same_entries (sset k v d1) (sset k v d2).
Proof.
  intros (N1 & N2 & H). split; [|split].
  - now apply nodup_keys_sset.
  - now apply nodup_keys_sset.
  - intros k'. rewrite !sget_sset, H. reflexivity.
Qed.

Lemma same_entries_map (f : string * V -> string * V) (d1 d2 : sdict V) :
  (forall kv, fst (f kv) = fst kv) ->
  same_entries d1 d2 -> same_entries (map f d1) (map f d2).
Proof.
  intros Hf (N1 & N2 & H). split; [|split].
  - now rewrite keys_map_values.
  - now rewrite keys_map_values.
  - intros k. rewrite !sget_map_values by exact Hf. now rewrite H.
Qed.

End SameEntries.

(** Two dictionaries that answer every lookup alike, as the engines'
    specifications say. *)
Lemma same_entries_of_spec {V : Type} (P : string -> V -> Prop)
  (d1 d2 : sdict V) :
  NoDup (PyDict.keys d1) -> NoDup (PyDict.keys d2) ->
  (forall k v, sget k d1 = Some v <-> P k v) ->
  (forall k v, sget k d2 = Some v <-> P k v) ->
  same_entries d1 d2.
Proof.
  intros N1 N2 H1 H2. split; [exact N1|split; [exact N2|]]. intros k.
  destruct (sget k d1) as [v|] eqn:E1.
  - symmetry. apply H2, H1, E1.
  - destruct (sget k d2) as [v|] eqn:E2; [|reflexivity].
    apply H2, H1 in E2. congruence.
Qed.

(** The report does not depend on the order of the entries. *)
Lemma write_duplicates_same (d1 d2 : sdict (list string)) :
  same_entries d1 d2 -> write_duplicates d1 = write_duplicates d2.
Proof.
  intros Hsame. pose proof (same_entries_perm d1 d2 Hsame) as Hperm.
  destruct Hsame as (_ & _ & H).
  destruct d1 as [|e1 d1].
  - apply Permutation_nil in Hperm. now subst d2.
  - destruct d2 as [|e2 d2];
      [apply Permutation_sym, Permutation_nil in Hperm; discriminate|].
    unfold write_duplicates. cbv zeta.
    rewrite (sorted_strings_perm_eq _ _
               (Permutation_map fst Hperm : Permutation
                  (PyDict.keys (e1 :: d1)) (PyDict.keys (e2 :: d2)))).
    apply flat_map_ext. intros k. now rewrite H.
Qed.

(** The lines to delete depend on the prefixes of the entries with more than
    one file, and not on their order. *)
Lemma collect_duplicate_lines_for_deletion_same (xxh64 : string -> N)
  (config : Config) (files : list File) (d1 d2 : sdict (list string)) :
  same_entries d1 d2 ->
  collect_duplicate_lines_for_deletion xxh64 config files d1
  = collect_duplicate_lines_for_deletion xxh64 config files d2.
Proof.
  intros Hsame. pose proof (same_entries_perm d1 d2 Hsame) as Hperm.
  unfold collect_duplicate_lines_for_deletion. cbv zeta.
  set (big := fun kv : string * list string =>
                (1 <? List.length (snd kv))%nat).
  assert (HP : Permutation (map fst (filter big d1)) (map fst (filter big d2)))
    by (apply Permutation_map, filter_perm, Hperm).
  assert (Hmem : forall x, set_mem x (map fst (filter big d1))
                           = set_mem x (map fst (filter big d2)))
    by (intros x; apply existsb_perm, HP).
  destruct (map fst (filter big d1)) as [|p1 P1].
  - apply Permutation_nil in HP. now rewrite HP.
  - destruct (map fst (filter big d2)) as [|p2 P2];
      [apply Permutation_sym, Permutation_nil in HP; discriminate|].
    assert (Hscan :
              fold_left
                (fun acc f =>
                   fold_left (scan1_step xxh64 config (p1 :: P1) (name f))
                     (body f) acc) files []
              = fold_left
                  (fun acc f =>
                     fold_left (scan1_step xxh64 config (p2 :: P2) (name f))
                       (body f) acc) files []).
    { apply fold_left_ext. intros acc f. apply fold_left_ext.
      intros acc' line. unfold scan1_step. cbv zeta. now rewrite Hmem. }
    now rewrite Hscan.
Qed.

Lemma annotate_key (inter_counts intra_counts : sdict nat)
  (kv : string * list string) :
  fst (annotate inter_counts intra_counts kv) = fst kv.
Proof.
  destruct kv as [k v]. unfold annotate.
  destruct (1 <? List.length v)%nat; [reflexivity|].
  destruct v as [|x v]; [reflexivity|]. cbv zeta.
  destruct (0 <? get_default x intra_counts 0)%nat; reflexivity.
Qed.

Lemma add_unlisted_same (d1 d2 : sdict (list string)) (kv : string * nat) :
  same_entries d1 d2 -> same_entries (add_unlisted d1 kv) (add_unlisted d2 kv).
Proof.
  intros Hsame. destruct kv as [filename n]. unfold add_unlisted. cbv zeta.
  destruct (0 <? n)%nat; [|exact Hsame].
  rewrite (existsb_perm _ _ _
             (Permutation_map snd (same_entries_perm d1 d2 Hsame)
              : Permutation (PyDict.values d1) (PyDict.values d2))).
  destruct (existsb _ (PyDict.values d2)); [exact Hsame|].
  now apply same_entries_sset.
Qed.

Lemma delete_duplicate_rows_same (xxh64 : string -> N) (config : Config)
  (files : list File) (lines_to_delete : sdict (sdict (list string)))
  (d1 d2 : sdict (list string)) :
  same_entries d1 d2 ->
  fst (delete_duplicate_rows xxh64 config files lines_to_delete d1)
  = fst (delete_duplicate_rows xxh64 config files lines_to_delete d2)
  /\ same_entries
       (snd (delete_duplicate_rows xxh64 config files lines_to_delete d1))
       (snd (delete_duplicate_rows xxh64 config files lines_to_delete d2)).
Proof.
  intros Hsame. unfold delete_duplicate_rows.
  destruct (delete_inter_file files lines_to_delete) as [files1 inter].
  destruct (delete_intra_file xxh64 config files1) as [files2 intra].
  cbv zeta. cbn [fst snd]. split; [reflexivity|].
  assert (Hmap : same_entries (map (annotate inter intra) d1)
                   (map (annotate inter intra) d2))
    by (apply same_entries_map; [apply annotate_key|exact Hsame]).
  revert Hmap. generalize (map (annotate inter intra) d1)
                 (map (annotate inter intra) d2).
  induction intra as [|kv intra IH]; intros m1 m2 Hm; [exact Hm|].
  cbn [fold_left]. apply IH, add_unlisted_same, Hm.
Qed.

(** The tail of the engines gives the same files and the same report for
    report data with the same entries. *)
Lemma finish_same (xxh64 : string -> N) (config : Config) (files : list File)
  (d1 d2 : sdict (list string)) :
  same_entries d1 d2 ->
  finish xxh64 config files d1 = finish xxh64 config files d2.
Proof.
  intros Hsame. unfold finish.
  destruct (deleteduplicates config).
  - cbv zeta.
    rewrite (collect_duplicate_lines_for_deletion_same _ _ _ _ _ Hsame).
    destruct (delete_duplicate_rows_same xxh64 config files
                (collect_duplicate_lines_for_deletion xxh64 config files d2)
                d1 d2 Hsame) as [Hf Hd].
    destruct (delete_duplicate_rows _ _ _ _ d1) as [f1 o1].
    destruct (delete_duplicate_rows _ _ _ _ d2) as [f2 o2].
    cbn [fst snd] in Hf, Hd. subst f2. f_equal.
    now apply write_duplicates_same.
  - f_equal. now apply write_duplicates_same.
Qed.

(** ** A corpus without duplicates *)

Lemma set_mem_set_add (h x : string) (s : list string) :
  set_mem h (set_add x s) = true -> h = x \/ set_mem h s = true.
Proof.
  unfold set_add, set_mem. destruct (existsb (String.eqb x) s).
  - now right.
  - rewrite existsb_app. simpl. rewrite orb_false_r.
    intros H. apply orb_true_iff in H. destruct H as [H|H]; [now right|].
    left. now apply String.eqb_eq.
Qed.

Lemma list_sum_in {A : Type} (f : A -> nat) (x : A) (l : list A) :
  In x l -> f x <= list_sum (map f l).
Proof.
  induction l as [|y l IH]; [intros []|].
  intros [->|H]; simpl; [lia|]. specialize (IH H). lia.
Qed.

Section NoDuplicates.

Variable xxh64 : string -> N.
Variable config : Config.

Local Abbreviation lh := (line_hash xxh64 config).
Local Abbreviation occ := (occurrences xxh64 config).

Local Opaque line_hash line_prefix.

Lemma intra_step_eq (seen kept : list string) (n : nat) (line : string) :
  intra_step xxh64 config (seen, kept, n) line
  = if PyStr.truthy (PyStr.strip line) then
      if set_mem (lh (PyStr.strip line)) seen
      then (seen, kept, S n)
      else (set_add (lh (PyStr.strip line)) seen, line :: kept, n)
    else (seen, line :: kept, n).
Proof.
  unfold intra_step. cbv zeta.
  destruct (PyStr.truthy (PyStr.strip line)); [|reflexivity].
  destruct (set_mem _ seen); reflexivity.
Qed.

(** No line is dropped when no hash comes twice. *)
Lemma intra_step_fresh (ls : list string) (seen kept : list string)
  (n : nat) :
  (forall h, occ h (filter PyStr.truthy (map PyStr.strip ls)) <= 1) ->
  (forall h, set_mem h seen = true ->
             occ h (filter PyStr.truthy (map PyStr.strip ls)) = 0) ->
  snd (fold_left (intra_step xxh64 config) ls (seen, kept, n)) = n.
Proof.
  revert seen kept. induction ls as [|line ls IH]; intros seen kept H1 H2;
    [reflexivity|].
  cbn [fold_left]. rewrite intra_step_eq.
  cbn [map filter] in H1, H2.
  destruct (PyStr.truthy (PyStr.strip line)); [|now apply IH].
  set (s := PyStr.strip line) in *.
  assert (Hcons : forall h,
            occ h (s :: filter PyStr.truthy (map PyStr.strip ls))
            = (if String.eqb (lh s) h then 1 else 0)
              + occ h (filter PyStr.truthy (map PyStr.strip ls))).
  { intros h. unfold occurrences. cbn [filter].
    destruct (String.eqb (lh s) h); reflexivity. }
  assert (Hs : occ (lh s) (filter PyStr.truthy (map PyStr.strip ls)) = 0).
  { pose proof (H1 (lh s)) as H. rewrite Hcons, String.eqb_refl in H. lia. }
  destruct (set_mem (lh s) seen) eqn:Hseen.
  - apply H2 in Hseen. rewrite Hcons, String.eqb_refl in Hseen. lia.
  - apply IH.
    + intros h. pose proof (H1 h) as H. rewrite Hcons in H. lia.
    + intros h Hh. apply set_mem_set_add in Hh. destruct Hh as [->|Hh].
      * exact Hs.
      * apply H2 in Hh. rewrite Hcons in Hh. lia.
Qed.

Lemma find_and_delete_intrafile_duplicates_nothing (f : File) :
  (forall h, occ h (data_lines f) <= 1) ->
  find_and_delete_intrafile_duplicates xxh64 config (content f)
  = (content f, 0).
Proof.
  intros H. unfold find_and_delete_intrafile_duplicates. cbv zeta.
  pose proof (intra_step_fresh (tl (content f)) [] [] 0 H
                (fun h Hh => False_ind _ (Bool.diff_false_true Hh))) as Hn.
  destruct (fold_left (intra_step xxh64 config) (tl (content f)) ([], [], 0))
    as [[seen kept] n].
  cbn [snd] in Hn. subst n. reflexivity.
Qed.

Lemma delete_intra_file_nothing (files : list File) :
  (forall f h, In f files -> occ h (data_lines f) <= 1) ->
  delete_intra_file xxh64 config files = (files, []).
Proof.
  intros H. unfold delete_intra_file.
  match goal with |- fold_left ?F files _ = _ => set (step := F) end.
  assert (Hgen : forall done counts,
            fold_left step files (done, counts)
            = ((done ++ files)%list, counts)).
  { induction files as [|f files IH]; intros done counts; cbn [fold_left].
    - now rewrite app_nil_r.
    - assert (Hstep : step (done, counts) f = ((done ++ [f])%list, counts)).
      { unfold step.
        rewrite find_and_delete_intrafile_duplicates_nothing
          by (intros h; apply H; now left).
        reflexivity. }
      rewrite Hstep, IH by (intros g h Hg; apply H; now right).
      now rewrite <- app_assoc. }
  apply (Hgen [] []).
Qed.

(** Without a hash that occurs twice and with no report data, the tail of
    the engines leaves the files alone and writes the empty report. *)
Lemma finish_nothing (files : list File) :
  (forall h, total_count xxh64 config files h <= 1) ->
  finish xxh64 config files [] = (files, write_duplicates []).
Proof.
  intros H. unfold finish. destruct (deleteduplicates config); [|reflexivity].
  cbv zeta. unfold collect_duplicate_lines_for_deletion. cbn [filter map].
  unfold delete_duplicate_rows, delete_inter_file. cbn [fold_left].
  rewrite delete_intra_file_nothing; [reflexivity|].
  intros f h Hf. apply In_nth_error in Hf. destruct Hf as [i Hi].
  pose proof (H h) as Ht. unfold total_count in Ht.
  assert (Hin : In i (seq 0 (List.length files))).
  { apply in_seq. split; [lia|]. apply nth_error_Some. congruence. }
  pose proof (list_sum_in (file_count xxh64 config files h) i _ Hin) as Hle.
  unfold file_count at 1 in Hle. rewrite Hi in Hle. lia.
Qed.

End NoDuplicates.

(** ** The three engines on one corpus *)

(** Two files that share a line; one holds it twice. *)
Definition twin_corpus : list File :=
  [text_file "a.csv" ["id;v"; "k1;v"; "k1;v"];
   text_file "b.csv" ["id;v"; "k1;v"; "k2;w"]].

(** One file with a tab inside a line that comes twice. *)
Definition tab_line : string := String "a" (String TAB "b").

Definition tab_corpus : list File :=
  [text_file "t.csv" ["head"; tab_line; tab_line]].

(** C1, amended.  The three engines leave the same files and write the same
    report, whatever the completion orders of their workers, on a corpus in
    which two lines have the same hash exactly when they have the same
    prefix, every prefix is free of tabs, does not end in a blank and is not
    empty, and every key is not empty; the DISK engine is run with a merge
    batch size of at least two, which makes its cascade end. *)
Theorem engines_agree (xxh64 : string -> N) (config : Config)
  (files : list File) (fuel : nat)
  (order_fast order_safe1 order_safe2 order_disk : list nat) :
  (forall s t,
     In s (all_lines files) -> In t (all_lines files) ->
     (line_hash xxh64 config s = line_hash xxh64 config t
      <-> line_prefix config s = line_prefix config t)) ->
  (forall s,
     In s (all_lines files) ->
     PyStr.replace TAB " "%char (line_prefix config s) = line_prefix config s
     /\ PyStr.rstrip (line_prefix config s) = line_prefix config s
     /\ PyStr.truthy (line_prefix config s) = true
     /\ PyStr.truthy
          (normalize_line s (hash_delimiter config) (hash_fields config))
        = true) ->
  (2 <= merge_batch_size config)%Z ->
  Permutation order_fast (seq 0 (List.length files)) ->
  Permutation order_safe1 (seq 0 (List.length files)) ->
  Permutation order_safe2 (seq 0 (List.length files)) ->
  Permutation order_disk (seq 0 (List.length files)) ->
  List.length (disk_runs xxh64 config files order_disk) <= fuel ->
  run_strategy_safe xxh64 config files order_safe1 order_safe2
  = run_strategy_fast xxh64 config files order_fast
  /\ run_strategy_disk xxh64 config fuel files order_disk
     = Done (run_strategy_fast xxh64 config files order_fast).
Proof.
  intros Hhp Hclean Hmbs Hpf Hps1 Hps2 Hpd Hfuel.
  destruct (fast_output_spec xxh64 config files Hhp order_fast Hpf)
    as [NF HF].
  destruct (disk_output_spec xxh64 config files Hhp
              (fun s Hs => proj1 (Hclean s Hs))
              (fun s Hs => proj1 (proj2 (Hclean s Hs)))
              (fun s Hs => proj1 (proj2 (proj2 (Hclean s Hs))))
              (fun s Hs => proj2 (proj2 (proj2 (Hclean s Hs))))
              fuel order_disk Hmbs Hpd Hfuel)
    as (d & Hd & ND & HD).
  split.
  - unfold run_strategy_safe, run_strategy_fast. cbv zeta.
    destruct (safe_duplicate_hashes
                (safe_counts xxh64 config files order_safe1))
      as [|h0 D] eqn:ED.
    + assert (Hnone : forall h, total_count xxh64 config files h <= 1).
      { intros h.
        pose proof (safe_duplicate_hashes_spec xxh64 config files
                      order_safe1 h Hps1) as Hh.
        rewrite ED in Hh. symmetry in Hh. apply Nat.ltb_ge in Hh. exact Hh. }
      assert (Hempty : fast_output xxh64 config files order_fast = []).
      { destruct (fast_output xxh64 config files order_fast)
          as [|[k v] rest]; [reflexivity|].
        assert (Hget : sget k ((k, v) :: rest) = Some v)
          by (cbn [PyDict.get]; now rewrite String.eqb_refl).
        apply HF in Hget. destruct Hget as (s & _ & _ & Hdup & _).
        specialize (Hnone (line_hash xxh64 config s)). lia. }
      rewrite Hempty. symmetry. now apply finish_nothing.
    + apply finish_same.
      destruct (safe_output_spec xxh64 config files Hhp order_safe1
                  order_safe2 Hps1 Hps2) as [NS HS].
      exact (same_entries_of_spec _ _ _ NS NF HS HF).
  - unfold run_strategy_disk, run_strategy_fast. cbv zeta. rewrite Hd.
    f_equal. apply finish_same.
    exact (same_entries_of_spec _ _ _ ND NF HD HF).
Qed.

Lemma engines_agree_witness :
  run_strategy_safe fnv1a64 default_config twin_corpus [1; 0] [0; 1]
  = run_strategy_fast fnv1a64 default_config twin_corpus [0; 1]
  /\ run_strategy_disk fnv1a64 default_config 2 twin_corpus [1; 0]
     = Done (run_strategy_fast fnv1a64 default_config twin_corpus [0; 1]).
Proof.
  apply (engines_agree fnv1a64 default_config twin_corpus 2
           [0; 1] [1; 0] [0; 1] [1; 0]).
  - intros s t Hs Ht. vm_compute in Hs, Ht.
    repeat match goal with
           | H : _ \/ _ |- _ => destruct H as [<-|H]
           | H : False |- _ => destruct H
           end;
      (split; intros E; try reflexivity; vm_compute in E; discriminate E).
  - intros s Hs. vm_compute in Hs.
    repeat match goal with
           | H : _ \/ _ |- _ => destruct H as [<-|H]
           | H : False |- _ => destruct H
           end;
      (split; [|split; [|split]]; vm_compute; reflexivity).
  - vm_compute. discriminate.
  - apply Permutation_refl.
  - apply perm_swap.
  - apply Permutation_refl.
  - apply perm_swap.
  - vm_compute. apply le_n.
Defined.

(** C1, as stated, fails: the DISK engine writes a tab of the prefix as a
    blank, the other two keep it.  The corpus has one key, so no two keys
    share a hash. *)
Lemma tab_in_prefix_splits_engines :
  fast_output fnv1a64 default_config tab_corpus [0] = [(tab_line, ["t.csv"])]
  /\ safe_output fnv1a64 default_config tab_corpus [0] [0]
     = [(tab_line, ["t.csv"])]
  /\ disk_output fnv1a64 default_config 1 tab_corpus [0]
     = Done [("a b", ["t.csv"])]
  /\ run_strategy_disk fnv1a64 default_config 1 tab_corpus [0]
     <> Done (run_strategy_fast fnv1a64 default_config tab_corpus [0]).
Proof.
  split; [vm_compute; reflexivity|].
  split; [vm_compute; reflexivity|].
  split; [vm_compute; reflexivity|].
  vm_compute. intros E. discriminate E.
Qed.

(** ** The deletion of inter-file duplicates *)

Lemma fold_left_prefix_inv {A B : Type} (f : A -> B -> A)
  (P : list B -> A -> Prop) (l : list B) (a : A) :
  P [] a ->
  (forall pre x acc, P pre acc -> P (pre ++ [x])%list (f acc x)) ->
  P l (fold_left f l a).
Proof.
  intros H0 Hstep.
  assert (G : forall l' pre a', P pre a' ->
                                P (pre ++ l')%list (fold_left f l' a')).
  { induction l' as [|x l' IH]; intros pre a' Hp; simpl.
    - now rewrite app_nil_r.
    - replace (pre ++ x :: l')%list with ((pre ++ [x]) ++ l')%list
        by (now rewrite <- app_assoc).
      apply IH, Hstep, Hp. }
  apply (G l [] a H0).
Qed.

Lemma fold_left_map_list {A B C : Type} (f : A -> C -> A) (g : B -> C)
  (l : list B) (a : A) :
  fold_left f (map g l) a = fold_left (fun acc x => f acc (g x)) l a.
Proof.
  revert a. induction l as [|x l IH]; intros a; simpl; [reflexivity|].
  apply IH.
Qed.

Lemma sset_nonempty {V : Type} (k : string) (v : V) (d : sdict V) :
  sset k v d <> [].
Proof.
  destruct d as [|[k' v'] d]; simpl; [discriminate|].
  destruct (String.eqb k k'); discriminate.
Qed.

Section CollectFacts.

Variable xxh64 : string -> N.
Variable config : Config.

Local Abbreviation lh := (line_hash xxh64 config).

Local Opaque line_hash line_prefix.

(** The stripped, non-blank lines of the files, each with the name of its
    file, in the order of the scans. *)
Definition items_of (files : list File) : list (string * string) :=
  flat_map (fun f => map (fun s => (name f, s)) (data_lines f)) files.

(** The body of the second scan on such a line. *)
Definition scan2_item (M : sdict (list string))
  (acc : sdict (sdict (list string))) (x : string * string)
  : sdict (sdict (list string)) :=
  if PyDict.mem String.eqb (lh (snd x)) M then
    sset (lh (snd x))
      (sset (fst x)
         (get_default (fst x) (get_default (lh (snd x)) acc []) []
          ++ [snd x])%list
         (get_default (lh (snd x)) acc []))
      acc
  else acc.

Lemma scan2_fold_items (M : sdict (list string)) (files : list File)
  (acc : sdict (sdict (list string))) :
  fold_left
    (fun acc f =>
       fold_left (scan2_step xxh64 config M (name f)) (body f) acc)
    files acc
  = fold_left (scan2_item M) (items_of files) acc.
Proof.
  revert acc. induction files as [|f files IH]; intros acc; [reflexivity|].
  cbn [fold_left]. unfold items_of. cbn [flat_map].
  rewrite fold_left_app. fold (items_of files). rewrite <- IH. f_equal.
  rewrite fold_left_map_list. unfold data_lines.
  apply fold_skip_blank. intros a line.
  unfold scan2_step, scan2_item. cbv zeta. cbn [fst snd].
  destruct (PyStr.truthy (PyStr.strip line)); reflexivity.
Qed.

(** The lines of a hash found so far in the file of a name. *)
Definition lines_of (pre : list (string * string)) (h n : string)
  : list string :=
  map snd
    (filter (fun p => String.eqb (fst p) n && String.eqb (lh (snd p)) h) pre).

Lemma lines_of_app (pre post : list (string * string)) (h n : string) :
  lines_of (pre ++ post) h n = (lines_of pre h n ++ lines_of post h n)%list.
Proof. unfold lines_of. now rewrite filter_app, map_app. Qed.

Lemma lines_of_one (n0 s0 h n : string) :
  lines_of [(n0, s0)] h n
  = if String.eqb n0 n && String.eqb (lh s0) h then [s0] else [].
Proof.
  unfold lines_of. cbn [filter fst snd].
  destruct (String.eqb n0 n && String.eqb (lh s0) h); reflexivity.
Qed.

(** What the second scan holds after the lines [pre]. *)
Definition collected (M : sdict (list string)) (pre : list (string * string))
  (acc : sdict (sdict (list string))) : Prop :=
  NoDup (PyDict.keys acc)
  /\ forall h,
       match sget h acc with
       | None =>
           PyDict.mem String.eqb h M = true -> forall n, lines_of pre h n = []
       | Some flm =>
           PyDict.mem String.eqb h M = true
           /\ flm <> []
           /\ NoDup (PyDict.keys flm)
           /\ forall n,
                match sget n flm with
                | None => lines_of pre h n = []
                | Some ls => ls = lines_of pre h n /\ ls <> []
                end
       end.

Lemma collected_step (M : sdict (list string)) (pre : list (string * string))
  (x : string * string) (acc : sdict (sdict (list string))) :
  collected M pre acc -> collected M (pre ++ [x]) (scan2_item M acc x).
Proof.
  intros [Hnd Hacc]. destruct x as [n0 s0]. unfold scan2_item. cbn [fst snd].
  destruct (PyDict.mem String.eqb (lh s0) M) eqn:HM.
  - split; [now apply nodup_keys_sset|]. intros h.
    rewrite sget_sset. destruct (String.eqb_spec h (lh s0)) as [->|Hne].
    + split; [exact HM|].
      pose proof (Hacc (lh s0)) as Hh. unfold get_default.
      destruct (sget (lh s0) acc) as [flm|].
      * destruct Hh as (_ & _ & Hndf & Hflm).
        split; [apply sset_nonempty|].
        split; [now apply nodup_keys_sset|]. intros n.
        rewrite sget_sset, lines_of_app, lines_of_one, String.eqb_refl.
        rewrite andb_true_r. rewrite (String.eqb_sym n0 n).
        pose proof (Hflm n) as Hn.
        destruct (String.eqb_spec n n0) as [->|Hnn].
        -- split; [|now destruct (match sget n0 flm with
                                   | Some v => v | None => [] end)].
           f_equal. pose proof (Hflm n0) as H0.
           destruct (sget n0 flm) as [ls|]; [now destruct H0|now rewrite H0].
        -- destruct (sget n flm) as [ls|]; rewrite app_nil_r; exact Hn.
      * split; [discriminate|].
        split; [repeat constructor; simpl; tauto|]. intros n.
        rewrite lines_of_app, lines_of_one, String.eqb_refl, andb_true_r.
        rewrite (Hh HM n). cbn [PyDict.get PyDict.set app].
        rewrite (String.eqb_sym n0 n).
        destruct (String.eqb n n0); [split; [reflexivity|discriminate]|].
        reflexivity.
    + pose proof (Hacc h) as Hh.
      assert (Hsame : forall n, lines_of (pre ++ [(n0, s0)]) h n
                                = lines_of pre h n).
      { intros n. rewrite lines_of_app, lines_of_one.
        destruct (String.eqb_spec (lh s0) h) as [E|_]; [congruence|].
        now rewrite andb_false_r, app_nil_r. }
      destruct (sget h acc) as [flm|].
      * destruct Hh as (Hm & Hne' & Hndf & Hflm). split; [exact Hm|].
        split; [exact Hne'|].
        split; [exact Hndf|]. intros n. rewrite Hsame. apply Hflm.
      * intros Hm n. rewrite Hsame. now apply Hh.
  - split; [exact Hnd|]. intros h. pose proof (Hacc h) as Hh.
    assert (Hsame : PyDict.mem String.eqb h M = true ->
                    forall n, lines_of (pre ++ [(n0, s0)]) h n
                              = lines_of pre h n).
    { intros Hm n. rewrite lines_of_app, lines_of_one.
      destruct (String.eqb_spec (lh s0) h) as [E|_]; [congruence|].
      now rewrite andb_false_r, app_nil_r. }
    destruct (sget h acc) as [flm|].
    + destruct Hh as (Hm & Hne & Hndf & Hflm). split; [exact Hm|].
      split; [exact Hne|].
      split; [exact Hndf|]. intros n. rewrite (Hsame Hm). apply Hflm.
    + intros Hm n. rewrite (Hsame Hm). now apply Hh.
Qed.

Lemma collected_scan (M : sdict (list string)) (files : list File) :
  collected M (items_of files)
    (fold_left
       (fun acc f =>
          fold_left (scan2_step xxh64 config M (name f)) (body f) acc)
       files []).
Proof.
  rewrite scan2_fold_items.
  apply (fold_left_prefix_inv (scan2_item M) (collected M)).
  - split; [constructor|]. intros h. simpl. reflexivity.
  - intros pre x acc. apply collected_step.
Qed.

End CollectFacts.

Lemma filter_twice {A : Type} (p q : A -> bool) (l : list A) :
  filter p (filter q l) = filter (fun x => q x && p x) l.
Proof.
  induction l as [|x l IH]; simpl; [reflexivity|].
  destruct (q x); simpl; [destruct (p x)|]; now rewrite IH.
Qed.

Lemma filter_none {A : Type} (p : A -> bool) (l : list A) :
  (forall x, In x l -> p x = false) -> filter p l = [].
Proof.
  induction l as [|x l IH]; intros H; simpl; [reflexivity|].
  rewrite (H x (or_introl eq_refl)). apply IH. intros y Hy. apply H. now right.
Qed.

Lemma filter_all {A : Type} (p : A -> bool) (l : list A) :
  (forall x, p x = true) -> filter p l = l.
Proof.
  intros H. induction l as [|x l IH]; simpl; [reflexivity|].
  now rewrite H, IH.
Qed.

Lemma set_mem_in (x : string) (s : list string) :
  set_mem x s = true <-> In x s.
Proof.
  unfold set_mem. rewrite existsb_exists. split.
  - intros [y [Hy E]]. apply String.eqb_eq in E. now subst y.
  - intros H. exists x. split; [exact H|apply String.eqb_refl].
Qed.

Section InterFile.

Variable xxh64 : string -> N.
Variable config : Config.

Local Abbreviation lh := (line_hash xxh64 config).

Local Opaque line_hash line_prefix.

(** The lines of a file, after the header, whose key hashes to [h]. *)
Definition hash_lines (h : string) (f : File) : list string :=
  filter
    (fun line =>
       PyStr.truthy (PyStr.strip line)
       && String.eqb (lh (PyStr.strip line)) h)
    (body f).

Lemma data_hash_lines (h : string) (f : File) :
  filter (fun s => String.eqb (lh s) h) (data_lines f)
  = map PyStr.strip (hash_lines h f).
Proof.
  unfold data_lines, hash_lines.
  induction (body f) as [|line l IH]; [reflexivity|].
  cbn [map filter].
  destruct (PyStr.truthy (PyStr.strip line)); cbn [andb filter]; [|exact IH].
  destruct (String.eqb (lh (PyStr.strip line)) h); cbn [map]; now rewrite IH.
Qed.

Lemma lines_of_named (m : string) (l : list string) (h n : string) :
  lines_of xxh64 config (map (fun s => (m, s)) l) h n
  = if String.eqb m n then filter (fun s => String.eqb (lh s) h) l else [].
Proof.
  unfold lines_of. induction l as [|s l IH].
  - now destruct (String.eqb m n).
  - cbn [map filter fst snd]. destruct (String.eqb m n); cbn [andb].
    + destruct (String.eqb (lh s) h); cbn [map]; now rewrite IH.
    + exact IH.
Qed.

Lemma lines_of_absent (files : list File) (h n : string) :
  ~ In n (map name files) -> lines_of xxh64 config (items_of files) h n = [].
Proof.
  induction files as [|f files IH]; intros Hn; [reflexivity|].
  unfold items_of. cbn [flat_map]. fold (items_of files).
  rewrite lines_of_app, lines_of_named.
  destruct (String.eqb_spec (name f) n) as [E|_].
  - exfalso. apply Hn. now left.
  - apply IH. intros Hin. apply Hn. now right.
Qed.

Lemma lines_of_items (files : list File) (h : string) (f : File) :
  NoDup (map name files) -> In f files ->
  lines_of xxh64 config (items_of files) h (name f)
  = map PyStr.strip (hash_lines h f).
Proof.
  induction files as [|g files IH]; intros Hnd Hf; [destruct Hf|].
  unfold items_of. cbn [flat_map]. fold (items_of files).
  rewrite lines_of_app, lines_of_named.
  cbn [map] in Hnd. apply NoDup_cons_iff in Hnd. destruct Hnd as [Hg Hnd].
  destruct Hf as [->|Hf].
  - rewrite String.eqb_refl, lines_of_absent by exact Hg.
    rewrite app_nil_r. apply data_hash_lines.
  - destruct (String.eqb_spec (name g) (name f)) as [E|_].
    + exfalso. apply Hg. rewrite E. now apply in_map.
    + now apply IH.
Qed.

(** *** The rewriting of the files *)

Lemma rewritten_eq (ltr : list string) (f : File) :
  rewritten ltr f = (true, with_content f (filtered_rows ltr (content f))).
Proof. unfold rewritten. now rewrite delete_rows_from_file_ok. Qed.

(** One deletion: the file of a name loses the listed lines. *)
Definition apply_job (f : File) (j : string * list string) : File :=
  if String.eqb (name f) (fst j)
  then with_content f (filtered_rows (snd j) (content f))
  else f.

Lemma apply_job_name (f : File) (j : string * list string) :
  name (apply_job f j) = name f.
Proof. unfold apply_job. now destruct (String.eqb (name f) (fst j)). Qed.

Lemma delete_in_first_named (n : string) (ltr : list string)
  (fs : list File) :
  NoDup (map name fs) ->
  snd (delete_in_first n ltr fs) = map (fun f => apply_job f (n, ltr)) fs.
Proof.
  induction fs as [|f fs IH]; intros Hnd; [reflexivity|].
  cbn [map] in Hnd. apply NoDup_cons_iff in Hnd. destruct Hnd as [Hf Hnd].
  cbn [delete_in_first map]. unfold apply_job at 1. cbn [fst snd].
  destruct (String.eqb_spec (name f) n) as [E|Hne].
  - rewrite rewritten_eq. cbn [snd]. f_equal.
    rewrite <- (map_id fs) at 1. apply map_ext_in. intros g Hg.
    unfold apply_job. cbn [fst].
    destruct (String.eqb_spec (name g) n) as [E'|_]; [|reflexivity].
    exfalso. apply Hf. rewrite E, <- E'. now apply in_map.
  - specialize (IH Hnd).
    destruct (delete_in_first n ltr fs) as [ok rest]. cbn [snd] in *.
    now rewrite IH.
Qed.

(** The deletions of one hash: every name but the first in sorted order. *)
Definition jobs_of (flm : sdict (list string))
  : list (string * list string) :=
  map (fun n => (n, get_default n flm []))
    (tl (sorted_strings (PyDict.keys flm))).

Definition apply_jobs (js : list (string * list string)) (f : File) : File :=
  fold_left apply_job js f.

Lemma apply_jobs_name (js : list (string * list string)) (f : File) :
  name (apply_jobs js f) = name f.
Proof.
  unfold apply_jobs. revert f. induction js as [|j js IH]; intros f;
    [reflexivity|].
  cbn [fold_left]. now rewrite IH, apply_job_name.
Qed.

Lemma names_apply_jobs (js : list (string * list string)) (fs : list File) :
  map name (map (apply_jobs js) fs) = map name fs.
Proof. rewrite map_map. apply map_ext. intros f. apply apply_jobs_name. Qed.

Lemma delete_for_hash_files (fs : list File) (c : sdict nat)
  (e : string * sdict (list string)) :
  NoDup (map name fs) ->
  fst (delete_for_hash (fs, c) e) = map (apply_jobs (jobs_of (snd e))) fs.
Proof.
  intros Hnd. unfold delete_for_hash, jobs_of, sorted_strings. cbv zeta.
  destruct (py_sort String.leb (PyDict.keys (snd e))) as [|keep dels].
  - cbn [tl map fst]. unfold apply_jobs. cbn [fold_left]. now rewrite map_id.
  - cbn [tl]. revert fs c Hnd.
    induction dels as [|n dels IH]; intros fs c Hnd.
    + cbn [fold_left map fst]. unfold apply_jobs. cbn [fold_left].
      now rewrite map_id.
    + cbn [fold_left map].
      pose proof (delete_in_first_named n (get_default n (snd e) []) fs Hnd)
        as Hd.
      destruct (delete_in_first n (get_default n (snd e) []) fs)
        as [ok fs'].
      cbn [snd] in Hd. subst fs'.
      assert (Hnd' : NoDup
                       (map name
                          (map (fun f =>
                                  apply_job f
                                    (n, get_default n (snd e) [])) fs))).
      { rewrite map_map.
        rewrite (map_ext _ name); [exact Hnd|].
        intros f. apply apply_job_name. }
      destruct ok; rewrite (IH _ _ Hnd'), map_map; reflexivity.
Qed.

Lemma delete_inter_file_files (files : list File)
  (ltd : sdict (sdict (list string))) :
  NoDup (map name files) ->
  fst (delete_inter_file files ltd)
  = map (apply_jobs (flat_map (fun e => jobs_of (snd e)) ltd)) files.
Proof.
  unfold delete_inter_file. generalize (@nil (string * nat)) as c.
  revert files. induction ltd as [|e ltd IH]; intros files c Hnd.
  - cbn [fold_left flat_map fst]. unfold apply_jobs. cbn [fold_left].
    now rewrite map_id.
  - cbn [fold_left flat_map].
    pose proof (delete_for_hash_files files c e Hnd) as He.
    destruct (delete_for_hash (files, c) e) as [fs1 c1].
    cbn [fst] in He. subst fs1.
    rewrite IH by (now rewrite names_apply_jobs).
    rewrite map_map. apply map_ext. intros f.
    unfold apply_jobs. now rewrite fold_left_app.
Qed.

(** *** What a file keeps *)

(** A line stays when no deletion for the file's name lists it. *)
Definition kept (js : list (string * list string)) (n : string)
  (line : string) : bool :=
  forallb
    (fun j => negb (String.eqb n (fst j) && set_mem (PyStr.strip line) (snd j)))
    js.

Definition header_ok (f : File) : Prop :=
  match content f with
  | [] => True
  | header :: _ => PyStr.truthy header = true
  end.

Lemma apply_job_body (f : File) (j : string * list string) :
  header_ok f ->
  header_ok (apply_job f j)
  /\ body (apply_job f j) = filter (kept [j] (name f)) (body f).
Proof.
  unfold header_ok, apply_job, kept, body. cbn [forallb].
  intros Hh. destruct (String.eqb (name f) (fst j)).
  - cbn [with_content content andb]. unfold filtered_rows.
    destruct (content f) as [|header rest]; [split; [exact I|reflexivity]|].
    rewrite Hh. cbn [app tl]. split; [exact Hh|].
    apply filter_ext. intros line. now rewrite andb_true_r.
  - split; [exact Hh|]. symmetry. apply filter_all. reflexivity.
Qed.

Lemma apply_jobs_body (js : list (string * list string)) (f : File) :
  header_ok f ->
  body (apply_jobs js f) = filter (kept js (name f)) (body f).
Proof.
  unfold apply_jobs. revert f. induction js as [|j js IH]; intros f Hh.
  - cbn [fold_left]. symmetry. apply filter_all. reflexivity.
  - cbn [fold_left]. destruct (apply_job_body f j Hh) as [Hh' Hb].
    rewrite (IH _ Hh'), Hb, apply_job_name, filter_twice.
    apply filter_ext. intros line. unfold kept. cbn [forallb].
    now rewrite andb_true_r.
Qed.

Lemma kept_false (js : list (string * list string)) (n line : string) :
  kept js n line = false
  <-> exists j, In j js /\ fst j = n /\ In (PyStr.strip line) (snd j).
Proof.
  unfold kept. induction js as [|j js IH]; cbn [forallb].
  - split; [discriminate|intros [j [[] _]]].
  - rewrite andb_false_iff, IH, negb_false_iff, andb_true_iff,
      String.eqb_eq, set_mem_in.
    split.
    + intros [[E Hin]|[j' [Hj' H]]].
      * exists j. split; [now left|]. split; [now symmetry|exact Hin].
      * exists j'. split; [now right|exact H].
    + intros [j' [[<-|Hj'] [E Hin]]].
      * left. split; [now symmetry|exact Hin].
      * right. exists j'. split; [exact Hj'|]. now split.
Qed.

End InterFile.

(** The second scan of [collect_duplicate_lines_for_deletion] holds, under
    each hash it recorded, the lines of that hash file by file. *)
Lemma collect_collected (xxh64 : string -> N) (config : Config)
  (files : list File) (duplicates_data : sdict (list string)) :
  exists M,
    collected xxh64 config M (items_of files)
      (collect_duplicate_lines_for_deletion xxh64 config files
         duplicates_data).
Proof.
  unfold collect_duplicate_lines_for_deletion. cbv zeta.
  destruct (map fst (filter _ duplicates_data)) as [|p P].
  - exists []. split; [constructor|]. intros h. simpl. discriminate.
  - eexists. apply collected_scan.
Qed.

(** C3, amended.  For every hash under which the pipeline collected lines,
    the first stage keeps the lines of that hash in the file whose basename
    is the smallest in lexicographic order among the files holding the hash,
    and leaves no line of that hash in any other file.  Basenames are
    distinct and no file starts with an empty line. *)
Theorem inter_file_keeps_smallest_name (xxh64 : string -> N)
  (config : Config) (files : list File)
  (duplicates_data : sdict (list string)) (h : string)
  (file_lines_map : sdict (list string)) :
  NoDup (map name files) ->
  (forall f, In f files -> header_ok f) ->
  sget h
    (collect_duplicate_lines_for_deletion xxh64 config files duplicates_data)
  = Some file_lines_map ->
  let keep_file :=
    hd EmptyString (sorted_strings (PyDict.keys file_lines_map)) in
  let files' :=
    fst (delete_inter_file files
           (collect_duplicate_lines_for_deletion xxh64 config files
              duplicates_data)) in
  (forall n,
     In n (PyDict.keys file_lines_map)
     <-> exists f,
           In f files /\ name f = n /\ hash_lines xxh64 config h f <> [])
  /\ In keep_file (PyDict.keys file_lines_map)
  /\ (forall n, In n (PyDict.keys file_lines_map) ->
                String.leb keep_file n = true)
  /\ map name files' = map name files
  /\ forall i f f',
       nth_error files i = Some f -> nth_error files' i = Some f' ->
       hash_lines xxh64 config h f'
       = if String.eqb (name f) keep_file
         then hash_lines xxh64 config h f
         else [].
Proof.
  intros Hnd Hhead Hget. cbv zeta.
  destruct (collect_collected xxh64 config files duplicates_data)
    as [M [HndL Hcol]].
  set (ltd := collect_duplicate_lines_for_deletion xxh64 config files
                duplicates_data) in *.
  set (flm := file_lines_map) in *.
  (* the entries of the collected dictionary *)
  assert (Hentry : forall h' flm', In (h', flm') ltd ->
            NoDup (PyDict.keys flm')
            /\ forall n,
                 match sget n flm' with
                 | None => lines_of xxh64 config (items_of files) h' n = []
                 | Some ls =>
                     ls = lines_of xxh64 config (items_of files) h' n
                     /\ ls <> []
                 end).
  { intros h' flm' Hin.
    pose proof (dget_in String.eqb String.eqb_spec h' flm' ltd HndL Hin)
      as Hg.
    pose proof (Hcol h') as Hh. rewrite Hg in Hh. tauto. }
  pose proof (Hcol h) as Hh. rewrite Hget in Hh.
  destruct Hh as (_ & Hne & Hndf & Hflm).
  (* the sorted names *)
  pose proof (py_sort_perm String.leb (PyDict.keys flm)) as Hperm.
  pose proof (sorted_strings_sorted (PyDict.keys flm)) as Hsorted.
  unfold sorted_strings in *.
  destruct (py_sort String.leb (PyDict.keys flm)) as [|keep dels] eqn:Hsort.
  { apply Permutation_nil in Hperm.
    destruct flm; [congruence|discriminate]. }
  cbn [hd].
  assert (Hnds : NoDup (keep :: dels))
    by (eapply Permutation_NoDup; [apply Permutation_sym, Hperm|exact Hndf]).
  apply NoDup_cons_iff in Hnds. destruct Hnds as [Hkeep_dels _].
  apply StronglySorted_inv in Hsorted. destruct Hsorted as [_ Hle].
  rewrite Forall_forall in Hle.
  (* the names of the dictionary are those of the files holding the hash *)
  assert (Hkeys : forall n,
            In n (PyDict.keys flm)
            <-> exists f, In f files /\ name f = n
                          /\ hash_lines xxh64 config h f <> []).
  { intros n. split.
    - intros Hin. destruct (sget_in_keys n flm Hin) as [ls Hls].
      pose proof (Hflm n) as Hn. rewrite Hls in Hn. destruct Hn as [-> Hnn].
      destruct (in_dec string_dec n (map name files)) as [Hf|Hf].
      + apply in_map_iff in Hf. destruct Hf as [f [<- Hf]].
        exists f. split; [exact Hf|split; [reflexivity|]].
        rewrite (lines_of_items xxh64 config files h f Hnd Hf) in Hnn.
        intros E. rewrite E in Hnn. now apply Hnn.
      + rewrite lines_of_absent in Hnn by exact Hf. now destruct Hnn.
    - intros (f & Hf & <- & Hhl).
      destruct (sget (name f) flm) as [ls|] eqn:Hls.
      + eapply (dget_some_key String.eqb String.eqb_spec), Hls.
      + pose proof (Hflm (name f)) as Hn. rewrite Hls in Hn.
        rewrite (lines_of_items xxh64 config files h f Hnd Hf) in Hn.
        apply map_eq_nil in Hn. contradiction. }
  split; [exact Hkeys|].
  split; [apply (Permutation_in _ Hperm); now left|].
  split.
  { intros n Hin. apply (Permutation_in _ (Permutation_sym Hperm)) in Hin.
    destruct Hin as [<-|Hin]; [apply string_leb_refl|now apply Hle]. }
  rewrite (delete_inter_file_files files ltd Hnd).
  split; [apply names_apply_jobs|].
  intros i f f' Hf Hf'.
  rewrite (map_nth_error _ _ _ Hf) in Hf'. injection Hf' as <-.
  assert (Hin_f : In f files) by (eapply nth_error_In, Hf).
  unfold hash_lines at 1.
  rewrite apply_jobs_body by (apply Hhead, Hin_f).
  rewrite filter_twice.
  set (js := flat_map (fun e => jobs_of (snd e)) ltd).
  set (Q := fun line =>
              PyStr.truthy (PyStr.strip line)
              && String.eqb (line_hash xxh64 config (PyStr.strip line)) h).
  assert (Hjobs : forall j, In j js ->
            exists h' flm',
              In (h', flm') ltd
              /\ In (fst j) (tl (py_sort String.leb (PyDict.keys flm')))
              /\ snd j = get_default (fst j) flm' []).
  { intros j Hj. apply in_flat_map in Hj. destruct Hj as [[h' flm'] [He Hj]].
    unfold jobs_of, sorted_strings in Hj. cbn [snd] in Hj.
    apply in_map_iff in Hj. destruct Hj as [n [<- Hn]].
    exists h', flm'. cbn [fst snd]. auto. }
  destruct (String.eqb_spec (name f) keep) as [Ename|Ename].
  - (* the kept file *)
    apply filter_ext_in. intros line Hline.
    change (kept js (name f) line && Q line = Q line).
    destruct (Q line) eqn:HQ; [|apply andb_false_r].
    rewrite andb_true_r.
    destruct (kept js (name f) line) eqn:Hk; [reflexivity|exfalso].
    apply kept_false in Hk. destruct Hk as (j & Hj & Efst & Hin).
    destruct (Hjobs j Hj) as (h' & flm' & He & Htl & Hsnd).
    rewrite Efst, Ename in Htl. rewrite Hsnd, Efst, Ename in Hin.
    destruct (Hentry h' flm' He) as [_ Hflm'].
    pose proof (Hflm' keep) as Hk. unfold get_default in Hin.
    destruct (sget keep flm') as [ls|]; [|destruct Hin].
    destruct Hk as [-> _]. unfold lines_of in Hin.
    apply in_map_iff in Hin. destruct Hin as [[n s] [Es Hin]].
    cbn [snd] in Es. subst s. apply filter_In in Hin.
    destruct Hin as [_ Hcond]. cbn [fst snd] in Hcond.
    apply andb_true_iff in Hcond. destruct Hcond as [_ Hh'].
    apply String.eqb_eq in Hh'.
    unfold Q in HQ. apply andb_true_iff in HQ. destruct HQ as [_ HQ].
    apply String.eqb_eq in HQ. rewrite HQ in Hh'. subst h'.
    pose proof (dget_in String.eqb String.eqb_spec h flm' ltd HndL He) as Hg.
    rewrite Hget in Hg. injection Hg as <-.
    rewrite Hsort in Htl. cbn [tl] in Htl. contradiction.
  - (* another file *)
    apply filter_none. intros line Hline.
    change (kept js (name f) line && Q line = false).
    destruct (Q line) eqn:HQ; [|apply andb_false_r].
    rewrite andb_true_r. apply kept_false.
    assert (Hhl : In line (hash_lines xxh64 config h f))
      by (apply filter_In; split; [exact Hline|exact HQ]).
    assert (Hkey : In (name f) (PyDict.keys flm)).
    { apply Hkeys. exists f. split; [exact Hin_f|split; [reflexivity|]].
      intros E. rewrite E in Hhl. destruct Hhl. }
    exists (name f, get_default (name f) flm []).
    split; [|split; [reflexivity|]].
    + apply in_flat_map. exists (h, flm).
      split; [apply (dget_some_in String.eqb String.eqb_spec), Hget|].
      unfold jobs_of, sorted_strings. cbn [snd]. rewrite Hsort. cbn [tl].
      apply in_map_iff. exists (name f). split; [reflexivity|].
      apply (Permutation_in _ (Permutation_sym Hperm)) in Hkey.
      destruct Hkey as [E|Hd]; [congruence|exact Hd].
    + cbn [snd]. pose proof (Hflm (name f)) as Hn. unfold get_default.
      rewrite (lines_of_items xxh64 config files h f Hnd Hin_f) in Hn.
      destruct (sget (name f) flm) as [ls|].
      * destruct Hn as [-> _]. now apply in_map.
      * apply map_eq_nil in Hn. rewrite Hn in Hhl. destruct Hhl.
Qed.

(** *** A run of the first stage *)

Definition deleting_config : Config := mkConfig 47 6 ";" 256 true.

(** Two files in a directory; [b.csv] is the smaller one and gets file id
    0, and both hold the line [k;1]. *)
Definition keep_corpus : list File :=
  get_input_files
    (Some [mkEntry true (text_file "a.csv" ["id;v"; "k;1"; "zz;9"]);
           mkEntry true (text_file "b.csv" ["id;v"; "k;1"])]).

Lemma inter_file_keeps_smallest_name_witness :
  let duplicates_data :=
    fast_output fnv1a64 deleting_config keep_corpus [0; 1] in
  let h := "3cf67e1935a7e436" in
  let file_lines_map := [("b.csv", ["k;1"]); ("a.csv", ["k;1"])] in
  let keep_file :=
    hd EmptyString (sorted_strings (PyDict.keys file_lines_map)) in
  let files' :=
    fst (delete_inter_file keep_corpus
           (collect_duplicate_lines_for_deletion fnv1a64 deleting_config
              keep_corpus duplicates_data)) in
  (forall n,
     In n (PyDict.keys file_lines_map)
     <-> exists f,
           In f keep_corpus /\ name f = n
           /\ hash_lines fnv1a64 deleting_config h f <> [])
  /\ In keep_file (PyDict.keys file_lines_map)
  /\ (forall n, In n (PyDict.keys file_lines_map) ->
                String.leb keep_file n = true)
  /\ map name files' = map name keep_corpus
  /\ forall i f f',
       nth_error keep_corpus i = Some f -> nth_error files' i = Some f' ->
       hash_lines fnv1a64 deleting_config h f'
       = if String.eqb (name f) keep_file
         then hash_lines fnv1a64 deleting_config h f
         else [].
Proof.
  cbv zeta.
  apply (inter_file_keeps_smallest_name fnv1a64 deleting_config keep_corpus
           (fast_output fnv1a64 deleting_config keep_corpus [0; 1])
           "3cf67e1935a7e436" [("b.csv", ["k;1"]); ("a.csv", ["k;1"])]).
  - vm_compute. repeat constructor; simpl; intuition discriminate.
  - intros f Hf. vm_compute in Hf.
    destruct Hf as [<-|[<-|[]]]; vm_compute; reflexivity.
  - vm_compute. reflexivity.
Defined.

(** C3, as stated, fails: the file with the smallest file id loses the line
    and the larger file, whose basename sorts first, keeps it. *)
Lemma smallest_file_id_loses_its_lines :
  map name keep_corpus = ["b.csv"; "a.csv"]
  /\ fast_output fnv1a64 deleting_config keep_corpus [0; 1]
     = [("k;1", ["b.csv"; "a.csv"])]
  /\ fst (delete_inter_file keep_corpus
            (collect_duplicate_lines_for_deletion fnv1a64 deleting_config
               keep_corpus
               (fast_output fnv1a64 deleting_config keep_corpus [0; 1])))
     = [text_file "b.csv" ["id;v"];
        text_file "a.csv" ["id;v"; "k;1"; "zz;9"]].
Proof.
  split; [vm_compute; reflexivity|].
  split; vm_compute; reflexivity.
Qed.

(** ** A second run after a deletion *)

(** Two files whose second lines have the same first six fields and differ
    in the seventh. *)
Definition split_corpus : list File :=
  [text_file "a.csv" ["id"; "1;2;3;4;5;6;x"];
   text_file "b.csv" ["id"; "1;2;3;4;5;6;y"]].

(** C2 fails on this corpus.  The two lines have one key and two prefixes;
    the report names one of the prefixes, the search for the lines to delete
    goes by that prefix and meets the hash in one file only.  Nothing is
    deleted, with each of the engines, and a second run reports the
    duplicate again. *)
Lemma deletion_round_trip_fails :
  collect_duplicate_lines_for_deletion fnv1a64 deleting_config split_corpus
    (fast_output fnv1a64 deleting_config split_corpus [0; 1]) = []
  /\ fst (run_strategy_fast fnv1a64 deleting_config split_corpus [0; 1])
     = split_corpus
  /\ fst (run_strategy_safe fnv1a64 deleting_config split_corpus [0; 1]
            [0; 1])
     = split_corpus
  /\ run_strategy_disk fnv1a64 deleting_config 2 split_corpus [0; 1]
     = Done (run_strategy_fast fnv1a64 deleting_config split_corpus [0; 1])
  /\ fast_output fnv1a64 deleting_config
       (fst (run_strategy_fast fnv1a64 deleting_config split_corpus [0; 1]))
       [0; 1]
     = [("1;2;3;4;5;6;x", ["a.csv"; "b.csv"])]
  /\ snd (run_strategy_fast fnv1a64 deleting_config
            (fst (run_strategy_fast fnv1a64 deleting_config split_corpus
                    [0; 1]))
            [0; 1])
     <> write_duplicates [].
Proof.
  split; [vm_compute; reflexivity|].
  split; [vm_compute; reflexivity|].
  split; [vm_compute; reflexivity|].
  split; [vm_compute; reflexivity|].
  split; [vm_compute; reflexivity|].
  vm_compute. intros E. discriminate E.
Qed.

(** ** Exit status *)


(** *** When the merge loop ends *)









Section ExitFacts.

Variable xxh64 : string -> N.




End ExitFacts.




(** * Further properties of the code *)

(** ** What the FAST engine reports, on any corpus *)

Lemma in_keys_sset {V : Type} (k k' : string) (v : V) (d : sdict V) :
  In k' (PyDict.keys (sset k v d)) <-> k' = k \/ In k' (PyDict.keys d).
Proof.
  induction d as [|[k0 v0] d IH]; simpl.
  - split; [intros [H|[]]; auto|intros [H|[]]; auto].
  - destruct (String.eqb_spec k k0) as [->|Hne]; simpl.
    + intuition congruence.
    + rewrite IH. intuition congruence.
Qed.

Lemma emit_loop_keys {X : Type} (emit : X -> option (string * list string))
  (items : list X) (d : sdict (list string)) (k : string) :
  In k (PyDict.keys (emit_loop emit items d))
  <-> In k (PyDict.keys d)
      \/ exists x v, In x items /\ emit x = Some (k, v).
Proof.
  unfold emit_loop. revert d. induction items as [|x items IH]; intros d.
  - simpl. split; [auto|]. intros [H|(x & v & [] & _)]. exact H.
  - cbn [fold_left]. rewrite IH. destruct (emit x) as [[k' v']|] eqn:E.
    + rewrite in_keys_sset. split.
      * intros [[->|H]|(y & v & Hy & Ey)].
        -- right. exists x, v'. split; [now left|exact E].
        -- now left.
        -- right. exists y, v. split; [now right|exact Ey].
      * intros [H|(y & v & [<-|Hy] & Ey)].
        -- left. now right.
        -- left. left. congruence.
        -- right. eauto.
    + split.
      * intros [H|(y & v & Hy & Ey)]; [now left|].
        right. exists y, v. split; [now right|exact Ey].
      * intros [H|(y & v & [<-|Hy] & Ey)]; [now left|congruence|].
        right. eauto.
Qed.

Lemma update_keys {V : Type} (d other : sdict V) (k : string) :
  In k (PyDict.keys (PyDict.update String.eqb d other))
  <-> In k (PyDict.keys d) \/ In k (PyDict.keys other).
Proof.
  unfold PyDict.update. revert d.
  induction other as [|[k' v'] other IH]; intros d; cbn [fold_left].
  - simpl. tauto.
  - rewrite IH, in_keys_sset. simpl. intuition congruence.
Qed.

(** X1.  For a field count that [str.split] accepts, and whatever the
    prefixes of the lines are, every entry of the FAST report stands for a
    hash that occurs more than once: its key is the prefix of a line of that
    hash and its list names the files that hold the hash, in ascending file
    id.  And every hash that occurs more than once has the prefix of one of
    its lines among the keys. *)
Theorem fast_report_sound (xxh64 : string -> N) (config : Config)
  (files : list File) (order : list nat) :
  (- 2 ^ 63 <= hash_fields config < 2 ^ 63)%Z ->
  Permutation order (seq 0 (List.length files)) ->
  (forall p l,
     sget p (fast_output xxh64 config files order) = Some l ->
     exists s,
       In s (all_lines files) /\ line_prefix config s = p
       /\ 1 < total_count xxh64 config files (line_hash xxh64 config s)
       /\ l = map (id_to_file_map files)
                (containing xxh64 config files (line_hash xxh64 config s)))
  /\ (forall s,
        In s (all_lines files) ->
        1 < total_count xxh64 config files (line_hash xxh64 config s) ->
        exists t,
          In t (all_lines files)
          /\ line_hash xxh64 config t = line_hash xxh64 config s
          /\ In (line_prefix config t)
               (PyDict.keys (fast_output xxh64 config files order))).
Proof.
  intros _ Hperm.
  assert (Hnd : NoDup order)
    by (eapply Permutation_NoDup;
        [apply Permutation_sym, Hperm|apply seq_NoDup]).
  assert (Hvalid : forall i, In i order -> i < List.length files).
  { intros i Hi. apply (Permutation_in _ Hperm), in_seq in Hi. lia. }
  destruct (fast_global_spec xxh64 config files order Hnd Hvalid)
    as [HndG HG].
  cbv zeta in HndG, HG.
  unfold fast_output, fast_collect_all.
  set (G := fast_global xxh64 config files order) in *.
  rewrite fast_collect_split.
  assert (HndI : NoDup (PyDict.keys (emit_loop (emit_intra files) G [])))
    by (apply emit_loop_nodup; constructor).
  (* what an entry of the merged dictionary writes *)
  assert (Hemit : forall h p counts, In (h, (p, counts)) G ->
            (exists s, In s (all_lines files)
                       /\ line_hash xxh64 config s = h
                       /\ line_prefix config s = p)
            /\ forall k v,
                 emit_inter files (h, (p, counts)) = Some (k, v)
                 \/ emit_intra files (h, (p, counts)) = Some (k, v) ->
                 k = p /\ 1 < total_count xxh64 config files h
                 /\ v = map (id_to_file_map files)
                          (containing xxh64 config files h)).
  { intros h p counts Hin. pose proof (HG h) as Hh.
    rewrite (dget_in String.eqb String.eqb_spec h _ G HndG Hin) in Hh.
    split; [apply Hh|]. intros k v Hkv.
    destruct (fast_entry_emits xxh64 config files order h p counts Hperm Hh)
      as [Hdup Hsingle]. cbv zeta in Hdup, Hsingle.
    destruct (Nat.le_gt_cases
                (total_count xxh64 config files h) 1) as [Hle|Hgt].
    - destruct (Hsingle Hle) as [E1 E2]. rewrite E1, E2 in Hkv.
      destruct Hkv; discriminate.
    - destruct (Hdup Hgt) as [[E1 E2]|[E1 E2]]; rewrite E1, E2 in Hkv;
        destruct Hkv as [E|E]; try discriminate; injection E as <- <-; auto. }
  split.
  - intros p l Hget. rewrite (sget_update p _ _ HndI) in Hget.
    assert (Hsrc : exists e,
              In e G
              /\ (emit_inter files e = Some (p, l)
                  \/ emit_intra files e = Some (p, l))).
    { destruct (sget p (emit_loop (emit_intra files) G [])) as [l'|] eqn:EI.
      - injection Hget as ->.
        destruct (dget_fold_emit String.eqb String.eqb_spec
                    (emit_intra files) G [] p l) as (H1 & _).
        destruct (H1 EI) as [Habs|[e [He Hl]]]; [discriminate|]. eauto.
      - destruct (dget_fold_emit String.eqb String.eqb_spec
                    (emit_inter files) G [] p l) as (H1 & _).
        destruct (H1 Hget) as [Habs|[e [He Hl]]]; [discriminate|]. eauto. }
    destruct Hsrc as [[h [p' counts]] [He Hl]].
    destruct (Hemit h p' counts He) as [(s & Hs & Hhs & Hps) Hkv].
    destruct (Hkv p l Hl) as (-> & Hdup & ->).
    exists s. subst h. auto.
  - intros s Hs Hdup. pose proof (HG (line_hash xxh64 config s)) as Hh.
    destruct (sget (line_hash xxh64 config s) G) as [[p counts]|] eqn:EG.
    + pose proof (dget_some_in String.eqb String.eqb_spec _ _ _ EG) as Hin.
      destruct Hh as (_ & (t & Ht & Hht & Hpt) & _).
      exists t. split; [exact Ht|split; [exact Hht|]].
      apply update_keys. rewrite !emit_loop_keys.
      pose proof (HG (line_hash xxh64 config s)) as Hg. rewrite EG in Hg.
      destruct (fast_entry_emits xxh64 config files order _ p counts Hperm Hg)
        as [Hemits _]. cbv zeta in Hemits.
      destruct (Hemits Hdup) as [[E _]|[_ E]]; [left|right]; right;
        eexists; eexists; (split; [exact Hin|]); rewrite E, Hpt; reflexivity.
    + simpl in Hh.
      destruct (total_count_pos xxh64 config files
                  (line_hash xxh64 config s)) as [i [Hi Hpos]]; [lia|].
      assert (Hio : In i order)
        by (apply (Permutation_in _ (Permutation_sym Hperm)), in_seq; lia).
      specialize (Hh i Hio). lia.
Qed.

Lemma fast_report_sound_witness :
  (forall p l,
     sget p (fast_output fnv1a64 default_config twin_corpus [1; 0]) = Some l ->
     exists s,
       In s (all_lines twin_corpus) /\ line_prefix default_config s = p
       /\ 1 < total_count fnv1a64 default_config twin_corpus
                (line_hash fnv1a64 default_config s)
       /\ l = map (id_to_file_map twin_corpus)
                (containing fnv1a64 default_config twin_corpus
                   (line_hash fnv1a64 default_config s)))
  /\ (forall s,
        In s (all_lines twin_corpus) ->
        1 < total_count fnv1a64 default_config twin_corpus
              (line_hash fnv1a64 default_config s) ->
        exists t,
          In t (all_lines twin_corpus)
          /\ line_hash fnv1a64 default_config t
             = line_hash fnv1a64 default_config s
          /\ In (line_prefix default_config t)
               (PyDict.keys
                  (fast_output fnv1a64 default_config twin_corpus [1; 0]))).
Proof.
  apply (fast_report_sound fnv1a64 default_config twin_corpus [1; 0]).
  - split; [vm_compute; discriminate|reflexivity].
  - apply perm_swap.
Defined.

(** ** What the SAFE and DISK engines report *)

(** X2.  For a field count that [str.split] accepts, on a corpus in which
    two lines have the same hash exactly when they have the same prefix,
    the SAFE report has one entry for each prefix of a line whose hash
    occurs more than once, and the entry names the files that hold the
    hash, in ascending file id. *)
Theorem safe_report_entries (xxh64 : string -> N) (config : Config)
  (files : list File) (order1 order2 : list nat) :
  (- 2 ^ 63 <= hash_fields config < 2 ^ 63)%Z ->
  (forall s t,
     In s (all_lines files) -> In t (all_lines files) ->
     (line_hash xxh64 config s = line_hash xxh64 config t
      <-> line_prefix config s = line_prefix config t)) ->
  Permutation order1 (seq 0 (List.length files)) ->
  Permutation order2 (seq 0 (List.length files)) ->
  NoDup (PyDict.keys (safe_output xxh64 config files order1 order2))
  /\ forall p l,
       sget p (safe_output xxh64 config files order1 order2) = Some l
       <-> exists s,
             In s (all_lines files) /\ line_prefix config s = p
             /\ 1 < total_count xxh64 config files (line_hash xxh64 config s)
             /\ l = map (id_to_file_map files)
                      (containing xxh64 config files
                         (line_hash xxh64 config s)).
Proof.
  intros _ Hhp H1 H2.
  destruct (safe_output_spec xxh64 config files Hhp order1 order2 H1 H2)
    as [Hnd Hspec].
  split; [exact Hnd|]. intros p l. apply Hspec.
Qed.

Ltac corpus_lines H :=
  vm_compute in H;
  repeat match goal with
         | H' : _ \/ _ |- _ => destruct H' as [<-|H']
         | H' : False |- _ => destruct H'
         end.

Lemma safe_report_entries_witness :
  NoDup (PyDict.keys
           (safe_output fnv1a64 default_config twin_corpus [1; 0] [0; 1]))
  /\ forall p l,
       sget p (safe_output fnv1a64 default_config twin_corpus [1; 0] [0; 1])
       = Some l
       <-> exists s,
             In s (all_lines twin_corpus)
             /\ line_prefix default_config s = p
             /\ 1 < total_count fnv1a64 default_config twin_corpus
                      (line_hash fnv1a64 default_config s)
             /\ l = map (id_to_file_map twin_corpus)
                      (containing fnv1a64 default_config twin_corpus
                         (line_hash fnv1a64 default_config s)).
Proof.
  apply (safe_report_entries fnv1a64 default_config twin_corpus
           [1; 0] [0; 1]).
  - split; [vm_compute; discriminate|reflexivity].
  - intros s t Hs Ht. corpus_lines Hs; corpus_lines Ht;
      (split; intros E; try reflexivity; vm_compute in E; discriminate E).
  - apply perm_swap.
  - apply Permutation_refl.
Defined.

(** X3.  For a field count that [str.split] accepts, on a corpus in which
    two lines have the same hash exactly when they have the same prefix,
    with prefixes that hold no tab, do not end in a blank and are not
    empty, with keys that are not empty and a merge batch size of at least
    two, the DISK engine ends (one merge level per chunk file is enough)
    and its report has one entry for each prefix of a line whose hash
    occurs more than once, which names the files that hold the hash, in
    ascending file id. *)
Theorem disk_report_entries (xxh64 : string -> N) (config : Config)
  (files : list File) (fuel : nat) (order : list nat) :
  (- 2 ^ 63 <= hash_fields config < 2 ^ 63)%Z ->
  (forall s t,
     In s (all_lines files) -> In t (all_lines files) ->
     (line_hash xxh64 config s = line_hash xxh64 config t
      <-> line_prefix config s = line_prefix config t)) ->
  (forall s,
     In s (all_lines files) ->
     PyStr.replace TAB " "%char (line_prefix config s) = line_prefix config s
     /\ PyStr.rstrip (line_prefix config s) = line_prefix config s
     /\ PyStr.truthy (line_prefix config s) = true
     /\ PyStr.truthy
          (normalize_line s (hash_delimiter config) (hash_fields config))
        = true) ->
  (2 <= merge_batch_size config)%Z ->
  Permutation order (seq 0 (List.length files)) ->
  List.length (disk_runs xxh64 config files order) <= fuel ->
  exists output_data,
    disk_output xxh64 config fuel files order = Done output_data
    /\ NoDup (PyDict.keys output_data)
    /\ forall p l,
         sget p output_data = Some l
         <-> exists s,
               In s (all_lines files) /\ line_prefix config s = p
               /\ 1 < total_count xxh64 config files
                        (line_hash xxh64 config s)
               /\ l = map (id_to_file_map files)
                        (containing xxh64 config files
                           (line_hash xxh64 config s)).
Proof.
  intros _ Hhp Hclean Hmbs Hperm Hfuel.
  destruct (disk_output_spec xxh64 config files Hhp
              (fun s Hs => proj1 (Hclean s Hs))
              (fun s Hs => proj1 (proj2 (Hclean s Hs)))
              (fun s Hs => proj1 (proj2 (proj2 (Hclean s Hs))))
              (fun s Hs => proj2 (proj2 (proj2 (Hclean s Hs))))
              fuel order Hmbs Hperm Hfuel)
    as (d & Hd & Hnd & Hspec).
  exists d. split; [exact Hd|]. split; [exact Hnd|].
  intros p l. apply Hspec.
Qed.

Lemma disk_report_entries_witness :
  exists output_data,
    disk_output fnv1a64 default_config 2 twin_corpus [1; 0] = Done output_data
    /\ NoDup (PyDict.keys output_data)
    /\ forall p l,
         sget p output_data = Some l
         <-> exists s,
               In s (all_lines twin_corpus)
               /\ line_prefix default_config s = p
               /\ 1 < total_count fnv1a64 default_config twin_corpus
                        (line_hash fnv1a64 default_config s)
               /\ l = map (id_to_file_map twin_corpus)
                        (containing fnv1a64 default_config twin_corpus
                           (line_hash fnv1a64 default_config s)).
Proof.
  apply (disk_report_entries fnv1a64 default_config twin_corpus 2 [1; 0]).
  - split; [vm_compute; discriminate|reflexivity].
  - intros s t Hs Ht. corpus_lines Hs; corpus_lines Ht;
      (split; intros E; try reflexivity; vm_compute in E; discriminate E).
  - intros s Hs. corpus_lines Hs;
      (split; [|split; [|split]]; vm_compute; reflexivity).
  - vm_compute. discriminate.
  - apply perm_swap.
  - vm_compute. apply le_n.
Defined.

(** ** The merge batch size of the DISK engine *)

Lemma batches_one_length {A : Type} (fuel : nat) (l : list A) :
  List.length l <= fuel -> List.length (batches fuel 1 l) = List.length l.
Proof.
  revert l. induction fuel as [|fuel IH]; intros l Hl.
  - destruct l; [reflexivity|simpl in Hl; lia].
  - destruct l as [|x l]; [reflexivity|].
    cbn [batches firstn skipn List.length]. rewrite IH; [reflexivity|].
    simpl in Hl. lia.
Qed.

Lemma cascade_one (fuel : nat) (runs : list (list string)) :
  2 <= List.length runs -> cascade fuel 1 runs = OutOfFuel.
Proof.
  revert runs. induction fuel as [|fuel IH]; intros runs Hlen.
  - destruct runs as [|a [|b runs]]; simpl in Hlen; try lia. reflexivity.
  - destruct runs as [|a [|b runs]]; simpl in Hlen; try lia.
    cbn [cascade]. unfold merge_level. cbn [Z.eqb Z.ltb Z.compare].
    apply IH. rewrite length_map, batches_one_length by apply le_n.
    simpl. lia.
Qed.

(** X4.  With a merge batch size of one and two chunk files or more, the
    merge loop of the DISK engine never ends: every level merges each file
    alone and leaves as many files as it found. *)
Theorem disk_batch_size_one_never_ends (xxh64 : string -> N)
  (config : Config) (files : list File) (order : list nat) (fuel : nat) :
  merge_batch_size config = 1%Z ->
  2 <= List.length (disk_runs xxh64 config files order) ->
  run_strategy_disk xxh64 config fuel files order = OutOfFuel.
Proof.
  intros Hmbs Hruns. unfold run_strategy_disk, disk_output.
  rewrite Hmbs, cascade_one by exact Hruns. reflexivity.
Qed.

Lemma disk_batch_size_one_never_ends_witness :
  run_strategy_disk fnv1a64 (mkConfig 47 6 ";" 1 false) 1000 twin_corpus
    [0; 1]
  = OutOfFuel.
Proof.
  apply disk_batch_size_one_never_ends.
  - reflexivity.
  - vm_compute. apply le_n.
Defined.

(** X5.  With two chunk files or more, a merge batch size of zero makes
    the merge loop raise, and a negative one makes it drop every chunk
    file: the engine then goes on with empty report data, whatever the
    corpus holds. *)
Theorem disk_nonpositive_batch_size (xxh64 : string -> N) (config : Config)
  (files : list File) (order : list nat) (fuel : nat) :
  2 <= List.length (disk_runs xxh64 config files order) ->
  (merge_batch_size config = 0%Z ->
   run_strategy_disk xxh64 config (S fuel) files order = Raised)
  /\ ((merge_batch_size config < 0)%Z ->
      disk_output xxh64 config (S fuel) files order = Done []).
Proof.
  intros Hruns. unfold run_strategy_disk, disk_output.
  destruct (disk_runs xxh64 config files order) as [|a [|b runs]];
    simpl in Hruns; try lia.
  split.
  - intros ->. reflexivity.
  - intros Hneg. cbn [cascade]. unfold merge_level.
    destruct (Z.eqb_spec (merge_batch_size config) 0) as [E|_]; [lia|].
    apply Z.ltb_lt in Hneg. rewrite Hneg. destruct fuel; reflexivity.
Qed.

Lemma disk_nonpositive_batch_size_witness :
  (merge_batch_size (mkConfig 47 6 ";" (-1) false) = 0%Z ->
   run_strategy_disk fnv1a64 (mkConfig 47 6 ";" (-1) false) 1 twin_corpus
     [0; 1]
   = Raised)
  /\ ((merge_batch_size (mkConfig 47 6 ";" (-1) false) < 0)%Z ->
      disk_output fnv1a64 (mkConfig 47 6 ";" (-1) false) 1 twin_corpus [0; 1]
      = Done []).
Proof.
  apply (disk_nonpositive_batch_size fnv1a64 (mkConfig 47 6 ";" (-1) false)
           twin_corpus [0; 1] 0).
  vm_compute. apply le_n.
Defined.

(** ** The deletion of the duplicates inside a file *)

Lemma set_mem_set_add_iff (h x : string) (s : list string) :
  set_mem h (set_add x s) = true <-> h = x \/ set_mem h s = true.
Proof.
  split; [apply set_mem_set_add|].
  unfold set_add, set_mem. intros [->|H].
  - destruct (existsb (String.eqb x) s) eqn:E; [exact E|].
    rewrite existsb_app. simpl. now rewrite String.eqb_refl, orb_true_r.
  - destruct (existsb (String.eqb x) s); [exact H|].
    rewrite existsb_app, H. reflexivity.
Qed.

Lemma firstn_one_app {A : Type} (l1 l2 : list A) :
  l1 <> [] -> firstn 1 (l1 ++ l2) = firstn 1 l1.
Proof. destruct l1; [congruence|reflexivity]. Qed.

Lemma combine_app_same {A B : Type} (l1 l2 : list A) (m1 m2 : list B) :
  List.length l1 = List.length m1 ->
  combine (l1 ++ l2) (m1 ++ m2) = (combine l1 m1 ++ combine l2 m2)%list.
Proof.
  revert m1. induction l1 as [|x l1 IH]; intros [|y m1] Hlen;
    try discriminate; [reflexivity|].
  simpl. f_equal. apply IH. now injection Hlen.
Qed.

Section IntraFile.

Variable xxh64 : string -> N.
Variable config : Config.

Local Abbreviation lh := (line_hash xxh64 config).

Local Opaque line_hash line_prefix.

(** A line that carries the hash [h]. *)
Definition has_hash (h : string) (line : string) : bool :=
  PyStr.truthy (PyStr.strip line) && String.eqb (lh (PyStr.strip line)) h.

Definition blank (line : string) : bool :=
  negb (PyStr.truthy (PyStr.strip line)).

(** The lines a mask selects. *)
Definition selected (lines : list string) (mask : list bool) : list string :=
  map fst (filter snd (combine lines mask)).

Lemma selected_snoc (lines : list string) (mask : list bool) (x : string)
  (b : bool) :
  List.length mask = List.length lines ->
  selected (lines ++ [x]) (mask ++ [b])
  = (selected lines mask ++ if b then [x] else [])%list.
Proof.
  intros Hlen. unfold selected.
  rewrite combine_app_same by (now symmetry).
  rewrite filter_app, map_app. cbn [combine filter snd].
  destruct b; reflexivity.
Qed.

(** What the loop of [find_and_delete_intrafile_duplicates] holds after the
    lines [pre]. *)
Definition intra_inv (pre : list string)
  (st : list string * list string * nat) : Prop :=
  let '(seen, kept, n) := st in
  (forall h, set_mem h seen = true
             <-> exists line, In line pre /\ has_hash h line = true)
  /\ (forall h, filter (has_hash h) (rev kept)
                = firstn 1 (filter (has_hash h) pre))
  /\ filter blank (rev kept) = filter blank pre
  /\ n + List.length kept = List.length pre
  /\ (exists mask, List.length mask = List.length pre
                   /\ rev kept = selected pre mask)
  /\ (n = 0 -> rev kept = pre).

Lemma intra_inv_step (pre : list string) (x : string)
  (st : list string * list string * nat) :
  intra_inv pre st -> intra_inv (pre ++ [x]) (intra_step xxh64 config st x).
Proof.
  destruct st as [[seen kept] n].
  intros (Hseen & Hfirst & Hblank & Hlen & [mask [Hmask Hsel]] & Hall).
  rewrite intra_step_eq.
  assert (Hq : forall h, has_hash h x
                         = PyStr.truthy (PyStr.strip x)
                           && String.eqb (lh (PyStr.strip x)) h)
    by reflexivity.
  destruct (PyStr.truthy (PyStr.strip x)) eqn:Ht.
  - destruct (set_mem (lh (PyStr.strip x)) seen) eqn:Hmem.
    + (* a hash seen before: the line is dropped *)
      split; [|split; [|split; [|split; [|split]]]].
      * intros h. rewrite Hseen. split.
        -- intros [line [Hin Hl]]. exists line.
           split; [apply in_or_app; now left|exact Hl].
        -- intros [line [Hin Hl]]. apply in_app_or in Hin.
           destruct Hin as [Hin|[<-|[]]]; [eauto|].
           rewrite Hq in Hl. cbn [andb] in Hl. apply String.eqb_eq in Hl.
           subst h. now apply Hseen.
      * intros h. rewrite filter_app, Hfirst. cbn [filter].
        rewrite Hq. cbn [andb].
        destruct (String.eqb_spec (lh (PyStr.strip x)) h) as [<-|_];
          [|now rewrite app_nil_r].
        symmetry. apply firstn_one_app.
        apply Hseen in Hmem. destruct Hmem as [line [Hin Hl]].
        intros E.
        assert (Hf : In line (filter (has_hash (lh (PyStr.strip x))) pre))
          by (apply filter_In; auto).
        rewrite E in Hf. destruct Hf.
      * rewrite filter_app, Hblank. cbn [filter]. unfold blank at 3.
        rewrite Ht. cbn [negb]. now rewrite app_nil_r.
      * rewrite length_app. simpl. lia.
      * exists (mask ++ [false])%list. split.
        -- rewrite !length_app. simpl. lia.
        -- rewrite selected_snoc by exact Hmask.
           now rewrite app_nil_r.
      * discriminate.
    + (* a new hash: the line is kept *)
      split; [|split; [|split; [|split; [|split]]]].
      * intros h. rewrite set_mem_set_add_iff, Hseen. split.
        -- intros [->|[line [Hin Hl]]].
           ++ exists x. split; [apply in_or_app; right; now left|].
              rewrite Hq. cbn [andb]. apply String.eqb_refl.
           ++ exists line. split; [apply in_or_app; now left|exact Hl].
        -- intros [line [Hin Hl]]. apply in_app_or in Hin.
           destruct Hin as [Hin|[<-|[]]]; [right; eauto|].
           left. rewrite Hq in Hl. cbn [andb] in Hl.
           apply String.eqb_eq in Hl. now symmetry.
      * intros h. cbn [rev]. rewrite !filter_app, Hfirst. cbn [filter].
        rewrite Hq. cbn [andb].
        destruct (String.eqb_spec (lh (PyStr.strip x)) h) as [<-|_];
          [|now rewrite !app_nil_r].
        assert (Hnone : filter (has_hash (lh (PyStr.strip x))) pre = []).
        { apply filter_none. intros line Hin.
          destruct (has_hash (lh (PyStr.strip x)) line) eqn:Hl;
            [|reflexivity].
          assert (set_mem (lh (PyStr.strip x)) seen = true)
            by (apply Hseen; eauto).
          congruence. }
        rewrite Hnone. reflexivity.
      * cbn [rev]. rewrite !filter_app, Hblank. cbn [filter].
        unfold blank at 2 4. rewrite Ht. reflexivity.
      * rewrite length_app. simpl. lia.
      * exists (mask ++ [true])%list. split.
        -- rewrite !length_app. simpl. lia.
        -- cbn [rev]. rewrite selected_snoc by exact Hmask.
           now rewrite Hsel.
      * intros Hn. cbn [rev]. now rewrite (Hall Hn).
  - (* a blank line is kept *)
    split; [|split; [|split; [|split; [|split]]]].
    + intros h. rewrite Hseen. split.
      * intros [line [Hin Hl]]. exists line.
        split; [apply in_or_app; now left|exact Hl].
      * intros [line [Hin Hl]]. apply in_app_or in Hin.
        destruct Hin as [Hin|[<-|[]]]; [eauto|].
        rewrite Hq in Hl. discriminate.
    + intros h. cbn [rev]. rewrite !filter_app, Hfirst. cbn [filter].
      rewrite Hq. cbn [andb]. now rewrite !app_nil_r.
    + cbn [rev]. rewrite !filter_app, Hblank. cbn [filter].
      unfold blank at 2 4. rewrite Ht. reflexivity.
    + rewrite length_app. simpl. lia.
    + exists (mask ++ [true])%list. split.
      * rewrite !length_app. simpl. lia.
      * cbn [rev]. rewrite selected_snoc by exact Hmask. now rewrite Hsel.
    + intros Hn. cbn [rev]. now rewrite (Hall Hn).
Qed.

End IntraFile.

(** The result of [find_and_delete_intrafile_duplicates], from the state
    in which its loop ends. *)
Lemma find_and_delete_intrafile_duplicates_result (xxh64 : string -> N)
  (config : Config) (f : File) :
  header_ok f ->
  exists seen kept n,
    intra_inv xxh64 config (body f) (seen, kept, n)
    /\ find_and_delete_intrafile_duplicates xxh64 config (content f)
       = (match content f with
          | header :: _ => header :: rev kept
          | [] => rev kept
          end, n).
Proof.
  intros Hhead.
  unfold find_and_delete_intrafile_duplicates, header_ok, body in *.
  cbv zeta.
  pose proof (fold_left_prefix_inv (intra_step xxh64 config)
                (intra_inv xxh64 config) (tl (content f)) ([], [], 0))
    as Hinv.
  destruct (fold_left (intra_step xxh64 config) (tl (content f)) ([], [], 0))
    as [[seen kept] n].
  exists seen, kept, n.
  assert (Hi : intra_inv xxh64 config (tl (content f)) (seen, kept, n)).
  { apply Hinv.
    - split; [|split; [|split; [|split; [|split]]]]; try reflexivity.
      + intros h. split; [discriminate|intros [line [[] _]]].
      + exists []. split; reflexivity.
    - intros pre x acc. apply intra_inv_step. }
  split; [exact Hi|].
  destruct Hi as (_ & _ & _ & _ & _ & Hall).
  destruct (0 <? n)%nat eqn:Hn.
  - destruct (content f) as [|header rest]; [reflexivity|].
    now rewrite Hhead.
  - apply Nat.ltb_ge in Hn. assert (n = 0) as -> by lia.
    rewrite (Hall eq_refl). now destruct (content f).
Qed.

(** X6.  For a field count that [str.split] accepts,
    [find_and_delete_intrafile_duplicates] keeps the header, every blank
    line and, of the lines of each hash, the first one; the lines it
    keeps stay in their order, and the number it returns is the number of
    lines it removed.  The file does not start with an empty line. *)
Theorem intrafile_deletion_keeps_first_occurrences (xxh64 : string -> N)
  (config : Config) (f : File) :
  (- 2 ^ 63 <= hash_fields config < 2 ^ 63)%Z ->
  header_ok f ->
  let result :=
    find_and_delete_intrafile_duplicates xxh64 config (content f) in
  let f' := with_content f (fst result) in
  hd_error (content f') = hd_error (content f)
  /\ (forall h,
        filter (has_hash xxh64 config h) (body f')
        = firstn 1 (filter (has_hash xxh64 config h) (body f)))
  /\ filter blank (body f') = filter blank (body f)
  /\ (exists mask,
        List.length mask = List.length (body f)
        /\ body f' = selected (body f) mask)
  /\ snd result + List.length (content f') = List.length (content f).
Proof.
  intros _ Hhead. cbv zeta.
  destruct (find_and_delete_intrafile_duplicates_result xxh64 config f Hhead)
    as (seen & kept & n & Hinv & ->).
  destruct Hinv as (_ & Hfirst & Hblank & Hlen & Hmask & _).
  unfold body in *. cbn [fst snd with_content content].
  destruct (content f) as [|header rest]; cbn [tl hd_error List.length] in *.
  - destruct Hmask as [mask [Hm Hsel]].
    assert (Hk : rev kept = []).
    { destruct mask; [|discriminate]. exact Hsel. }
    rewrite Hk in *. cbn [tl]. split; [reflexivity|].
    split; [exact Hfirst|]. split; [exact Hblank|].
    split; [exists []; split; reflexivity|].
    rewrite <- (length_rev kept), Hk in Hlen. exact Hlen.
  - split; [reflexivity|]. split; [exact Hfirst|]. split; [exact Hblank|].
    split; [exact Hmask|]. rewrite length_rev. lia.
Qed.

Lemma intrafile_deletion_keeps_first_occurrences_witness :
  let f := text_file "a.csv" ["id;v"; "k1;v"; ""; "k2;w"; "k1;v"] in
  let result :=
    find_and_delete_intrafile_duplicates fnv1a64 default_config (content f) in
  let f' := with_content f (fst result) in
  hd_error (content f') = hd_error (content f)
  /\ (forall h,
        filter (has_hash fnv1a64 default_config h) (body f')
        = firstn 1 (filter (has_hash fnv1a64 default_config h) (body f)))
  /\ filter blank (body f') = filter blank (body f)
  /\ (exists mask,
        List.length mask = List.length (body f)
        /\ body f' = selected (body f) mask)
  /\ snd result + List.length (content f') = List.length (content f).
Proof.
  cbv zeta.
  apply (intrafile_deletion_keeps_first_occurrences fnv1a64 default_config
           (text_file "a.csv" ["id;v"; "k1;v"; ""; "k2;w"; "k1;v"])).
  - split; [vm_compute; discriminate|reflexivity].
  - vm_compute. reflexivity.
Defined.

(** ** [count_intrafile_duplicates] *)

(** The body of the loop: the hashes seen and the number of lines whose
    hash was seen before. *)
Definition count_step (xxh64 : string -> N) (config : Config)
  (st : list string * nat) (line : string) : list string * nat :=
  let '(seen_hashes, duplicate_count) := st in
  let stripped_line := PyStr.strip line in
  if negb (PyStr.truthy stripped_line) then st
  else
    let h := line_hash xxh64 config stripped_line in
    if set_mem h seen_hashes then (seen_hashes, S duplicate_count)
    else (set_add h seen_hashes, duplicate_count).

Definition count_intrafile_duplicates (xxh64 : string -> N)
  (config : Config) (original : list string) : nat :=
  snd (fold_left (count_step xxh64 config) (tl original) ([], 0)).

Lemma count_step_intra_step (xxh64 : string -> N) (config : Config)
  (lines seen kept : list string) (n : nat) :
  fold_left (count_step xxh64 config) lines (seen, n)
  = (fst (fst (fold_left (intra_step xxh64 config) lines (seen, kept, n))),
     snd (fold_left (intra_step xxh64 config) lines (seen, kept, n))).
Proof.
  revert seen kept n.
  induction lines as [|line lines IH]; intros seen kept n; [reflexivity|].
  cbn [fold_left]. rewrite intra_step_eq. unfold count_step.
  destruct (PyStr.truthy (PyStr.strip line)); cbn [negb]; [|apply IH].
  cbv zeta. destruct (set_mem _ seen); apply IH.
Qed.

(** X7.  [count_intrafile_duplicates] counts the lines that
    [find_and_delete_intrafile_duplicates] removes. *)
Theorem count_intrafile_duplicates_is_deleted_count (xxh64 : string -> N)
  (config : Config) (original : list string) :
  count_intrafile_duplicates xxh64 config original
  = snd (find_and_delete_intrafile_duplicates xxh64 config original).
Proof.
  unfold count_intrafile_duplicates, find_and_delete_intrafile_duplicates.
  cbv zeta. rewrite (count_step_intra_step xxh64 config _ [] [] 0).
  destruct (fold_left (intra_step xxh64 config) (tl original) ([], [], 0))
    as [[seen kept] n].
  cbn [fst snd]. destruct (0 <? n)%nat; reflexivity.
Qed.

(** ** The lines collected for deletion *)

(** X8.  Under a hash, [collect_duplicate_lines_for_deletion] lists for a
    file name the stripped lines of that hash in the file of that name, in
    their order, and it lists every file that holds the hash.  Basenames
    are distinct. *)
Theorem collected_lines_are_the_hash_lines (xxh64 : string -> N)
  (config : Config) (files : list File)
  (duplicates_data : sdict (list string)) (h : string)
  (file_lines_map : sdict (list string)) :
  NoDup (map name files) ->
  sget h
    (collect_duplicate_lines_for_deletion xxh64 config files duplicates_data)
  = Some file_lines_map ->
  (forall n ls,
     sget n file_lines_map = Some ls ->
     exists f,
       In f files /\ name f = n
       /\ ls = map PyStr.strip (hash_lines xxh64 config h f) /\ ls <> [])
  /\ (forall f,
        In f files -> hash_lines xxh64 config h f <> [] ->
        sget (name f) file_lines_map
        = Some (map PyStr.strip (hash_lines xxh64 config h f))).
Proof.
  intros Hnd Hget.
  destruct (collect_collected xxh64 config files duplicates_data)
    as [M [_ Hcol]].
  pose proof (Hcol h) as Hh. rewrite Hget in Hh.
  destruct Hh as (_ & _ & _ & Hflm).
  split.
  - intros n ls Hls. pose proof (Hflm n) as Hn. rewrite Hls in Hn.
    destruct Hn as [-> Hne].
    destruct (in_dec string_dec n (map name files)) as [Hin|Hout].
    + apply in_map_iff in Hin. destruct Hin as [f [<- Hf]].
      exists f. split; [exact Hf|]. split; [reflexivity|].
      split; [|exact Hne]. now apply lines_of_items.
    + rewrite lines_of_absent in Hne by exact Hout. now destruct Hne.
  - intros f Hf Hhl. pose proof (Hflm (name f)) as Hn.
    rewrite (lines_of_items xxh64 config files h f Hnd Hf) in Hn.
    destruct (sget (name f) file_lines_map) as [ls|].
    + destruct Hn as [-> _]. reflexivity.
    + apply map_eq_nil in Hn. contradiction.
Qed.

Lemma collected_lines_are_the_hash_lines_witness :
  let duplicates_data :=
    fast_output fnv1a64 deleting_config keep_corpus [0; 1] in
  let h := "3cf67e1935a7e436" in
  let file_lines_map := [("b.csv", ["k;1"]); ("a.csv", ["k;1"])] in
  (forall n ls,
     sget n file_lines_map = Some ls ->
     exists f,
       In f keep_corpus /\ name f = n
       /\ ls = map PyStr.strip (hash_lines fnv1a64 deleting_config h f)
       /\ ls <> [])
  /\ (forall f,
        In f keep_corpus -> hash_lines fnv1a64 deleting_config h f <> [] ->
        sget (name f) file_lines_map
        = Some (map PyStr.strip (hash_lines fnv1a64 deleting_config h f))).
Proof.
  cbv zeta.
  apply (collected_lines_are_the_hash_lines fnv1a64 deleting_config
           keep_corpus
           (fast_output fnv1a64 deleting_config keep_corpus [0; 1])).
  - vm_compute. repeat constructor; simpl; intuition discriminate.
  - vm_compute. reflexivity.
Defined.

(** ** What the first deletion stage leaves alone *)

Lemma apply_jobs_header (js : list (string * list string)) (f : File) :
  header_ok f -> hd_error (content (apply_jobs js f)) = hd_error (content f).
Proof.
  unfold apply_jobs. revert f. induction js as [|j js IH]; intros f Hh;
    [reflexivity|].
  cbn [fold_left]. destruct (apply_job_body f j Hh) as [Hh' _].
  rewrite (IH _ Hh'). unfold apply_job.
  destruct (String.eqb (name f) (fst j)); [|reflexivity].
  cbn [with_content content]. unfold filtered_rows, header_ok in *.
  destruct (content f) as [|header rest]; [reflexivity|].
  now rewrite Hh.
Qed.

Lemma lines_of_truthy (xxh64 : string -> N) (config : Config)
  (files : list File) (h n s : string) :
  In s (lines_of xxh64 config (items_of files) h n) -> PyStr.truthy s = true.
Proof.
  unfold lines_of. intros Hin. apply in_map_iff in Hin.
  destruct Hin as [[m s'] [<- Hin]]. apply filter_In in Hin.
  destruct Hin as [Hin _]. unfold items_of in Hin.
  apply in_flat_map in Hin. destruct Hin as [f [_ Hin]].
  apply in_map_iff in Hin. destruct Hin as [t [[= _ <-] Ht]].
  unfold data_lines in Ht. apply filter_In in Ht. apply Ht.
Qed.

(** X9.  The first deletion stage, run on the lines collected for it, keeps
    the names and the number of the files, the header and every blank line
    of each file, and adds no line and moves none: what is left of a file
    is a selection of its lines.  Basenames are distinct and no file starts
    with an empty line. *)
Theorem inter_file_deletion_only_drops_data_lines (xxh64 : string -> N)
  (config : Config) (files : list File)
  (duplicates_data : sdict (list string)) :
  NoDup (map name files) ->
  (forall f, In f files -> header_ok f) ->
  let files' :=
    fst (delete_inter_file files
           (collect_duplicate_lines_for_deletion xxh64 config files
              duplicates_data)) in
  map name files' = map name files
  /\ forall i f f',
       nth_error files i = Some f -> nth_error files' i = Some f' ->
       hd_error (content f') = hd_error (content f)
       /\ filter blank (body f') = filter blank (body f)
       /\ exists keep, body f' = filter keep (body f).
Proof.
  intros Hnd Hhead. cbv zeta.
  destruct (collect_collected xxh64 config files duplicates_data)
    as [M [HndL Hcol]].
  set (ltd := collect_duplicate_lines_for_deletion xxh64 config files
                duplicates_data) in *.
  rewrite (delete_inter_file_files files ltd Hnd).
  split; [apply names_apply_jobs|].
  intros i f f' Hf Hf'.
  rewrite (map_nth_error _ _ _ Hf) in Hf'. injection Hf' as <-.
  assert (Hok : header_ok f) by (eapply Hhead, nth_error_In, Hf).
  split; [now apply apply_jobs_header|].
  rewrite (apply_jobs_body _ f Hok).
  split; [|eexists; reflexivity].
  rewrite filter_twice. apply filter_ext_in. intros line _.
  destruct (blank line) eqn:Hb; [|apply andb_false_r].
  rewrite andb_true_r.
  destruct (kept _ (name f) line) eqn:Hk; [reflexivity|exfalso].
  apply kept_false in Hk. destruct Hk as (j & Hj & _ & Hin).
  apply in_flat_map in Hj. destruct Hj as [[h flm] [He Hj]].
  unfold jobs_of in Hj. cbn [snd] in Hj. apply in_map_iff in Hj.
  destruct Hj as [n [<- _]]. cbn [snd] in Hin.
  pose proof (Hcol h) as Hh.
  rewrite (dget_in String.eqb String.eqb_spec h flm ltd HndL He) in Hh.
  destruct Hh as (_ & _ & _ & Hflm). pose proof (Hflm n) as Hn.
  unfold get_default in Hin.
  destruct (sget n flm) as [ls|]; [|destruct Hin].
  destruct Hn as [-> _]. apply lines_of_truthy in Hin.
  unfold blank in Hb. rewrite Hin in Hb. discriminate.
Qed.

Lemma inter_file_deletion_only_drops_data_lines_witness :
  let files' :=
    fst (delete_inter_file keep_corpus
           (collect_duplicate_lines_for_deletion fnv1a64 deleting_config
              keep_corpus
              (fast_output fnv1a64 deleting_config keep_corpus [0; 1]))) in
  map name files' = map name keep_corpus
  /\ forall i f f',
       nth_error keep_corpus i = Some f -> nth_error files' i = Some f' ->
       hd_error (content f') = hd_error (content f)
       /\ filter blank (body f') = filter blank (body f)
       /\ exists keep, body f' = filter keep (body f).
Proof.
  cbv zeta.
  apply (inter_file_deletion_only_drops_data_lines fnv1a64 deleting_config
           keep_corpus
           (fast_output fnv1a64 deleting_config keep_corpus [0; 1])).
  - vm_compute. repeat constructor; simpl; intuition discriminate.
  - intros f Hf. vm_compute in Hf.
    destruct Hf as [<-|[<-|[]]]; vm_compute; reflexivity.
Defined.

(** ** The lines of the chunk files *)

(** X10.  A record that phase 1 of the DISK engine writes is read back by
    phase 3 as it was written: the grouping key is the hash, and the loop
    over a group adds the file id and takes the prefix.  The prefix is not
    empty and does not end in a blank. *)
Theorem chunk_line_round_trip (n : N) (fid : nat) (pref : string)
  (file_ids : list nat) :
  PyStr.rstrip pref = pref -> PyStr.truthy pref = true ->
  run_key (disk_line (hexdigest n, fid, pref)) = hexdigest n
  /\ PyStr.split_max TAB 2 (PyStr.strip (disk_line (hexdigest n, fid, pref)))
     = [hexdigest n; PyStr.str_of_nat fid; pref]
  /\ group_step (file_ids, EmptyString) (disk_line (hexdigest n, fid, pref))
     = (nat_set_add fid file_ids, pref).
Proof.
  intros Hstrip Hne. split; [apply run_key_line|].
  split; [now apply split_line|].
  rewrite group_step_line by assumption. reflexivity.
Qed.

Lemma chunk_line_round_trip_witness :
  run_key (disk_line (hexdigest 2024, 3, "k1;v")) = hexdigest 2024
  /\ PyStr.split_max TAB 2
       (PyStr.strip (disk_line (hexdigest 2024, 3, "k1;v")))
     = [hexdigest 2024; PyStr.str_of_nat 3; "k1;v"]
  /\ group_step ([0], EmptyString) (disk_line (hexdigest 2024, 3, "k1;v"))
     = (nat_set_add 3 [0], "k1;v").
Proof.
  apply (chunk_line_round_trip 2024 3 "k1;v" [0]); reflexivity.
Defined.

(** ** The report and the order of its entries *)

(** X11.  The report does not depend on the order in which the entries
    were put into the dictionary: two dictionaries that map the same
    prefixes to the same lists are written alike. *)
Theorem write_duplicates_ignores_insertion_order
  (d1 d2 : sdict (list string)) :
  NoDup (PyDict.keys d1) -> NoDup (PyDict.keys d2) ->
  (forall prefix, sget prefix d1 = sget prefix d2) ->
  write_duplicates d1 = write_duplicates d2.
Proof.
  intros N1 N2 H. apply write_duplicates_same.
  split; [exact N1|]. split; [exact N2|exact H].
Qed.

Lemma write_duplicates_ignores_insertion_order_witness :
  write_duplicates [("k2", ["b.csv"; "a.csv"]); ("k1", ["c.csv"])]
  = write_duplicates [("k1", ["c.csv"]); ("k2", ["b.csv"; "a.csv"])].
Proof.
  apply write_duplicates_ignores_insertion_order.
  - repeat constructor; simpl; intuition discriminate.
  - repeat constructor; simpl; intuition discriminate.
  - intros prefix. simpl.
    destruct (String.eqb_spec prefix "k2") as [->|_]; [reflexivity|].
    destruct (String.eqb prefix "k1"); reflexivity.
Defined.

(** X12.  [delete_duplicate_rows] loses no entry of the report: every
    prefix of the report data is a prefix of the data it returns, and a
    prefix it adds is the entry made for a file with duplicates inside. *)
Theorem delete_duplicate_rows_keeps_prefixes (xxh64 : string -> N)
  (config : Config) (files : list File)
  (lines_to_delete : sdict (sdict (list string)))
  (duplicates_data : sdict (list string)) (prefix : string) :
  let modified :=
    snd (delete_duplicate_rows xxh64 config files lines_to_delete
           duplicates_data) in
  (In prefix (PyDict.keys duplicates_data) ->
   In prefix (PyDict.keys modified))
  /\ (In prefix (PyDict.keys modified) ->
      In prefix (PyDict.keys duplicates_data)
      \/ exists filename, prefix = dummy_prefix filename).
Proof.
  cbv zeta. unfold delete_duplicate_rows.
  destruct (delete_inter_file files lines_to_delete) as [files1 inter].
  destruct (delete_intra_file xxh64 config files1) as [files2 intra].
  cbv zeta. cbn [snd].
  rewrite <- (keys_map_values (annotate inter intra) duplicates_data)
    by apply annotate_key.
  generalize (map (annotate inter intra) duplicates_data) as data.
  induction intra as [|[filename n] intra IH]; intros data; cbn [fold_left].
  - split; [auto|]. intros H. now left.
  - destruct (IH (add_unlisted data (filename, n))) as [IH1 IH2].
    assert (Hstep : forall k,
              In k (PyDict.keys (add_unlisted data (filename, n)))
              <-> In k (PyDict.keys data)
                  \/ (k = dummy_prefix filename
                      /\ In k (PyDict.keys
                                 (add_unlisted data (filename, n))))).
    { intros k. unfold add_unlisted. cbv zeta.
      destruct (0 <? n)%nat; [|tauto].
      destruct (existsb _ (PyDict.values data)); [tauto|].
      rewrite in_keys_sset. tauto. }
    split.
    + intros H. apply IH1, Hstep. now left.
    + intros H. destruct (IH2 H) as [H'|H']; [|now right].
      apply Hstep in H'. destruct H' as [H'|[-> _]]; [now left|].
      right. now exists filename.
Qed.

(** ** A corpus in which no hash comes twice *)

Lemma emit_loop_none {X : Type} (emit : X -> option (string * list string))
  (items : list X) (d : sdict (list string)) :
  (forall x, In x items -> emit x = None) -> emit_loop emit items d = d.
Proof.
  unfold emit_loop. revert d. induction items as [|x items IH]; intros d H;
    [reflexivity|].
  cbn [fold_left]. rewrite (H x (or_introl eq_refl)).
  apply IH. intros y Hy. apply H. now right.
Qed.

Lemma list_sum_nth_error {A : Type} (g : option A -> nat) (l : list A) :
  list_sum (map (fun i => g (nth_error l i)) (seq 0 (List.length l)))
  = list_sum (map (fun a => g (Some a)) l).
Proof.
  induction l as [|a l IH]; [reflexivity|].
  cbn [List.length seq map list_sum fold_right nth_error].
  rewrite <- seq_shift, map_map. cbn [nth_error].
  unfold list_sum in IH. now rewrite IH.
Qed.

Lemma total_count_all_lines (xxh64 : string -> N) (config : Config)
  (files : list File) (h : string) :
  total_count xxh64 config files h
  = occurrences xxh64 config h (all_lines files).
Proof.
  unfold total_count, file_count.
  rewrite (list_sum_nth_error
             (fun o => match o with
                       | Some f => occurrences xxh64 config h (data_lines f)
                       | None => 0
                       end) files).
  unfold all_lines. induction files as [|f files IH]; [reflexivity|].
  cbn [map list_sum fold_right flat_map]. rewrite occurrences_app.
  unfold list_sum in IH. now rewrite IH.
Qed.

Lemma occurrences_nodup (xxh64 : string -> N) (config : Config)
  (h : string) (lines : list string) :
  NoDup (map (line_hash xxh64 config) lines) ->
  occurrences xxh64 config h lines <= 1.
Proof.
  unfold occurrences. induction lines as [|s lines IH]; intros Hnd;
    [simpl; lia|].
  cbn [map] in Hnd. apply NoDup_cons_iff in Hnd. destruct Hnd as [Hs Hnd].
  cbn [filter].
  destruct (String.eqb_spec (line_hash xxh64 config s) h) as [E|_];
    [|now apply IH].
  cbn [List.length].
  rewrite filter_none; [simpl; lia|].
  intros t Ht.
  destruct (String.eqb_spec (line_hash xxh64 config t) h) as [E'|_];
    [|reflexivity].
  exfalso. apply Hs. rewrite E, <- E'. now apply in_map.
Qed.

(** Without a hash that occurs twice the FAST engine has no report data. *)
Lemma fast_output_without_duplicates (xxh64 : string -> N) (config : Config)
  (files : list File) (order : list nat) :
  Permutation order (seq 0 (List.length files)) ->
  (forall h, total_count xxh64 config files h <= 1) ->
  fast_output xxh64 config files order = [].
Proof.
  intros Hpf Hnone.
  assert (Hnd : NoDup order)
    by (eapply Permutation_NoDup;
        [apply Permutation_sym, Hpf|apply seq_NoDup]).
  assert (Hvalid : forall i, In i order -> i < List.length files).
  { intros i Hi. apply (Permutation_in _ Hpf), in_seq in Hi. lia. }
  destruct (fast_global_spec xxh64 config files order Hnd Hvalid)
    as [HndG HG]. cbv zeta in HndG, HG.
  unfold fast_output, fast_collect_all. rewrite fast_collect_split.
  assert (Hsilent : forall e,
            In e (fast_global xxh64 config files order) ->
            emit_inter files e = None /\ emit_intra files e = None).
  { intros [h [p counts]] He. pose proof (HG h) as Hh.
    rewrite (dget_in String.eqb String.eqb_spec h _ _ HndG He) in Hh.
    destruct (fast_entry_emits xxh64 config files order h p counts
                Hpf Hh) as [_ Hsingle].
    apply Hsingle, Hnone. }
  rewrite !emit_loop_none by (intros e He; now apply Hsilent).
  reflexivity.
Qed.

(** X13.  When no two lines of the corpus (after the headers, blank lines
    aside) have the same hash, the FAST and the SAFE engine leave every
    file as it is, with the deletion switched on as well, and write the
    report of no duplicates; the prefixes of the lines play no part. *)
Theorem no_duplicates_nothing_changes (xxh64 : string -> N)
  (config : Config) (files : list File)
  (order_fast order_safe1 order_safe2 : list nat) :
  NoDup (map (line_hash xxh64 config) (all_lines files)) ->
  Permutation order_fast (seq 0 (List.length files)) ->
  Permutation order_safe1 (seq 0 (List.length files)) ->
  run_strategy_fast xxh64 config files order_fast
  = (files, [(NO_DUPLICATES ++ NL)%string])
  /\ run_strategy_safe xxh64 config files order_safe1 order_safe2
     = (files, [(NO_DUPLICATES ++ NL)%string]).
Proof.
  intros Huniq Hpf Hps.
  assert (Hnone : forall h, total_count xxh64 config files h <= 1).
  { intros h. rewrite total_count_all_lines.
    now apply occurrences_nodup. }
  split.
  - unfold run_strategy_fast. cbv zeta.
    rewrite (fast_output_without_duplicates xxh64 config files order_fast
               Hpf Hnone).
    now apply finish_nothing.
  - unfold run_strategy_safe. cbv zeta.
    destruct (safe_duplicate_hashes
                (safe_counts xxh64 config files order_safe1))
      as [|h D] eqn:ED; [reflexivity|exfalso].
    pose proof (safe_duplicate_hashes_spec xxh64 config files order_safe1 h
                  Hps) as Hh.
    rewrite ED in Hh. unfold set_mem in Hh. cbn [existsb] in Hh.
    rewrite String.eqb_refl in Hh. cbn [orb] in Hh. symmetry in Hh.
    apply Nat.ltb_lt in Hh. specialize (Hnone h). lia.
Qed.

(** Two files whose lines have three keys. *)
Definition distinct_corpus : list File :=
  [text_file "a.csv" ["id;v"; "k1;v"; ""; "k3;v"];
   text_file "b.csv" ["id;v"; "k2;w"]].

Lemma no_duplicates_nothing_changes_witness :
  run_strategy_fast fnv1a64 deleting_config distinct_corpus [1; 0]
  = (distinct_corpus, [(NO_DUPLICATES ++ NL)%string])
  /\ run_strategy_safe fnv1a64 deleting_config distinct_corpus [1; 0] [0; 1]
     = (distinct_corpus, [(NO_DUPLICATES ++ NL)%string]).
Proof.
  apply no_duplicates_nothing_changes.
  - vm_compute. repeat constructor; simpl; intuition discriminate.
  - apply perm_swap.
  - apply perm_swap.
Defined.

(** ** Keys of short lines, and no keys at all *)

(** X14.  For a positive [count] that [str.split] accepts, a line with at
    most [count] fields is its own key once trimmed: nothing is cut off. *)
Theorem normalize_line_short_line (line : string) (delimiter : ascii)
  (count : Z) :
  (0 < count < 2 ^ 63)%Z ->
  List.length (PyStr.fields delimiter (PyStr.strip line)) <= Z.to_nat count ->
  normalize_line line delimiter count = PyStr.strip line.
Proof.
  intros Hpos Hlen.
  unfold normalize_line, PyStr.split, PyStr.slice_to.
  assert (Hneg : (count <? 0)%Z = false) by (apply Z.ltb_ge; lia).
  rewrite Hneg, firstn_split_fields, firstn_all2 by exact Hlen.
  unfold PyStr.fields. apply join_split_max.
Qed.

Lemma normalize_line_short_line_witness :
  normalize_line "  a;b;c  " ";" 6 = PyStr.strip "  a;b;c  ".
Proof.
  apply normalize_line_short_line.
  - split; reflexivity.
  - vm_compute. repeat constructor.
Defined.

Lemma disk_chunk_without_keys (xxh64 : string -> N) (config : Config)
  (fid : nat) (lines : list string) :
  hash_fields config = 0%Z -> disk_chunk xxh64 config fid lines = [].
Proof.
  intros Hf. unfold disk_chunk. cbv zeta.
  assert (Hnone : filter_some (map (disk_record xxh64 config fid) lines)
                  = []).
  { induction lines as [|line lines IH]; [reflexivity|].
    cbn [map]. rewrite disk_record_eq, Hf.
    destruct (PyStr.truthy (PyStr.strip line)); exact IH. }
  rewrite Hnone. reflexivity.
Qed.

Lemma concat_all_nil {A : Type} (rs : list (list A)) :
  Forall (fun r => r = []) rs -> List.concat rs = [].
Proof.
  induction 1 as [|r rs -> _ IH]; [reflexivity|exact IH].
Qed.

(** X15.  With [hash_fields] zero every key is empty, and the DISK engine
    skips a line with an empty key: it ends with empty report data,
    whatever the corpus holds.  The merge batch size is at least two. *)
Theorem disk_reports_nothing_without_hash_fields (xxh64 : string -> N)
  (config : Config) (files : list File) (fuel : nat) (order : list nat) :
  hash_fields config = 0%Z ->
  (2 <= merge_batch_size config)%Z ->
  List.length (disk_runs xxh64 config files order) <= fuel ->
  disk_output xxh64 config fuel files order = Done [].
Proof.
  intros Hf Hmbs Hfuel.
  assert (Hruns : Forall (fun r => r = [])
                    (disk_runs xxh64 config files order)).
  { unfold disk_runs. apply Forall_forall. intros r Hr.
    apply in_flat_map in Hr. destruct Hr as [fid [_ Hr]].
    destruct (nth_error files fid) as [f|]; [|destruct Hr].
    unfold process_and_sort_chunk_disk in Hr. apply in_map_iff in Hr.
    destruct Hr as [chunk [<- _]]. now apply disk_chunk_without_keys. }
  assert (Hsorted : Forall sorted_run (disk_runs xxh64 config files order)).
  { eapply Forall_impl; [|exact Hruns]. intros r ->.
    split; constructor. }
  assert (Hconcat : List.concat (disk_runs xxh64 config files order) = [])
    by (apply concat_all_nil, Hruns).
  destruct (cascade_spec fuel _ _ Hmbs Hfuel Hsorted)
    as (final & Hc & Hlen & _ & Hperm).
  unfold disk_output. rewrite Hc. rewrite Hconcat in Hperm.
  apply Permutation_sym, Permutation_nil in Hperm.
  destruct final as [|final_merged_file rest]; [reflexivity|].
  cbn [List.concat] in Hperm. apply app_eq_nil in Hperm.
  destruct Hperm as [-> _]. reflexivity.
Qed.

Lemma disk_reports_nothing_without_hash_fields_witness :
  disk_output fnv1a64 (mkConfig 47 0 ";" 256 false) 2 twin_corpus [0; 1]
  = Done [].
Proof.
  apply disk_reports_nothing_without_hash_fields.
  - reflexivity.
  - vm_compute. discriminate.
  - vm_compute. repeat constructor.
Defined.

(** ** A second run after a deletion, on a corpus with one prefix per hash *)

Lemma set_add_in (x y : string) (s : list string) :
  In x (set_add y s) <-> x = y \/ In x s.
Proof.
  unfold set_add. destruct (existsb (String.eqb y) s) eqn:E.
  - split; [now right|]. intros [->|H]; [|exact H].
    apply existsb_exists in E. destruct E as [z [Hz Ez]].
    apply String.eqb_eq in Ez. now subst z.
  - rewrite in_app_iff. simpl. intuition congruence.
Qed.

Lemma set_add_nodup (y : string) (s : list string) :
  NoDup s -> NoDup (set_add y s).
Proof.
  intros Hnd. unfold set_add. destruct (existsb (String.eqb y) s) eqn:E;
    [exact Hnd|].
  apply NoDup_app; [exact Hnd|repeat constructor; simpl; tauto|].
  intros z Hz [Heq|[]]. subst z.
  assert (existsb (String.eqb y) s = true); [|congruence].
  apply existsb_exists. exists y. split; [exact Hz|apply String.eqb_refl].
Qed.

Lemma mem_filter_dict {V : Type} (p : string * V -> bool) (h : string)
  (v : V) (d : sdict V) :
  sget h d = Some v -> p (h, v) = true ->
  PyDict.mem String.eqb h (filter p d) = true.
Proof.
  unfold PyDict.mem. induction d as [|[k w] d IH]; [discriminate|].
  cbn [PyDict.get filter].
  destruct (String.eqb_spec h k) as [->|Hne].
  - intros [= ->] Hp. rewrite Hp. cbn [PyDict.get].
    now rewrite String.eqb_refl.
  - intros Hget Hp. destruct (p (k, w)); [|now apply IH].
    cbn [PyDict.get]. destruct (String.eqb_spec h k); [contradiction|].
    now apply IH.
Qed.

Lemma filter_two {A : Type} (p : A -> bool) (l : list A) (i j : A) :
  NoDup l -> In i l -> In j l -> i <> j -> p i = true -> p j = true ->
  1 < List.length (filter p l).
Proof.
  intros Hnd Hi Hj Hij Hpi Hpj.
  assert (Hfi : In i (filter p l)) by (apply filter_In; auto).
  assert (Hfj : In j (filter p l)) by (apply filter_In; auto).
  destruct (filter p l) as [|a [|b r]]; [destruct Hfi| |simpl; lia].
  destruct Hfi as [<-|[]], Hfj as [<-|[]]. contradiction.
Qed.

Section Scan1.

Variable xxh64 : string -> N.
Variable config : Config.

Local Abbreviation lh := (line_hash xxh64 config).
Local Abbreviation lp := (line_prefix config).

Local Opaque line_hash line_prefix.

(** The body of the first scan on a stripped, non-blank line. *)
Definition scan1_item (P : list string) (acc : sdict (list string))
  (x : string * string) : sdict (list string) :=
  if set_mem (lp (snd x)) P then
    sset (lh (snd x)) (set_add (fst x) (get_default (lh (snd x)) acc [])) acc
  else acc.

Lemma scan1_fold_items (P : list string) (files : list File)
  (acc : sdict (list string)) :
  fold_left
    (fun acc f => fold_left (scan1_step xxh64 config P (name f)) (body f) acc)
    files acc
  = fold_left (scan1_item P) (items_of files) acc.
Proof.
  revert acc. induction files as [|f files IH]; intros acc; [reflexivity|].
  cbn [fold_left]. unfold items_of. cbn [flat_map].
  rewrite fold_left_app. fold (items_of files). rewrite <- IH. f_equal.
  rewrite fold_left_map_list. unfold data_lines.
  apply fold_skip_blank. intros a line.
  unfold scan1_step, scan1_item. cbv zeta. cbn [fst snd].
  destruct (PyStr.truthy (PyStr.strip line)); reflexivity.
Qed.

(** What the first scan holds after the lines [pre]: under each hash, a
    set with the names of the files in which a line of that hash showed a
    listed prefix. *)
Definition found (P : list string) (pre : list (string * string))
  (acc : sdict (list string)) : Prop :=
  forall h,
    NoDup (get_default h acc [])
    /\ forall n s,
         In (n, s) pre -> lh s = h -> set_mem (lp s) P = true ->
         In n (get_default h acc []).

Lemma found_step (P : list string) (pre : list (string * string))
  (x : string * string) (acc : sdict (list string)) :
  found P pre acc -> found P (pre ++ [x]) (scan1_item P acc x).
Proof.
  intros Hacc h. destruct x as [n0 s0]. unfold scan1_item. cbn [fst snd].
  destruct (Hacc h) as [Hnd Hin].
  destruct (set_mem (lp s0) P) eqn:HP.
  - unfold get_default at 1 3. rewrite sget_sset.
    destruct (String.eqb_spec h (lh s0)) as [->|Hne].
    + split; [apply set_add_nodup, Hnd|].
      intros n s Hs Hh Hl. apply set_add_in. apply in_app_or in Hs.
      destruct Hs as [Hs|[[= <- <-]|[]]]; [right; now apply (Hin n s)|now left].
    + split; [exact Hnd|].
      intros n s Hs Hh Hl. apply in_app_or in Hs.
      destruct Hs as [Hs|[[= <- <-]|[]]]; [now apply (Hin n s)|congruence].
  - split; [exact Hnd|].
    intros n s Hs Hh Hl. apply in_app_or in Hs.
    destruct Hs as [Hs|[[= <- <-]|[]]]; [now apply (Hin n s)|congruence].
Qed.

Lemma found_scan (P : list string) (files : list File) :
  found P (items_of files)
    (fold_left
       (fun acc f =>
          fold_left (scan1_step xxh64 config P (name f)) (body f) acc)
       files []).
Proof.
  rewrite scan1_fold_items.
  apply (fold_left_prefix_inv (scan1_item P) (found P)).
  - intros h. split; [constructor|]. intros n s [].
  - intros pre x acc. apply found_step.
Qed.

(** A line of a file, among the items of the scans. *)
Lemma hash_line_item (files : list File) (f : File) (h line : string) :
  In f files -> In line (hash_lines xxh64 config h f) ->
  In (name f, PyStr.strip line) (items_of files)
  /\ In (PyStr.strip line) (all_lines files)
  /\ lh (PyStr.strip line) = h.
Proof.
  intros Hf Hline. unfold hash_lines in Hline. apply filter_In in Hline.
  destruct Hline as [Hbody Hq]. apply andb_true_iff in Hq.
  destruct Hq as [Ht Hh]. apply String.eqb_eq in Hh.
  assert (Hdl : In (PyStr.strip line) (data_lines f)).
  { unfold data_lines. apply filter_In. split; [now apply in_map|exact Ht]. }
  split; [|split; [|exact Hh]].
  - unfold items_of. apply in_flat_map. exists f. split; [exact Hf|].
    now apply (in_map (fun s => (name f, s))).
  - unfold all_lines. apply in_flat_map. eauto.
Qed.

(** A hash that two files hold, on lines with listed prefixes, is among
    the hashes for which lines are collected. *)
Lemma hash_in_two_files_is_collected (files : list File)
  (duplicates_data : sdict (list string)) (f g : File) (h : string) :
  NoDup (map name files) ->
  (forall s, In s (all_lines files) -> lh s = h ->
             exists l, In (lp s, l) duplicates_data /\ 1 < List.length l) ->
  In f files -> In g files -> name f <> name g ->
  hash_lines xxh64 config h f <> [] -> hash_lines xxh64 config h g <> [] ->
  exists flm,
    sget h
      (collect_duplicate_lines_for_deletion xxh64 config files
         duplicates_data)
    = Some flm.
Proof.
  intros Hnd Hlisted Hf Hg Hfg Hhf Hhg.
  destruct (hash_lines xxh64 config h f) as [|lf rf] eqn:Ef; [congruence|].
  destruct (hash_lines xxh64 config h g) as [|lg rg] eqn:Eg; [congruence|].
  destruct (hash_line_item files f h lf Hf) as (Hif & Haf & Hlf);
    [rewrite Ef; now left|].
  destruct (hash_line_item files g h lg Hg) as (Hig & Hag & Hlg);
    [rewrite Eg; now left|].
  unfold collect_duplicate_lines_for_deletion. cbv zeta.
  set (big := fun kv : string * list string =>
                (1 <? List.length (snd kv))%nat).
  assert (HP : forall s, In s (all_lines files) -> lh s = h ->
                         set_mem (lp s) (map fst (filter big duplicates_data))
                         = true).
  { intros s Hs Hh. destruct (Hlisted s Hs Hh) as [l [Hin Hl]].
    apply set_mem_in. apply in_map_iff. exists (lp s, l).
    split; [reflexivity|]. apply filter_In. split; [exact Hin|].
    unfold big. cbn [snd]. now apply Nat.ltb_lt. }
  pose proof (HP _ Haf Hlf) as HPf. pose proof (HP _ Hag Hlg) as HPg.
  destruct (map fst (filter big duplicates_data)) as [|p0 P] eqn:EP;
    [discriminate|].
  pose proof (found_scan (p0 :: P) files h) as [HndL HinL].
  set (H := fold_left
              (fun acc f0 =>
                 fold_left (scan1_step xxh64 config (p0 :: P) (name f0))
                   (body f0) acc) files []) in *.
  pose proof (HinL _ _ Hif Hlf HPf) as Hnf.
  pose proof (HinL _ _ Hig Hlg HPg) as Hng.
  assert (Hmem : PyDict.mem String.eqb h (filter big H) = true).
  { unfold get_default in *. destruct (sget h H) as [L|] eqn:EL;
      [|destruct Hnf].
    apply (mem_filter_dict big h L H EL). unfold big. cbn [snd].
    apply Nat.ltb_lt.
    destruct L as [|a [|b L]]; [destruct Hnf| |simpl; lia].
    destruct Hnf as [E1|[]], Hng as [E2|[]]. congruence. }
  pose proof (collected_scan xxh64 config (filter big H) files) as [_ Hcol].
  specialize (Hcol h).
  destruct (sget h (fold_left _ files [])) as [flm|]; [eauto|].
  exfalso. specialize (Hcol Hmem (name f)).
  rewrite (lines_of_items xxh64 config files h f Hnd Hf), Ef in Hcol.
  discriminate.
Qed.

End Scan1.

Section AfterDeletion.

Variable xxh64 : string -> N.
Variable config : Config.

Local Abbreviation lh := (line_hash xxh64 config).
Local Abbreviation lp := (line_prefix config).

Local Opaque line_hash line_prefix.

Lemma apply_jobs_header_ok (js : list (string * list string)) (f : File) :
  header_ok f -> header_ok (apply_jobs js f).
Proof.
  unfold apply_jobs. revert f. induction js as [|j js IH]; intros f Hh;
    [exact Hh|].
  cbn [fold_left]. apply IH. now apply apply_job_body.
Qed.

Lemma hash_lines_apply_jobs (js : list (string * list string)) (f : File)
  (h : string) :
  header_ok f ->
  hash_lines xxh64 config h (apply_jobs js f)
  = filter (kept js (name f)) (hash_lines xxh64 config h f).
Proof.
  intros Hh. unfold hash_lines. rewrite (apply_jobs_body js f Hh).
  rewrite !filter_twice. apply filter_ext. intros line. apply andb_comm.
Qed.

(** After the first stage, the lines of a hash are left in one file at
    most. *)
Lemma inter_file_one_owner (files : list File)
  (duplicates_data : sdict (list string)) (h : string) :
  NoDup (map name files) ->
  (forall f, In f files -> header_ok f) ->
  (forall s, In s (all_lines files) ->
             1 < List.length (containing xxh64 config files (lh s)) ->
             exists l, In (lp s, l) duplicates_data /\ 1 < List.length l) ->
  exists k,
    forall f,
      In f files -> name f <> k ->
      hash_lines xxh64 config h
        (apply_jobs
           (flat_map (fun e => jobs_of (snd e))
              (collect_duplicate_lines_for_deletion xxh64 config files
                 duplicates_data)) f)
      = [].
Proof.
  intros Hnd Hhead Hlisted.
  destruct (collect_collected xxh64 config files duplicates_data)
    as [M [HndL Hcol]].
  set (ltd := collect_duplicate_lines_for_deletion xxh64 config files
                duplicates_data) in *.
  set (js := flat_map (fun e => jobs_of (snd e)) ltd).
  destruct (sget h ltd) as [flm|] eqn:Hget.
  - (* the hash was collected: the first name in sorted order owns it *)
    pose proof (Hcol h) as Hh. rewrite Hget in Hh.
    destruct Hh as (_ & _ & Hndf & Hflm).
    exists (hd EmptyString (sorted_strings (PyDict.keys flm))).
    intros f Hf Hname. rewrite hash_lines_apply_jobs by now apply Hhead.
    apply filter_none. intros line Hline. apply kept_false.
    pose proof (Hflm (name f)) as Hn.
    rewrite (lines_of_items xxh64 config files h f Hnd Hf) in Hn.
    destruct (sget (name f) flm) as [ls|] eqn:Hls;
      [|apply map_eq_nil in Hn; rewrite Hn in Hline; destruct Hline].
    destruct Hn as [-> _].
    exists (name f, map PyStr.strip (hash_lines xxh64 config h f)).
    split; [|split; [reflexivity|now apply in_map]].
    unfold js. apply in_flat_map. exists (h, flm).
    split; [apply (dget_some_in String.eqb String.eqb_spec), Hget|].
    unfold jobs_of. cbn [snd]. apply in_map_iff. exists (name f).
    split; [unfold get_default; now rewrite Hls|].
    assert (Hkey : In (name f) (PyDict.keys flm))
      by (eapply (dget_some_key String.eqb String.eqb_spec), Hls).
    unfold sorted_strings in *.
    apply (Permutation_in _ (Permutation_sym (py_sort_perm String.leb _)))
      in Hkey.
    destruct (py_sort String.leb (PyDict.keys flm)) as [|keep dels];
      [destruct Hkey|].
    cbn [hd] in Hname. cbn [tl].
    destruct Hkey as [E|Hd]; [congruence|exact Hd].
  - (* the hash was not collected: one file at most holds it *)
    destruct (existsb
                (fun f => match hash_lines xxh64 config h f with
                          | [] => false
                          | _ => true
                          end) files) eqn:Eheld.
    + apply existsb_exists in Eheld. destruct Eheld as [f0 [Hf0 Hh0]].
      exists (name f0). intros f Hf Hname.
      rewrite hash_lines_apply_jobs by now apply Hhead.
      destruct (hash_lines xxh64 config h f) as [|line rest] eqn:Ef;
        [reflexivity|exfalso].
      assert (Hex : exists flm, sget h ltd = Some flm).
      { apply (hash_in_two_files_is_collected xxh64 config files
                 duplicates_data f f0 h Hnd); try assumption.
        - intros s Hs Hhs. apply Hlisted; [exact Hs|]. rewrite Hhs.
          destruct (In_nth_error _ _ Hf) as [i Hi].
          destruct (In_nth_error _ _ Hf0) as [j Hj].
          unfold containing.
          apply (filter_two _ _ i j).
          + apply seq_NoDup.
          + apply in_seq. split; [lia|]. apply nth_error_Some. congruence.
          + apply in_seq. split; [lia|]. apply nth_error_Some. congruence.
          + intros ->. congruence.
          + apply Nat.ltb_lt. unfold file_count. rewrite Hi.
            unfold occurrences. rewrite data_hash_lines, Ef. simpl. lia.
          + apply Nat.ltb_lt. unfold file_count. rewrite Hj.
            unfold occurrences. rewrite data_hash_lines.
            destruct (hash_lines xxh64 config h f0); [discriminate|].
            simpl. lia.
        - rewrite Ef. discriminate.
        - destruct (hash_lines xxh64 config h f0); [discriminate|].
          discriminate. }
      destruct Hex as [flm Hflm]. congruence.
    + exists EmptyString. intros f Hf _.
      rewrite hash_lines_apply_jobs by now apply Hhead.
      assert (Hnone : hash_lines xxh64 config h f = []).
      { destruct (hash_lines xxh64 config h f) as [|line rest] eqn:Ef;
          [reflexivity|].
        assert (Htrue : existsb
                          (fun f => match hash_lines xxh64 config h f with
                                    | [] => false
                                    | _ => true
                                    end) files = true)
          by (apply existsb_exists; exists f; split; [exact Hf|];
              now rewrite Ef).
        congruence. }
      now rewrite Hnone.
Qed.

(** *** The second stage *)

(** What the second stage does to one file. *)
Definition dedup (f : File) : File :=
  let '(lines, intra_deleted) :=
    find_and_delete_intrafile_duplicates xxh64 config (content f) in
  if (0 <? intra_deleted)%nat then with_content f lines else f.

Lemma delete_intra_file_map (files : list File) :
  fst (delete_intra_file xxh64 config files) = map dedup files.
Proof.
  unfold delete_intra_file.
  match goal with |- fst (fold_left ?F files _) = _ => set (step := F) end.
  assert (Hgen : forall done counts,
            fst (fold_left step files (done, counts))
            = (done ++ map dedup files)%list).
  { induction files as [|f files IH]; intros done counts; cbn [fold_left].
    - cbn [map fst]. now rewrite app_nil_r.
    - assert (Hstep : fst (step (done, counts) f) = (done ++ [dedup f])%list).
      { unfold step, dedup.
        destruct (find_and_delete_intrafile_duplicates xxh64 config
                    (content f)) as [lines n].
        reflexivity. }
      destruct (step (done, counts) f) as [done' counts'].
      cbn [fst] in Hstep. subst done'.
      rewrite IH. cbn [map]. now rewrite <- app_assoc. }
  apply (Hgen [] []).
Qed.

Lemma dedup_name (f : File) : name (dedup f) = name f.
Proof.
  unfold dedup.
  destruct (find_and_delete_intrafile_duplicates xxh64 config (content f))
    as [lines n].
  now destruct (0 <? n)%nat.
Qed.

Lemma dedup_hash_lines (f : File) (h : string) :
  header_ok f ->
  hash_lines xxh64 config h (dedup f)
  = firstn 1 (hash_lines xxh64 config h f).
Proof.
  intros Hhead.
  destruct (find_and_delete_intrafile_duplicates_result xxh64 config f Hhead)
    as (seen & kept & n & Hinv & Hres).
  destruct Hinv as (_ & Hfirst & _ & _ & Hmask & Hall).
  unfold dedup. rewrite Hres.
  change (hash_lines xxh64 config h f)
    with (filter (has_hash xxh64 config h) (body f)).
  rewrite <- Hfirst.
  destruct (0 <? n)%nat eqn:Hn.
  - unfold hash_lines, body in *. cbn [with_content content].
    destruct (content f) as [|header rest]; cbn [tl]; [|reflexivity].
    destruct Hmask as [mask [Hm Hsel]]. simpl in Hm, Hsel.
    destruct mask; [|discriminate Hm]. rewrite Hsel. reflexivity.
  - apply Nat.ltb_ge in Hn. assert (n = 0) as E by lia.
    rewrite (Hall E). reflexivity.
Qed.

(** *** Counting the lines of a hash *)

Lemma total_count_hash_lines (files : list File) (h : string) :
  total_count xxh64 config files h
  = list_sum
      (map (fun f => List.length (hash_lines xxh64 config h f)) files).
Proof.
  rewrite total_count_all_lines. unfold all_lines.
  induction files as [|f files IH]; [reflexivity|].
  cbn [flat_map map list_sum fold_right]. rewrite occurrences_app.
  unfold list_sum in IH. rewrite IH. f_equal.
  unfold occurrences. now rewrite data_hash_lines, length_map.
Qed.

Lemma sum_one_owner (a : File -> nat) (k : string) (files : list File) :
  NoDup (map name files) ->
  (forall f, In f files -> name f <> k -> a f = 0) ->
  (forall f, In f files -> a f <= 1) ->
  list_sum (map a files) <= 1.
Proof.
  induction files as [|f files IH]; intros Hnd Hzero Hone; [simpl; lia|].
  cbn [map] in Hnd. apply NoDup_cons_iff in Hnd. destruct Hnd as [Hf Hnd].
  cbn [map list_sum fold_right].
  destruct (String.eqb_spec (name f) k) as [E|Hne].
  - assert (Hrest : list_sum (map a files) = 0).
    { clear IH. change (fold_right Nat.add 0 (map a files) = 0).
      induction files as [|g files IHg]; [reflexivity|].
      cbn [map fold_right]. rewrite (Hzero g).
      - apply IHg.
        + intros Hin. apply Hf. now right.
        + now apply NoDup_cons_iff in Hnd.
        + intros g' Hg'. apply Hzero. destruct Hg'; [now left|right; now right].
        + intros g' Hg'. apply Hone. destruct Hg'; [now left|right; now right].
      - right. now left.
      - intros E'. apply Hf. left. congruence. }
    pose proof (Hone f (or_introl eq_refl)). unfold list_sum in Hrest. lia.
  - rewrite (Hzero f (or_introl eq_refl) Hne).
    assert (IH' := IH Hnd (fun g Hg => Hzero g (or_intror Hg))
                     (fun g Hg => Hone g (or_intror Hg))).
    unfold list_sum in IH'. lia.
Qed.

End AfterDeletion.

(** X16.  On a corpus in which two lines have the same hash exactly when
    they have the same prefix, a run of the FAST engine with the deletion
    switched on leaves files in which no hash occurs twice: a second run
    changes nothing and writes the report of no duplicates.  Basenames are
    distinct and no file starts with an empty line. *)
Theorem deletion_round_trip_on_agreeing_corpus (xxh64 : string -> N)
  (config : Config) (files : list File) (order order2 : list nat) :
  deleteduplicates config = true ->
  (forall s t,
     In s (all_lines files) -> In t (all_lines files) ->
     (line_hash xxh64 config s = line_hash xxh64 config t
      <-> line_prefix config s = line_prefix config t)) ->
  NoDup (map name files) ->
  (forall f, In f files -> header_ok f) ->
  Permutation order (seq 0 (List.length files)) ->
  Permutation order2 (seq 0 (List.length files)) ->
  let files' := fst (run_strategy_fast xxh64 config files order) in
  run_strategy_fast xxh64 config files' order2
  = (files', [(NO_DUPLICATES ++ NL)%string]).
Proof.
  intros Hdel Hhp Hnd Hhead Hperm Hperm2. cbv zeta.
  destruct (fast_output_spec xxh64 config files Hhp order Hperm)
    as [HndD HD].
  set (d := fast_output xxh64 config files order) in *.
  set (ltd := collect_duplicate_lines_for_deletion xxh64 config files d).
  set (js := flat_map (fun e => jobs_of (snd e)) ltd).
  (* the files the first run leaves *)
  assert (Hfiles : fst (run_strategy_fast xxh64 config files order)
                   = map (dedup xxh64 config) (map (apply_jobs js) files)).
  { unfold run_strategy_fast, finish. cbv zeta. rewrite Hdel.
    fold d. fold ltd. unfold delete_duplicate_rows.
    pose proof (delete_inter_file_files files ltd Hnd) as H1.
    destruct (delete_inter_file files ltd) as [files1 inter].
    pose proof (delete_intra_file_map xxh64 config files1) as H2.
    destruct (delete_intra_file xxh64 config files1) as [files2 intra].
    cbn [fst] in *. now rewrite H2, H1. }
  rewrite Hfiles.
  set (files2 := map (dedup xxh64 config) (map (apply_jobs js) files)).
  assert (Hlen : List.length files2 = List.length files)
    by (unfold files2; now rewrite !length_map).
  (* every prefix of a hash held by two files is listed *)
  assert (Hlisted : forall s,
            In s (all_lines files) ->
            1 < List.length
                  (containing xxh64 config files (line_hash xxh64 config s)) ->
            exists l, In (line_prefix config s, l) d /\ 1 < List.length l).
  { intros s Hs Hmany.
    exists (map (id_to_file_map files)
              (containing xxh64 config files (line_hash xxh64 config s))).
    split; [|now rewrite length_map].
    apply (dget_some_in String.eqb String.eqb_spec). apply HD.
    exists s. split; [exact Hs|]. split; [reflexivity|].
    split; [|reflexivity].
    pose proof (total_count_ge xxh64 config files
                  (line_hash xxh64 config s)). lia. }
  (* no hash occurs twice in what is left *)
  assert (Hnone : forall h, total_count xxh64 config files2 h <= 1).
  { intros h. rewrite total_count_hash_lines. unfold files2.
    rewrite !map_map.
    destruct (inter_file_one_owner xxh64 config files d h Hnd Hhead Hlisted)
      as [k Hk]. fold ltd in Hk. fold js in Hk.
    apply (sum_one_owner _ k files Hnd).
    - intros f Hf Hname.
      rewrite dedup_hash_lines
        by (apply apply_jobs_header_ok; now apply Hhead).
      now rewrite (Hk f Hf Hname).
    - intros f Hf.
      rewrite dedup_hash_lines
        by (apply apply_jobs_header_ok; now apply Hhead).
      rewrite length_firstn. lia. }
  unfold run_strategy_fast. cbv zeta.
  rewrite (fast_output_without_duplicates xxh64 config files2 order2)
    by (rewrite ?Hlen; assumption).
  now apply finish_nothing.
Qed.

Lemma deletion_round_trip_on_agreeing_corpus_witness :
  let files' :=
    fst (run_strategy_fast fnv1a64 deleting_config keep_corpus [0; 1]) in
  run_strategy_fast fnv1a64 deleting_config files' [1; 0]
  = (files', [(NO_DUPLICATES ++ NL)%string]).
Proof.
  cbv zeta.
  apply (deletion_round_trip_on_agreeing_corpus fnv1a64 deleting_config
           keep_corpus [0; 1] [1; 0]).
  - reflexivity.
  - intros s t Hs Ht. corpus_lines Hs; corpus_lines Ht;
      (split; intros E; try reflexivity; vm_compute in E; discriminate E).
  - vm_compute. repeat constructor; simpl; intuition discriminate.
  - intros f Hf. vm_compute in Hf.
    destruct Hf as [<-|[<-|[]]]; vm_compute; reflexivity.
  - apply Permutation_refl.
  - apply perm_swap.
Defined.
